(** * The event-driven order fulfilment saga: cart, order, payment, product

    A shallow embedding of the four Flask services under [src/services]
    (cart-service, order-service, payment-service, product-service) and the
    properties of their request and event handlers.

    - Python [float]s are IEEE binary64: they are Rocq's primitive floats,
      and [round(x, 2)] is written out in module [Py].
    - The in-memory stores ([carts_db], [orders_db], [payments_db],
      [products_db]) are finite maps keyed by strings.
    - Orders and payments are Python dicts that the handlers extend in
      place (the order handler spreads the event payload into the order):
      they are finite maps from keys to JSON values, as are request bodies
      and event envelopes. Carts, cart items and products are built by
      their service with a fixed set of typed fields and are records.
    - [uuid.uuid4()], [datetime.utcnow()] and the outcome of the HTTP POST
      to the Dapr sidecar are read from a [Runtime] oracle that every
      handler receives; every publish attempt is recorded in an outbox. *)

Set Warnings "-inexact-float,-register-all".

From Stdlib Require Import ZArith PrimFloat FloatOps SpecFloat.
From stdpp Require Import base option list strings gmap.

Local Open Scope string_scope.
Local Open Scope Z_scope.

(** ** Python numbers *)

Module Py.

(** [float(n)] for a Python int: the nearest binary64 value. *)
Definition float_of_Z (z : Z) : float :=
  SF2Prim (binary_normalize prec emax z 0 false).

(** Truth value of a float in a condition: [x != 0.0]. *)
Definition truthy_float (x : float) : bool := negb (PrimFloat.eqb x 0).

(** Round the rational [n / 2^k] to the nearest integer, ties to even. *)
Definition round_half_even_shift (n : Z) (k : Z) : Z :=
  let d := 2 ^ k in
  let q := n / d in
  let r := n mod d in
  match Z.compare (2 * r) d with
  | Lt => q
  | Gt => q + 1
  | Eq => if Z.even q then q else q + 1
  end.

(** The number of hundredths nearest to the exact value [m * 2^e]. *)
Definition nearest_cents (m : positive) (e : Z) : Z :=
  if 0 <=? e then 100 * Z.pos m * 2 ^ e
  else round_half_even_shift (100 * Z.pos m) (- e).

(** [round(x, 2)] on a float. CPython rounds the exact binary value of [x]
    to two decimals (ties to even) and returns the float nearest to that
    decimal. From 2^46 on the floats are more than 0.01 apart and the
    result is [x] itself; below, the number of hundredths is under 2^53, so
    the correctly rounded quotient by 100 is that nearest float. NaN,
    infinities and zeros are returned unchanged, and the sign is kept. *)
Definition round2 (x : float) : float :=
  match Prim2SF x with
  | S754_finite s m e =>
      if PrimFloat.leb 0x1p46 (PrimFloat.abs x) then x
      else
        let r := PrimFloat.div (float_of_Z (nearest_cents m e)) 100 in
        if s then PrimFloat.opp r else r
  | _ => x
  end.

(** [sum(f(item) for item in items)]: left to right, starting from 0. *)
Definition sum_floats {A} (f : A -> float) (l : list A) : float :=
  fold_left (fun acc a => PrimFloat.add acc (f a)) l 0%float.

End Py.

(** ** JSON values and Python dicts *)

Inductive value :=
| VNone
| VStr (s : string)
| VInt (n : Z)
| VFloat (x : float)
| VList (l : list value)
| VDict (d : gmap string value).

Abbreviation dict := (gmap string value).

(** A dict literal [{k1: v1, ...}] with distinct keys. *)
Definition mk_dict (l : list (string * value)) : dict := list_to_map l.

Definition dict_empty (d : dict) : bool :=
  match map_to_list d with [] => true | _ => false end.

(** Truth value of an object in [if x] / [not x]. *)
Definition truthy (v : value) : bool :=
  match v with
  | VNone => false
  | VStr s => match s with EmptyString => false | _ => true end
  | VInt n => negb (n =? 0)
  | VFloat x => Py.truthy_float x
  | VList l => match l with [] => false | _ => true end
  | VDict d => negb (dict_empty d)
  end.

(** [v == s] for a str constant [s]. *)
Definition eq_str (v : value) (s : string) : bool :=
  match v with VStr s' => String.eqb s' s | _ => false end.

(** Whether [len(v)] is defined. *)
Definition sized (v : value) : bool :=
  match v with VStr _ | VList _ | VDict _ => true | _ => false end.

(** The object as a dict, for [.get]; [None] when it has no [.get]
    (AttributeError). *)
Definition as_dict (v : value) : option dict :=
  match v with VDict d => Some d | _ => None end.

(** An operand of [+] with a float: ints are converted, anything else
    raises TypeError ([None]). *)
Definition as_number (v : value) : option float :=
  match v with
  | VFloat x => Some x
  | VInt n => Some (Py.float_of_Z n)
  | _ => None
  end.

(** ** The runtime and the Dapr sidecar *)

(** What a request reads from outside the program. [step] numbers the
    places of a handler that draw a uuid or read the clock, in program
    order. *)
Record Runtime := {
  uuid4_hex : nat -> string;        (* uuid.uuid4().hex, 32 hex digits *)
  utcnow : nat -> string;           (* datetime.utcnow().isoformat() + "Z" *)
  post_ok : string -> dict -> bool; (* the POST of this envelope to this
                                       topic is answered 200 or 204 *)
  str_to_float : string -> option float; (* float(s) on a str; None: ValueError *)
  str_to_int : string -> option Z      (* int(s) on a str; None: ValueError *)
}.

(** [str(uuid.uuid4())]: the hex digits in groups 8-4-4-4-12. *)
Definition uuid_str (h : string) : string :=
  String.substring 0 8 h +:+ "-" +:+ String.substring 8 4 h +:+ "-" +:+ String.substring 12 4 h
  +:+ "-" +:+ String.substring 16 4 h +:+ "-" +:+ String.substring 20 12 h.

(** One call of [publish_event]: the envelope that was posted and what
    the function returned. *)
Record Published := {
  pub_topic : string;
  pub_event : dict;
  pub_ok : bool
}.

(** An HTTP answer [jsonify(body), code], or an unhandled exception. *)
Inductive response :=
| Response (code : Z) (body : value)
| Raised.

Module Dapr.

(** [publish_event(topic, event_type, data)] of the service [source]:
    build the envelope, post it, return whether the sidecar accepted it.
    Nothing is raised and nothing is retried. *)
Definition publish_event (source : string) (rt : Runtime) (step : nat)
    (topic event_type : string) (data : dict) : Published :=
  let event := mk_dict [
    ("id", VStr (uuid_str (uuid4_hex rt step)));
    ("source", VStr source);
    ("type", VStr event_type);
    ("specversion", VStr "1.0");
    ("datacontenttype", VStr "application/json");
    ("data", VDict data);
    ("timestamp", VStr (utcnow rt step))] in
  {| pub_topic := topic; pub_event := event; pub_ok := post_ok rt topic event |}.

End Dapr.

(** The event type and topic of a publish attempt. *)
Definition pub_type (p : Published) : option value := pub_event p !! "type".
Definition pub_data (p : Published) : option value := pub_event p !! "data".

(** [float(v)]: numbers are converted, a str is parsed, anything else
    raises TypeError ([None]). *)
Definition to_float (rt : Runtime) (v : value) : option float :=
  match v with
  | VFloat x => Some x
  | VInt n => Some (Py.float_of_Z n)
  | VStr s => str_to_float rt s
  | _ => None
  end.

(** [int(v)]: a float is truncated towards zero (NaN and the infinities
    raise), a str is parsed, anything else raises TypeError ([None]). *)
Definition to_int (rt : Runtime) (v : value) : option Z :=
  match v with
  | VInt n => Some n
  | VFloat x =>
      match Prim2SF x with
      | S754_zero _ => Some 0
      | S754_finite s m e =>
          let a := if 0 <=? e then Z.pos m * 2 ^ e else Z.pos m / 2 ^ (- e) in
          Some (if s then - a else a)
      | _ => None
      end
  | VStr s => str_to_int rt s
  | _ => None
  end.

(** What [for item in items] iterates over when every item is then
    asked for [.get]: the elements of a list. A str or a dict yields strs,
    so only an empty one passes; anything else is not iterable ([None]:
    the loop raises at its first step). *)
Definition iterate (items : value) : option (list value) :=
  match items with
  | VList l => Some l
  | VStr EmptyString => Some []
  | VDict d => if dict_empty d then Some [] else None
  | _ => None
  end.

(** Python numbers in arithmetic: an int stays an int until it meets a
    float. *)
Inductive number :=
| NInt (n : Z)
| NFloat (x : float).

Definition number_of (v : value) : option number :=
  match v with
  | VInt n => Some (NInt n)
  | VFloat x => Some (NFloat x)
  | _ => None
  end.

Definition value_of (a : number) : value :=
  match a with NInt n => VInt n | NFloat x => VFloat x end.

Definition float_of (a : number) : float :=
  match a with NInt n => Py.float_of_Z n | NFloat x => x end.

Definition number_mul (a b : number) : number :=
  match a, b with
  | NInt x, NInt y => NInt (x * y)
  | _, _ => NFloat (PrimFloat.mul (float_of a) (float_of b))
  end.

Definition number_add (a b : number) : number :=
  match a, b with
  | NInt x, NInt y => NInt (x + y)
  | _, _ => NFloat (PrimFloat.add (float_of a) (float_of b))
  end.

Definition error_body (msg : string) : value :=
  VDict (mk_dict [("error", VStr msg)]).

(** ** cart-service *)

Module CartService.

Definition CART_TOPIC : string := "cart-events".
Definition ORDER_TOPIC : string := "order-events".

Record CartItem := {
  item_id : string;
  product_id : string;
  product_name : string;
  quantity : Z;
  unit_price : float;
  added_at : string
}.

Record Cart := {
  user_id : string;
  items : list CartItem;
  created_at : string;
  updated_at : string
}.

(** A cart item as it is serialised into an event. *)
Definition item_json (i : CartItem) : value :=
  VDict (mk_dict [
    ("item_id", VStr (item_id i));
    ("product_id", VStr (product_id i));
    ("product_name", VStr (product_name i));
    ("quantity", VInt (quantity i));
    ("unit_price", VFloat (unit_price i));
    ("added_at", VStr (added_at i))]).

(** The store the service starts with. *)
Definition sample_cart : Cart := {|
  user_id := "user-001";
  items := [ {| item_id := "cart-item-001";
                product_id := "prod-001";
                product_name := "Wireless Bluetooth Headphones";
                quantity := 2;
                unit_price := 149.99;
                added_at := "2026-01-11T09:00:00Z" |} ];
  created_at := "2026-01-11T08:00:00Z";
  updated_at := "2026-01-11T09:00:00Z" |}.

Definition carts_db : gmap string Cart := {[ "user-001" := sample_cart ]}.

Definition publish_event := Dapr.publish_event "cart-service".

(** [sum(item['unit_price'] * item['quantity'] for item in cart['items'])].
    The sum is the left-to-right float addition of the language definition
    (interpreters from 3.12 on compensate the rounding error of sums of two
    or more floats; with one item the two agree). *)
Definition calculate_cart_total (cart : Cart) : float :=
  Py.sum_floats
    (fun item => PrimFloat.mul (unit_price item) (Py.float_of_Z (quantity item)))
    (items cart).

(** The [order] dict that checkout builds from the cart. The items are a
    copy of the cart's list as it is at checkout. *)
Definition order_snapshot (order_id uid timestamp : string) (cart : Cart) : dict :=
  mk_dict [
    ("order_id", VStr order_id);
    ("user_id", VStr uid);
    ("items", VList (item_json <$> items cart));
    ("subtotal", VFloat (calculate_cart_total cart));
    ("tax", VFloat (Py.round2 (PrimFloat.mul (calculate_cart_total cart) 0.08)));
    ("total", VFloat (Py.round2 (PrimFloat.mul (calculate_cart_total cart) 1.08)));
    ("status", VStr "pending");
    ("created_at", VStr timestamp)].

(** [cart['items'] = []; cart['updated_at'] = timestamp]. *)
Definition cleared (timestamp : string) (cart : Cart) : Cart :=
  {| user_id := user_id cart; items := [];
     created_at := created_at cart; updated_at := timestamp |}.

(** [POST /carts/<user_id>/checkout]. Step 0 draws the order id and the
    timestamp, steps 1 and 2 are the two publishes. What a publish returns
    is not looked at. *)
Definition checkout (rt : Runtime) (uid : string) (carts_db : gmap string Cart)
    : response * gmap string Cart * list Published :=
  match carts_db !! uid with
  | None => (Response 404 (error_body "Cart not found"), carts_db, [])
  | Some cart =>
      match items cart with
      | [] => (Response 400 (error_body "Cart is empty"), carts_db, [])
      | _ :: _ =>
          let order_id := "order-" +:+ String.substring 0 8 (uuid4_hex rt 0) in
          let timestamp := utcnow rt 0 in
          let order := order_snapshot order_id uid timestamp cart in
          let created := publish_event rt 1 ORDER_TOPIC "order.created"
            (mk_dict [("order", VDict order); ("action", VStr "order_created")]) in
          let completed := publish_event rt 2 CART_TOPIC "cart.checkout_completed"
            (mk_dict [("user_id", VStr uid); ("order_id", VStr order_id);
                      ("total", default VNone (order !! "total"));
                      ("action", VStr "checkout_completed")]) in
          (Response 201 (VDict (mk_dict [
             ("message", VStr "Checkout successful");
             ("order_id", VStr order_id);
             ("total", default VNone (order !! "total"));
             ("status", VStr "pending")])),
           <[uid := cleared timestamp cart]> carts_db,
           [created; completed])
      end
  end.

(** [item['unit_price'] = float(new_price)] on the items whose
    [product_id] equals the event's. *)
Definition reprice (pid : value) (new_price : float) (item : CartItem) : CartItem :=
  if eq_str pid (product_id item) then
    {| item_id := item_id item; product_id := product_id item;
       product_name := product_name item; quantity := quantity item;
       unit_price := new_price; added_at := added_at item |}
  else item.

Definition reprice_cart (pid : value) (new_price : float) (cart : Cart) : Cart :=
  {| user_id := user_id cart; items := reprice pid new_price <$> items cart;
     created_at := created_at cart; updated_at := updated_at cart |}.

Definition mentions (pid : value) (cart : Cart) : bool :=
  existsb (fun item => eq_str pid (product_id item)) (items cart).

(** [POST /events/product]. [float(new_price)] is evaluated at each
    matching item only, so a price that cannot be converted raises when
    some cart holds the product and is never looked at otherwise. *)
Definition handle_product_event (rt : Runtime) (event : dict)
    (carts_db : gmap string Cart) : response * gmap string Cart :=
  let event_data := default (VDict ∅) (event !! "data") in
  let event_type := default (VStr "unknown") (event !! "type") in
  let processed := Response 200 (VDict (mk_dict [("status", VStr "processed")])) in
  if eq_str event_type "product.updated" then
    match as_dict event_data with
    | None => (Raised, carts_db)
    | Some event_data =>
        match as_dict (default (VDict ∅) (event_data !! "product")) with
        | None => (Raised, carts_db)
        | Some product =>
            let product_id := default VNone (product !! "id") in
            let new_price := default VNone (product !! "price") in
            if truthy product_id && truthy new_price then
              match to_float rt new_price with
              | Some p => (processed, reprice_cart product_id p <$> carts_db)
              | None =>
                  if existsb (mentions product_id) (snd <$> map_to_list carts_db)
                  then (Raised, carts_db)
                  else (processed, carts_db)
              end
            else (processed, carts_db)
        end
    end
  else (processed, carts_db).

End CartService.

(** ** order-service *)

Module OrderService.

Definition PAYMENT_TOPIC : string := "payment-events".
Definition PRODUCT_TOPIC : string := "product-events".

(** The store the service starts with: orders are dicts. *)
Definition sample_order : dict :=
  mk_dict [
       ("order_id", VStr "order-sample001");
       ("user_id", VStr "user-001");
       ("items", VList [ VDict (mk_dict [
           ("item_id", VStr "cart-item-001");
           ("product_id", VStr "prod-001");
           ("product_name", VStr "Wireless Bluetooth Headphones");
           ("quantity", VInt 1);
           ("unit_price", VFloat 149.99)]) ]);
       ("subtotal", VFloat 149.99);
       ("tax", VFloat 12.00);
       ("shipping", VFloat 5.99);
       ("total", VFloat 167.98);
       ("status", VStr "completed");
       ("payment_status", VStr "paid");
       ("shipping_address", VDict (mk_dict [
           ("street", VStr "123 Main St");
           ("city", VStr "Seattle");
           ("state", VStr "WA");
           ("zip", VStr "98101");
           ("country", VStr "USA")]));
       ("created_at", VStr "2026-01-10T14:30:00Z");
       ("updated_at", VStr "2026-01-10T15:00:00Z")].

Definition orders_db : gmap string dict :=
  {[ "order-sample001" := sample_order ]}.

Definition ORDER_STATUS_FLOW : list string := [
  "pending"; "confirmed"; "payment_processing"; "paid"; "processing";
  "shipped"; "delivered"; "completed"; "cancelled"; "refunded" ].

Definition publish_event := Dapr.publish_event "order-service".

(** [new_status in ORDER_STATUS_FLOW]: only a str can equal a member. *)
Definition in_status_flow (v : value) : bool :=
  match v with
  | VStr s => bool_decide (s ∈ ORDER_STATUS_FLOW)
  | _ => false
  end.

(** [PUT /orders/<order_id>/status] with JSON body [data]. *)
Definition update_order_status (rt : Runtime) (order_id : string) (data : dict)
    (orders_db : gmap string dict)
    : response * gmap string dict * list Published :=
  match orders_db !! order_id with
  | None => (Response 404 (error_body "Order not found"), orders_db, [])
  | Some order =>
      let new_status := default VNone (data !! "status") in
      if negb (in_status_flow new_status) then
        (Response 400 (VDict (mk_dict [
           ("error", VStr "Invalid status");
           ("valid_statuses", VList (VStr <$> ORDER_STATUS_FLOW))])),
         orders_db, [])
      else
        match order !! "status" with
        | None => (Raised, orders_db, [])          (* KeyError *)
        | Some old_status =>
            let order' :=
              <["updated_at" := VStr (utcnow rt 0)]>
                (<["status" := new_status]> order) in
            let changed := publish_event rt 1 "order-events" "order.status_changed"
              (mk_dict [("order_id", VStr order_id);
                        ("old_status", old_status);
                        ("new_status", new_status);
                        ("action", VStr "status_changed")]) in
            (Response 200 (VDict order'), <[order_id := order']> orders_db,
             [changed])
        end
  end.

(** One term of the subtotal of [create_order]:
    [item.get('unit_price', 0) * item.get('quantity', 1)]; [None] when the
    item is no dict or a factor no number (the product or the sum then
    raises). *)
Definition line_total (item : value) : option number :=
  match as_dict item with
  | None => None
  | Some item =>
      match number_of (default (VInt 0) (item !! "unit_price")),
            number_of (default (VInt 1) (item !! "quantity")) with
      | Some unit_price, Some quantity => Some (number_mul unit_price quantity)
      | _, _ => None
      end
  end.

(** [sum(... for item in items)], from the int 0 and from the left (see
    [calculate_cart_total] of the cart service on sums of floats). *)
Fixpoint sum_lines (acc : number) (items : list value) : option number :=
  match items with
  | [] => Some acc
  | item :: rest =>
      match line_total item with
      | None => None
      | Some t => sum_lines (number_add acc t) rest
      end
  end.

(** [POST /orders] with JSON body [data]. Step 0 draws the order id and
    the timestamp, step 1 is the publish. *)
Definition create_order (rt : Runtime) (data : dict) (orders_db : gmap string dict)
    : response * gmap string dict * list Published :=
  let missing :=
    filter (fun f => data !! f = None) ["user_id"; "items"] in
  match missing, data !! "user_id", data !! "items" with
  | [], Some user_id, Some items =>
      let order_id := "order-" +:+ String.substring 0 8 (uuid4_hex rt 0) in
      let timestamp := utcnow rt 0 in
      match iterate items ≫= sum_lines (NInt 0) with
      | None => (Raised, orders_db, [])     (* AttributeError or TypeError *)
      | Some subtotal =>
          let tax := Py.round2 (PrimFloat.mul (float_of subtotal) 0.08) in
          let shipping := 5.99%float in
          let total :=
            Py.round2 (PrimFloat.add (PrimFloat.add (float_of subtotal) tax) shipping) in
          let order := mk_dict [
            ("order_id", VStr order_id);
            ("user_id", user_id);
            ("items", items);
            ("subtotal", value_of subtotal);
            ("tax", VFloat tax);
            ("shipping", VFloat shipping);
            ("total", VFloat total);
            ("status", VStr "pending");
            ("payment_status", VStr "pending");
            ("shipping_address", default (VDict ∅) (data !! "shipping_address"));
            ("created_at", VStr timestamp);
            ("updated_at", VStr timestamp)] in
          let requested := publish_event rt 1 PAYMENT_TOPIC "payment.requested"
            (mk_dict [("order_id", VStr order_id);
                      ("user_id", user_id);
                      ("amount", VFloat total);
                      ("action", VStr "payment_requested")]) in
          (Response 201 (VDict order), <[order_id := order]> orders_db, [requested])
      end
  | _, _, _ =>
      (Response 400 (VDict (mk_dict [
         ("error", VStr "Missing fields");
         ("missing", VList (VStr <$> missing))])), orders_db, [])
  end.

Definition processed (event_type : value) : response :=
  Response 200 (VDict (mk_dict [("status", VStr "processed");
                                ("event_type", event_type)])).

(** The order that [order.created] stores:
    [{**order_data, "order_id": ..., "status": "confirmed", ...}]; [None]
    when the payload's total cannot be added to 5.99 (TypeError). *)
Definition enrich (order_data : dict) (order_id : value) (timestamp : string)
    : option dict :=
  match as_number (default (VInt 0) (order_data !! "total")) with
  | None => None
  | Some total =>
      Some (<["updated_at" := VStr timestamp]>
           (<["total" := VFloat (Py.round2 (PrimFloat.add total 5.99))]>
           (<["shipping" := VFloat 5.99]>
           (<["payment_status" := VStr "pending"]>
           (<["status" := VStr "confirmed"]>
           (<["order_id" := order_id]> order_data))))))
  end.

(** The three publishes that follow the store of a confirmed order. *)
Definition fan_out (rt : Runtime) (order_id : value) (order : dict)
    : list Published :=
  [ publish_event rt 1 PAYMENT_TOPIC "payment.requested"
      (mk_dict [("order_id", order_id);
                ("user_id", default VNone (order !! "user_id"));
                ("amount", default (VInt 0) (order !! "total"));
                ("action", VStr "payment_requested")]);
    publish_event rt 2 PRODUCT_TOPIC "order.placed"
      (mk_dict [("order_id", order_id);
                ("items", default (VList []) (order !! "items"));
                ("action", VStr "stock_reduction_needed")]);
    publish_event rt 3 "order-events" "order.confirmed"
      (mk_dict [("order_id", order_id);
                ("status", VStr "confirmed");
                ("action", VStr "order_confirmed")]) ].

(** [POST /events/order]. Step 0 draws the default order id (the default
    of [.get] is evaluated whether it is used or not) and the timestamp,
    steps 1 to 3 are the publishes. Between the store and the publishes
    the handler logs [len(order.get('items', []))], which raises when the
    items have no length: the order is stored by then and nothing is
    published. The stores of this model are keyed by strings: an order id
    that is not a str is refused here like the unhashable ones, which
    Python refuses at the store. *)
Definition handle_order_event (rt : Runtime) (event : dict)
    (orders_db : gmap string dict)
    : response * gmap string dict * list Published :=
  let event_type := default (VStr "unknown") (event !! "type") in
  let event_data := default (VDict ∅) (event !! "data") in
  if eq_str event_type "order.created" then
    match as_dict event_data with
    | None => (Raised, orders_db, [])               (* AttributeError *)
    | Some event_data =>
        let order_data := default (VDict ∅) (event_data !! "order") in
        if negb (truthy order_data) then
          (Response 400 (VDict (mk_dict [
             ("status", VStr "error");
             ("message", VStr "Order data missing")])), orders_db, [])
        else
          match as_dict order_data with
          | None => (Raised, orders_db, [])         (* AttributeError *)
          | Some order_data =>
              let order_id :=
                default (VStr ("order-" +:+ String.substring 0 8 (uuid4_hex rt 0)))
                        (order_data !! "order_id") in
              let timestamp := utcnow rt 0 in
              match enrich order_data order_id timestamp, order_id with
              | Some order, VStr key =>
                  if sized (default (VList []) (order !! "items")) then
                    (processed event_type, <[key := order]> orders_db,
                     fan_out rt order_id order)
                  else (Raised, <[key := order]> orders_db, [])  (* TypeError *)
              | _, _ => (Raised, orders_db, [])
              end
          end
    end
  else (processed event_type, orders_db, []).

(** The four assignments of the [payment.completed] branch. *)
Definition paid_order (payment_id : value) (timestamp : string) (order : dict) : dict :=
  <["updated_at" := VStr timestamp]>
  (<["payment_id" := payment_id]>
  (<["status" := VStr "paid"]>
  (<["payment_status" := VStr "paid"]> order))).

(** The four assignments of the [payment.failed] branch. *)
Definition failed_order (error : value) (timestamp : string) (order : dict) : dict :=
  <["updated_at" := VStr timestamp]>
  (<["payment_error" := error]>
  (<["status" := VStr "payment_failed"]>
  (<["payment_status" := VStr "failed"]> order))).

(** [POST /events/payment]. Step 0 reads the timestamp, step 1 is the
    publish. *)
Definition handle_payment_event (rt : Runtime) (event : dict)
    (orders_db : gmap string dict)
    : response * gmap string dict * list Published :=
  let event_type := default (VStr "unknown") (event !! "type") in
  match as_dict (default (VDict ∅) (event !! "data")) with
  | None => (Raised, orders_db, [])                 (* AttributeError *)
  | Some event_data =>
      let order_id := default VNone (event_data !! "order_id") in
      let not_found :=
        (Response 404 (VDict (mk_dict [
           ("status", VStr "error");
           ("message", VStr "Order not found")])), orders_db, []) in
      if negb (truthy order_id) then not_found
      else
        match order_id with
        | VStr key =>
            match orders_db !! key with
            | None => not_found
            | Some order =>
                let timestamp := utcnow rt 0 in
                if eq_str event_type "payment.completed" then
                  let payment_id := default VNone (event_data !! "payment_id") in
                  let order' := paid_order payment_id timestamp order in
                  let paid := publish_event rt 1 "order-events" "order.paid"
                    (mk_dict [("order_id", order_id);
                              ("payment_id", payment_id);
                              ("status", VStr "paid");
                              ("action", VStr "order_paid")]) in
                  (processed event_type, <[key := order']> orders_db, [paid])
                else if eq_str event_type "payment.failed" then
                  let order' :=
                    failed_order (default (VStr "Unknown error") (event_data !! "error"))
                      timestamp order in
                  (processed event_type, <[key := order']> orders_db, [])
                else
                  (processed event_type, orders_db, [])
            end
        | VList _ | VDict _ => (Raised, orders_db, [])  (* unhashable *)
        | _ => not_found            (* a number is no key of the store *)
        end
  end.

End OrderService.

(** ** payment-service *)

Module PaymentService.

Definition PAYMENT_TOPIC : string := "payment-events".

(** The store the service starts with: payments are dicts. *)
Definition sample_payment : dict :=
  mk_dict [
       ("payment_id", VStr "pay-sample001");
       ("order_id", VStr "order-sample001");
       ("user_id", VStr "user-001");
       ("amount", VFloat 167.98);
       ("currency", VStr "USD");
       ("status", VStr "completed");
       ("payment_method", VStr "credit_card");
       ("card_last_four", VStr "4242");
       ("transaction_id", VStr "txn-abc123def456");
       ("created_at", VStr "2026-01-10T14:35:00Z");
       ("processed_at", VStr "2026-01-10T14:35:05Z")].

Definition payments_db : gmap string dict :=
  {[ "pay-sample001" := sample_payment ]}.

Definition publish_event := Dapr.publish_event "payment-service".

(** [payment['status'] = 'refunded'] and the two refund fields. *)
Definition refunded (refund_id timestamp : string) (payment : dict) : dict :=
  <["refunded_at" := VStr timestamp]>
  (<["refund_id" := VStr refund_id]>
  (<["status" := VStr "refunded"]> payment)).

(** [POST /payments/<payment_id>/refund]. Step 0 reads the timestamp and
    draws the refund id, step 1 is the publish. The payment is changed in
    place before the event is built, so a payment without [order_id] or
    [amount] raises KeyError with the refund already written. *)
Definition refund_payment (rt : Runtime) (payment_id : string)
    (payments_db : gmap string dict)
    : response * gmap string dict * list Published :=
  match payments_db !! payment_id with
  | None => (Response 404 (error_body "Payment not found"), payments_db, [])
  | Some payment =>
      match payment !! "status" with
      | None => (Raised, payments_db, [])            (* KeyError *)
      | Some status =>
          if negb (eq_str status "completed") then
            (Response 400 (error_body "Can only refund completed payments"),
             payments_db, [])
          else
            let timestamp := utcnow rt 0 in
            let refund_id := "ref-" +:+ String.substring 0 8 (uuid4_hex rt 0) in
            let payment' := refunded refund_id timestamp payment in
            let payments_db' := <[payment_id := payment']> payments_db in
            match payment' !! "order_id", payment' !! "amount" with
            | Some order_id, Some amount =>
                let event := publish_event rt 1 PAYMENT_TOPIC "payment.refunded"
                  (mk_dict [("payment_id", VStr payment_id);
                            ("refund_id", VStr refund_id);
                            ("order_id", order_id);
                            ("amount", amount);
                            ("action", VStr "payment_refunded")]) in
                (Response 200 (VDict payment'), payments_db', [event])
            | _, _ => (Raised, payments_db', [])     (* KeyError *)
            end
      end
  end.

End PaymentService.

(** ** product-service *)

Module ProductService.

Definition PRODUCT_TOPIC : string := "product-events".

(** A product: the price is always a float and the stock an int (both are
    converted on the way in); the other fields hold what the request
    carried. *)
Record Product := {
  id : string;
  name : value;
  description : value;
  price : float;
  category : value;
  stock : Z;
  created_at : string;
  updated_at : string
}.

Definition set_stock (n : Z) (p : Product) : Product :=
  {| id := id p; name := name p; description := description p;
     price := price p; category := category p; stock := n;
     created_at := created_at p; updated_at := updated_at p |}.

Definition set_updated_at (t : string) (p : Product) : Product :=
  {| id := id p; name := name p; description := description p;
     price := price p; category := category p; stock := stock p;
     created_at := created_at p; updated_at := t |}.

(** The store the service starts with. *)
Definition headphones : Product := {|
  id := "prod-001";
  name := VStr "Wireless Bluetooth Headphones";
  description := VStr "Premium noise-cancelling wireless headphones";
  price := 149.99; category := VStr "Electronics"; stock := 100;
  created_at := "2026-01-10T10:00:00Z";
  updated_at := "2026-01-10T10:00:00Z" |}.

Definition smart_watch : Product := {|
  id := "prod-002";
  name := VStr "Smart Watch Pro";
  description := VStr "Advanced fitness tracking smartwatch";
  price := 299.99; category := VStr "Electronics"; stock := 50;
  created_at := "2026-01-10T10:00:00Z";
  updated_at := "2026-01-10T10:00:00Z" |}.

Definition t_shirt : Product := {|
  id := "prod-003";
  name := VStr "Organic Cotton T-Shirt";
  description := VStr "Comfortable eco-friendly t-shirt";
  price := 29.99; category := VStr "Clothing"; stock := 200;
  created_at := "2026-01-10T10:00:00Z";
  updated_at := "2026-01-10T10:00:00Z" |}.

Definition products_db : gmap string Product :=
  <["prod-001" := headphones]>
  (<["prod-002" := smart_watch]>
  (<["prod-003" := t_shirt]> ∅)).

Definition publish_event := Dapr.publish_event "product-service".

(** [PATCH /products/<product_id>/stock] with JSON body [data]. Step 0
    reads the timestamp, step 1 is the publish. *)
Definition update_stock (rt : Runtime) (product_id : string) (data : dict)
    (products_db : gmap string Product)
    : response * gmap string Product * list Published :=
  match products_db !! product_id with
  | None =>
      (Response 404 (VDict (mk_dict [("error", VStr "Product not found");
                                     ("product_id", VStr product_id)])),
       products_db, [])
  | Some product =>
      match to_int rt (default (VInt 0) (data !! "quantity")) with
      | None => (Raised, products_db, [])     (* ValueError or TypeError *)
      | Some quantity =>
          let old_stock := stock product in
          let new_stock := old_stock + quantity in
          if new_stock <? 0 then
            (Response 400 (VDict (mk_dict [
               ("error", VStr "Insufficient stock");
               ("current_stock", VInt old_stock);
               ("requested_change", VInt quantity)])), products_db, [])
          else
            let product' :=
              set_updated_at (utcnow rt 0) (set_stock new_stock product) in
            let event := publish_event rt 1 PRODUCT_TOPIC "product.stock_updated"
              (mk_dict [("product_id", VStr product_id);
                        ("old_stock", VInt old_stock);
                        ("new_stock", VInt new_stock);
                        ("change", VInt quantity);
                        ("action", VStr "stock_updated")]) in
            (Response 200 (VDict (mk_dict [
               ("product_id", VStr product_id);
               ("old_stock", VInt old_stock);
               ("new_stock", VInt new_stock)])),
             <[product_id := product']> products_db, [event])
      end
  end.

(** The loop of the [order.placed] branch:
    [products_db[product_id]['stock'] -= quantity] for every item whose
    product is in the store. The flag is false when an iteration raised;
    what the earlier iterations wrote stays. Quantities are ints in every
    event of the saga; any other type stops the loop here (Python would
    also subtract a float, leaving a float stock). *)
Fixpoint reduce_stock (items : list value) (products_db : gmap string Product)
    : bool * gmap string Product :=
  match items with
  | [] => (true, products_db)
  | item :: rest =>
      match as_dict item with
      | None => (false, products_db)                (* AttributeError *)
      | Some item =>
          let product_id := default VNone (item !! "product_id") in
          let quantity := default (VInt 0) (item !! "quantity") in
          match product_id with
          | VStr key =>
              match products_db !! key with
              | None => reduce_stock rest products_db
              | Some product =>
                  match quantity with
                  | VInt q =>
                      reduce_stock rest
                        (<[key := set_stock (stock product - q) product]> products_db)
                  | _ => (false, products_db)        (* TypeError *)
                  end
              end
          | VList _ | VDict _ => (false, products_db)  (* unhashable *)
          | _ => reduce_stock rest products_db  (* no key of the store *)
          end
      end
  end.

(** [POST /events/order] of the product service. *)
Definition handle_order_event (event : dict) (products_db : gmap string Product)
    : response * gmap string Product :=
  let event_data := default (VDict ∅) (event !! "data") in
  let event_type := default (VStr "unknown") (event !! "type") in
  let processed := Response 200 (VDict (mk_dict [("status", VStr "processed")])) in
  if eq_str event_type "order.placed" then
    match as_dict event_data with
    | None => (Raised, products_db)                  (* AttributeError *)
    | Some event_data =>
        match iterate (default (VList []) (event_data !! "items")) with
        | None => (Raised, products_db)
        | Some items =>
            let '(ok, products_db') := reduce_stock items products_db in
            (if ok then processed else Raised, products_db')
        end
    end
  else (processed, products_db).

End ProductService.

(** ** The saga step from cart to orchestrator *)

Module Saga.

(** The order id that a checkout draws, and the two publishes of a
    checkout of [cart]. *)
Definition checkout_order_id (rt : Runtime) : string :=
  "order-" +:+ String.substring 0 8 (uuid4_hex rt 0).

Definition order_created (rt : Runtime) (uid : string) (cart : CartService.Cart)
    : Published :=
  CartService.publish_event rt 1 CartService.ORDER_TOPIC "order.created"
    (mk_dict [("order", VDict (CartService.order_snapshot (checkout_order_id rt)
                                 uid (utcnow rt 0) cart));
              ("action", VStr "order_created")]).

Definition checkout_completed (rt : Runtime) (uid : string)
    (cart : CartService.Cart) : Published :=
  CartService.publish_event rt 2 CartService.CART_TOPIC "cart.checkout_completed"
    (mk_dict [("user_id", VStr uid); ("order_id", VStr (checkout_order_id rt));
              ("total", VFloat (Py.round2 (PrimFloat.mul
                 (CartService.calculate_cart_total cart) 1.08)));
              ("action", VStr "checkout_completed")]).

(** The order that the orchestrator stores when the [order.created] of a
    checkout of [cart] is delivered to it. *)
Definition confirmed_order (rt_cart rt_order : Runtime) (uid : string)
    (cart : CartService.Cart) : dict :=
  <["updated_at" := VStr (utcnow rt_order 0)]>
  (<["total" := VFloat (Py.round2 (PrimFloat.add
       (Py.round2 (PrimFloat.mul (CartService.calculate_cart_total cart) 1.08))
       5.99))]>
  (<["shipping" := VFloat 5.99]>
  (<["payment_status" := VStr "pending"]>
  (<["status" := VStr "confirmed"]>
  (<["order_id" := VStr (checkout_order_id rt_cart)]>
     (CartService.order_snapshot (checkout_order_id rt_cart) uid
        (utcnow rt_cart 0) cart)))))).

(** The order payload of an [order.created] envelope. *)
Definition order_payload (event : dict) : option dict :=
  match event !! "data" with
  | Some (VDict data) =>
      match data !! "order" with
      | Some (VDict order) => Some order
      | _ => None
      end
  | _ => None
  end.

(** Checkout, then the delivery of the first published envelope to the
    orchestrator: the order payload that went out and the order that the
    orchestrator holds under the payload's order id. *)
Definition checkout_and_confirm (rt_cart rt_order : Runtime) (uid : string)
    (carts_db : gmap string CartService.Cart) (orders_db : gmap string dict)
    : option (dict * dict) :=
  match CartService.checkout rt_cart uid carts_db with
  | (_, _, created :: _) =>
      match order_payload (pub_event created) with
      | Some order =>
          match order !! "order_id" with
          | Some (VStr oid) =>
              let '(_, orders_db', _) :=
                OrderService.handle_order_event rt_order (pub_event created) orders_db in
              match orders_db' !! oid with
              | Some stored => Some (order, stored)
              | None => None
              end
          | _ => None
          end
      | None => None
      end
  | _ => None
  end.

End Saga.

(** ** Predicates on answers, totals and stores *)

(** A delivery is acknowledged when the answer is a 2xx. *)
Definition acknowledged (r : response) : Prop :=
  exists code body, r = Response code body /\ 200 <= code < 300.

(** The figures of the 150 x 2 scenario as the specification lists them:
    the payload of [order.created] and the order the orchestrator stores. *)
Definition scenario_as_stated (order stored : dict) : Prop :=
  order !! "subtotal" = Some (VFloat 300) /\
  order !! "tax" = Some (VFloat 24) /\
  order !! "total" = Some (VFloat 300) /\
  stored !! "total" = Some (VFloat 305.99).


Definition total_from_fields (subtotal tax shipping : float) : float :=
  Py.round2 (PrimFloat.add (PrimFloat.add subtotal tax) shipping).

(** Every order of the store has a status, so that the read of
    [order['status']] in the status update cannot fail. *)
Definition has_status (orders_db : gmap string dict) : Prop :=
  forall k order, orders_db !! k = Some order -> is_Some (order !! "status").

(** Every product of the store has a stock of zero or more. *)
Definition nonneg_stock (products_db : gmap string ProductService.Product) : Prop :=
  forall k p, products_db !! k = Some p -> 0 <= ProductService.stock p.

(** ** Concrete runtimes, carts and envelopes *)

Module Examples.

(** A runtime whose sidecar accepts every publish, and one whose sidecar
    is down. *)
Definition rt_up : Runtime := {|
  uuid4_hex := fun _ => "3f2a9c1e5b7d4e0fa1b2c3d4e5f60718";
  utcnow := fun _ => "2026-01-11T10:00:00Z";
  post_ok := fun _ _ => true;
  str_to_float := fun _ => None;
  str_to_int := fun _ => None |}.

Definition rt_down : Runtime := {|
  uuid4_hex := fun _ => "9e8d7c6b5a4f4e3d2c1b0a9988776655";
  utcnow := fun _ => "2026-01-11T10:05:00Z";
  post_ok := fun _ _ => false;
  str_to_float := fun _ => None;
  str_to_int := fun _ => None |}.

(** A cart with one line item. *)
Definition one_item (uid : string) (price : float) (qty : Z) : CartService.Cart :=
  {| CartService.user_id := uid;
     CartService.items := [ {|
       CartService.item_id := "cart-item-0a1b2c3d";
       CartService.product_id := "prod-002";
       CartService.product_name := "Smart Watch Pro";
       CartService.quantity := qty;
       CartService.unit_price := price;
       CartService.added_at := "2026-01-11T09:30:00Z" |} ];
     CartService.created_at := "2026-01-11T09:00:00Z";
     CartService.updated_at := "2026-01-11T09:30:00Z" |}.

Definition one_item_cart (uid : string) (price : float) (qty : Z)
    : gmap string CartService.Cart :=
  {[ uid := one_item uid price qty ]}.

(** An envelope as the broker delivers it. *)
Definition envelope (id source event_type : string) (data : dict) : dict :=
  mk_dict [("id", VStr id); ("source", VStr source); ("type", VStr event_type);
           ("specversion", VStr "1.0");
           ("datacontenttype", VStr "application/json");
           ("data", VDict data);
           ("timestamp", VStr "2026-01-12T08:00:00Z")].

(** [order.created] for the id of the sample order, which is stored as
    completed and paid. *)
Definition replayed_order : dict :=
  mk_dict [("order_id", VStr "order-sample001");
           ("user_id", VStr "user-001");
           ("items", VList []);
           ("subtotal", VFloat 10);
           ("tax", VFloat 0.8);
           ("total", VFloat 10.8);
           ("status", VStr "pending");
           ("created_at", VStr "2026-01-12T08:00:00Z")].

Definition replayed_order_created : dict :=
  envelope "6f1c7a52-0d3e-4b8a-9c55-2e7f1a90b3c4" "cart-service" "order.created"
    (mk_dict [("order", VDict replayed_order); ("action", VStr "order_created")]).

(** [order.created] whose order has no [order_id] (no checkout publishes
    such an envelope). *)
Definition order_created_without_id : dict :=
  envelope "a41e07c9-2b6d-4f13-9a58-c7d20e5b1f36" "cart-service" "order.created"
    (mk_dict [("order", VDict (mk_dict [("user_id", VStr "user-001");
                                        ("items", VList []);
                                        ("total", VFloat 10.8)]));
              ("action", VStr "order_created")]).

(** [payment.completed] for an order id. *)
Definition payment_completed (order_id payment_id : string) : dict :=
  envelope "0b9d4e17-5a2c-4f6e-8d31-7c4a9e2b6f10" "payment-service" "payment.completed"
    (mk_dict [("payment_id", VStr payment_id);
              ("order_id", VStr order_id);
              ("user_id", VStr "user-001");
              ("amount", VFloat 167.98);
              ("transaction_id", VStr "txn-5c1e9a7d3b20");
              ("action", VStr "payment_completed")]).

(** [order.placed] for 51 units of prod-002, of which 50 are in stock. *)
Definition order_placed_51 : dict :=
  envelope "c2a7f0d4-91b3-4e6a-8f25-d03b6e1a7c59" "order-service" "order.placed"
    (mk_dict [("order_id", VStr "order-3f2a9c1e");
              ("items", VList [ VDict (mk_dict [
                  ("item_id", VStr "cart-item-0a1b2c3d");
                  ("product_id", VStr "prod-002");
                  ("product_name", VStr "Smart Watch Pro");
                  ("quantity", VInt 51);
                  ("unit_price", VFloat 299.99);
                  ("added_at", VStr "2026-01-11T09:30:00Z")]) ]);
              ("action", VStr "stock_reduction_needed")]).

(** [product.updated] carrying prod-001 after its price was set to 0. *)
Definition product_updated_free : dict :=
  envelope "7d5e2b9a-3c41-4f08-b6d7-1e9a0c4f8b23" "product-service" "product.updated"
    (mk_dict [("product_id", VStr "prod-001");
              ("product", VDict (mk_dict [
                  ("id", VStr "prod-001");
                  ("name", VStr "Wireless Bluetooth Headphones");
                  ("description", VStr "Premium noise-cancelling wireless headphones");
                  ("price", VFloat 0);
                  ("category", VStr "Electronics");
                  ("stock", VInt 100);
                  ("created_at", VStr "2026-01-10T10:00:00Z");
                  ("updated_at", VStr "2026-01-12T08:00:00Z")]));
              ("changes", VDict (mk_dict [
                  ("price", VDict (mk_dict [("old", VFloat 149.99);
                                            ("new", VFloat 0)]))]));
              ("action", VStr "updated")]).

End Examples.

(** One entry of the answer to [GET /dapr/subscribe]: a topic and the
    route that the sidecar is to post its events to. *)
Definition subscription (pubsub topic route : string) : value :=
  VDict (mk_dict [("pubsubname", VStr pubsub); ("topic", VStr topic);
                  ("route", VStr route)]).

(** ** List helpers for in-place updates *)

(** [next((x for x in l if p(x)), None)] and then a change of that
    element in place, or its removal. *)
Fixpoint update_first {A} (p : A -> bool) (f : A -> A) (l : list A) : list A :=
  match l with
  | [] => []
  | x :: l' => if p x then f x :: l' else x :: update_first p f l'
  end.

Fixpoint remove_first {A} (p : A -> bool) (l : list A) : list A :=
  match l with
  | [] => []
  | x :: l' => if p x then l' else x :: remove_first p l'
  end.

(** ** cart-service: the cart routes *)

Module CartRoutes.
Import CartService.

(** A cart as [jsonify] writes it. *)
Definition cart_json (cart : Cart) : dict :=
  mk_dict [("user_id", VStr (user_id cart));
           ("items", VList (item_json <$> items cart));
           ("created_at", VStr (created_at cart));
           ("updated_at", VStr (updated_at cart))].

(** [get_or_create_cart(user_id)]; the clock is read only when the cart
    is created. *)
Definition get_or_create_cart (timestamp : string) (uid : string)
    (carts_db : gmap string Cart) : Cart * gmap string Cart :=
  match carts_db !! uid with
  | Some cart => (cart, carts_db)
  | None =>
      let cart := {| user_id := uid; items := [];
                     created_at := timestamp; updated_at := timestamp |} in
      (cart, <[uid := cart]> carts_db)
  end.

(** [calculate_cart_total(cart)] as a JSON value: [sum] starts from the
    int 0, which is what it returns for no items. *)
Definition cart_total_value (cart : Cart) : value :=
  match items cart with
  | [] => VInt 0
  | _ :: _ => VFloat (calculate_cart_total cart)
  end.

Definition total_quantity (cart : Cart) : Z :=
  fold_left (fun acc item => acc + quantity item) (items cart) 0.


(** The body of [POST /carts/<user_id>/items]: the keys the handler
    reads. The product id and the name hint are strs. *)
Record AddItem := {
  add_product_id : option string;
  add_quantity : option value;
  add_product_name : option string;
  add_unit_price : option value
}.

(** What [invoke_service('product-service', ...)] returned when it is a
    non-empty JSON object: its [name] (a str) and its [price]. *)
Record ProductInfo := {
  info_name : option string;
  info_price : option value
}.

(** [existing_item['quantity'] += quantity] on the first item of the
    product. *)
Definition same_product (pid : string) (item : CartItem) : bool :=
  String.eqb (product_id item) pid.

Definition add_quantity_to (q : Z) (item : CartItem) : CartItem :=
  {| item_id := item_id item; product_id := product_id item;
     product_name := product_name item; quantity := quantity item + q;
     unit_price := unit_price item; added_at := added_at item |}.

Definition set_quantity (q : Z) (item : CartItem) : CartItem :=
  {| item_id := item_id item; product_id := product_id item;
     product_name := product_name item; quantity := q;
     unit_price := unit_price item; added_at := added_at item |}.

Definition with_items (items' : list CartItem) (timestamp : string) (cart : Cart)
    : Cart :=
  {| user_id := user_id cart; items := items';
     created_at := created_at cart; updated_at := timestamp |}.

(** The end of [add_to_cart], once the items are updated: the timestamp,
    the publish (step 2) and the answer. *)
Definition item_added (rt : Runtime) (uid pid : string) (q : Z) (cart' : Cart)
    (carts_db : gmap string Cart) : response * gmap string Cart * list Published :=
  let added := publish_event rt 2 CART_TOPIC "cart.item_added"
    (mk_dict [("user_id", VStr uid);
              ("product_id", VStr pid);
              ("quantity", VInt q);
              ("cart_total", cart_total_value cart');
              ("action", VStr "item_added")]) in
  (Response 201 (VDict (mk_dict [
     ("message", VStr "Item added to cart");
     ("cart", VDict (cart_json cart'));
     ("subtotal", cart_total_value cart')])),
   <[uid := cart']> carts_db, [added]).

(** [POST /carts/<user_id>/items]. [lookup] is what the product service
    answered ([None]: no answer, an error status or an empty body, which
    all make the handler fall back on the hints of the request). Step 0
    is the clock of a cart that has to be created, step 1 the timestamp
    and the uuid of a new item, step 2 the publish. A price that does
    not convert raises after the cart was created. *)
Definition add_to_cart (rt : Runtime) (lookup : option ProductInfo) (uid : string)
    (data : AddItem) (carts_db : gmap string Cart)
    : response * gmap string Cart * list Published :=
  match add_product_id data with
  | None => (Response 400 (error_body "product_id is required"), carts_db, [])
  | Some pid =>
      match to_int rt (default (VInt 1) (add_quantity data)) with
      | None => (Raised, carts_db, [])          (* ValueError or TypeError *)
      | Some q =>
          if q <? 1 then
            (Response 400 (error_body "Quantity must be at least 1"), carts_db, [])
          else
            let '(cart, carts_db1) := get_or_create_cart (utcnow rt 0) uid carts_db in
            let timestamp := utcnow rt 1 in
            if existsb (same_product pid) (items cart) then
              item_added rt uid pid q
                (with_items (update_first (same_product pid) (add_quantity_to q)
                               (items cart)) timestamp cart)
                carts_db1
            else
              let fallback := "Product " +:+ pid in
              let '(product_name, price) :=
                match lookup with
                | None => (default fallback (add_product_name data),
                           default (VInt 0) (add_unit_price data))
                | Some product => (default fallback (info_name product),
                                   default (VInt 0) (info_price product))
                end in
              match to_float rt price with
              | None => (Raised, carts_db1, [])  (* ValueError or TypeError *)
              | Some unit_price =>
                  let new_item := {|
                    item_id := "cart-item-" +:+ String.substring 0 8 (uuid4_hex rt 1);
                    product_id := pid;
                    product_name := product_name;
                    quantity := q;
                    unit_price := unit_price;
                    added_at := timestamp |} in
                  item_added rt uid pid q
                    (with_items (items cart ++ [new_item]) timestamp cart)
                    carts_db1
              end
      end
  end.

Definition has_item_id (iid : string) (item : CartItem) : bool :=
  String.eqb (item_id item) iid.

(** [PUT /carts/<user_id>/items/<item_id>] with JSON body [data]. Step 0
    is the timestamp, step 1 the publish. The quantity is not checked. *)
Definition update_cart_item (rt : Runtime) (uid iid : string) (data : dict)
    (carts_db : gmap string Cart) : response * gmap string Cart * list Published :=
  match carts_db !! uid with
  | None => (Response 404 (error_body "Cart not found"), carts_db, [])
  | Some cart =>
      match to_int rt (default (VInt 1) (data !! "quantity")) with
      | None => (Raised, carts_db, [])          (* ValueError or TypeError *)
      | Some q =>
          match List.find (has_item_id iid) (items cart) with
          | None => (Response 404 (error_body "Item not found in cart"), carts_db, [])
          | Some item =>
              let cart' :=
                with_items (update_first (has_item_id iid) (set_quantity q)
                              (items cart)) (utcnow rt 0) cart in
              let updated := publish_event rt 1 CART_TOPIC "cart.item_updated"
                (mk_dict [("user_id", VStr uid);
                          ("item_id", VStr iid);
                          ("product_id", VStr (product_id item));
                          ("old_quantity", VInt (quantity item));
                          ("new_quantity", VInt q);
                          ("action", VStr "item_updated")]) in
              (Response 200 (VDict (mk_dict [
                 ("message", VStr "Cart item updated");
                 ("item", item_json (set_quantity q item))])),
               <[uid := cart']> carts_db, [updated])
          end
      end
  end.

(** [DELETE /carts/<user_id>/items/<item_id>]. [list.remove(item)] takes
    out the first element equal to the item found, which is the item
    found: an element before it with the same content would have the
    same [item_id] and would have been found instead. *)
Definition remove_from_cart (rt : Runtime) (uid iid : string)
    (carts_db : gmap string Cart) : response * gmap string Cart * list Published :=
  match carts_db !! uid with
  | None => (Response 404 (error_body "Cart not found"), carts_db, [])
  | Some cart =>
      match List.find (has_item_id iid) (items cart) with
      | None => (Response 404 (error_body "Item not found in cart"), carts_db, [])
      | Some item =>
          let cart' :=
            with_items (remove_first (has_item_id iid) (items cart))
              (utcnow rt 0) cart in
          let removed := publish_event rt 1 CART_TOPIC "cart.item_removed"
            (mk_dict [("user_id", VStr uid);
                      ("item_id", VStr iid);
                      ("product_id", VStr (product_id item));
                      ("action", VStr "item_removed")]) in
          (Response 200 (VDict (mk_dict [("message", VStr "Item removed from cart")])),
           <[uid := cart']> carts_db, [removed])
      end
  end.


(** [GET /dapr/subscribe] of the cart service. *)
Definition subscribe (pubsub : string) : response :=
  Response 200 (VList [subscription pubsub "product-events" "/events/product"]).

End CartRoutes.

(** ** payment-service: processing *)

Module PaymentProcessing.
Import PaymentService.

(** The configuration read from the environment at start-up, and what
    one call of [process_payment] draws from [random]. *)
Record Config := {
  SIMULATE_FAILURES : bool;
  FAILURE_RATE : float
}.

Record Chance := {
  random_random : float;       (* random.random() *)
  card_last_four : string      (* str(random.randint(1000, 9999)) *)
}.

(** [SIMULATE_FAILURES and random.random() < FAILURE_RATE]. *)
Definition declined (cfg : Config) (ch : Chance) : bool :=
  SIMULATE_FAILURES cfg && PrimFloat.ltb (random_random ch) (FAILURE_RATE cfg).

Definition new_payment_id (rt : Runtime) : string :=
  "pay-" +:+ String.substring 0 8 (uuid4_hex rt 0).

(** The payment that [process_payment] builds. Step 0 draws the payment
    id and the timestamp, step 1 the transaction id. *)
Definition make_payment (cfg : Config) (ch : Chance) (rt : Runtime)
    (order_id user_id : value) (amount : float) (payment_method : value) : dict :=
  let payment_id := new_payment_id rt in
  let transaction_id := "txn-" +:+ String.substring 0 12 (uuid4_hex rt 1) in
  let timestamp := utcnow rt 0 in
  if declined cfg ch then
    mk_dict [("payment_id", VStr payment_id);
             ("order_id", order_id);
             ("user_id", user_id);
             ("amount", VFloat amount);
             ("currency", VStr "USD");
             ("status", VStr "failed");
             ("payment_method", payment_method);
             ("error_code", VStr "CARD_DECLINED");
             ("error_message", VStr "The card was declined");
             ("created_at", VStr timestamp);
             ("processed_at", VStr timestamp)]
  else
    mk_dict [("payment_id", VStr payment_id);
             ("order_id", order_id);
             ("user_id", user_id);
             ("amount", VFloat amount);
             ("currency", VStr "USD");
             ("status", VStr "completed");
             ("payment_method", payment_method);
             ("card_last_four", VStr (card_last_four ch));
             ("transaction_id", VStr transaction_id);
             ("created_at", VStr timestamp);
             ("processed_at", VStr timestamp)].

(** [process_payment(order_id, user_id, amount, payment_method)]: the
    payment, and the store with the payment under its id. *)
Definition process_payment (cfg : Config) (ch : Chance) (rt : Runtime)
    (order_id user_id : value) (amount : float) (payment_method : value)
    (payments_db : gmap string dict) : dict * gmap string dict :=
  let payment := make_payment cfg ch rt order_id user_id amount payment_method in
  (payment, <[new_payment_id rt := payment]> payments_db).

(** The event that tells the outcome of a payment (step 2). The two
    callers differ in the default of the error text only. *)
Definition outcome_event (rt : Runtime) (payment : dict) (order_id user_id : value)
    (default_error : string) : Published :=
  if eq_str (default VNone (payment !! "status")) "completed" then
    publish_event rt 2 PAYMENT_TOPIC "payment.completed"
      (mk_dict [("payment_id", default VNone (payment !! "payment_id"));
                ("order_id", order_id);
                ("user_id", user_id);
                ("amount", default VNone (payment !! "amount"));
                ("transaction_id", default VNone (payment !! "transaction_id"));
                ("action", VStr "payment_completed")])
  else
    publish_event rt 2 PAYMENT_TOPIC "payment.failed"
      (mk_dict [("payment_id", default VNone (payment !! "payment_id"));
                ("order_id", order_id);
                ("user_id", user_id);
                ("amount", default VNone (payment !! "amount"));
                ("error", default (VStr default_error) (payment !! "error_message"));
                ("action", VStr "payment_failed")]).

(** [POST /events/payment] of the payment service. *)
Definition handle_payment_event (cfg : Config) (ch : Chance) (rt : Runtime)
    (event : dict) (payments_db : gmap string dict)
    : response * gmap string dict * list Published :=
  let event_type := default (VStr "unknown") (event !! "type") in
  let event_data := default (VDict ∅) (event !! "data") in
  if eq_str event_type "payment.requested" then
    match as_dict event_data with
    | None => (Raised, payments_db, [])            (* AttributeError *)
    | Some event_data =>
        let order_id := default VNone (event_data !! "order_id") in
        let user_id := default VNone (event_data !! "user_id") in
        let amount := default (VInt 0) (event_data !! "amount") in
        if negb (truthy order_id && truthy user_id && truthy amount) then
          (Response 400 (VDict (mk_dict [
             ("status", VStr "error");
             ("message", VStr "Missing payment data")])), payments_db, [])
        else
          match to_float rt amount with
          | None => (Raised, payments_db, [])      (* ValueError or TypeError *)
          | Some amount =>
              let '(payment, payments_db') :=
                process_payment cfg ch rt order_id user_id amount
                  (VStr "credit_card") payments_db in
              (Response 200 (VDict (mk_dict [
                 ("status", VStr "processed");
                 ("payment_status", default VNone (payment !! "status"));
                 ("payment_id", default VNone (payment !! "payment_id"))])),
               payments_db',
               [outcome_event rt payment order_id user_id "Payment processing failed"])
          end
    end
  else
    (Response 200 (VDict (mk_dict [("status", VStr "acknowledged");
                                   ("event_type", event_type)])),
     payments_db, []).

(** [POST /payments/process] with JSON body [data]. *)
Definition process_payment_endpoint (cfg : Config) (ch : Chance) (rt : Runtime)
    (data : dict) (payments_db : gmap string dict)
    : response * gmap string dict * list Published :=
  let missing :=
    filter (fun f => data !! f = None) ["order_id"; "user_id"; "amount"] in
  match missing, data !! "order_id", data !! "user_id", data !! "amount" with
  | [], Some order_id, Some user_id, Some amount =>
      match to_float rt amount with
      | None => (Raised, payments_db, [])          (* ValueError or TypeError *)
      | Some amount =>
          let '(payment, payments_db') :=
            process_payment cfg ch rt order_id user_id amount
              (default (VStr "credit_card") (data !! "payment_method")) payments_db in
          let completed := eq_str (default VNone (payment !! "status")) "completed" in
          (Response (if completed then 200 else 402) (VDict payment),
           payments_db',
           [outcome_event rt payment
              (default VNone (payment !! "order_id"))
              (default VNone (payment !! "user_id")) "Payment failed"])
      end
  | _, _, _, _ =>
      (Response 400 (VDict (mk_dict [("error", VStr "Missing fields");
                                     ("missing", VList (VStr <$> missing))])),
       payments_db, [])
  end.

(** [GET /payments/<payment_id>]. *)
Definition get_payment (payment_id : string) (payments_db : gmap string dict)
    : response :=
  match payments_db !! payment_id with
  | None => Response 404 (error_body "Payment not found")
  | Some payment => Response 200 (VDict payment)
  end.

(** [GET /dapr/subscribe] of the payment service. *)
Definition subscribe (pubsub : string) : response :=
  Response 200 (VList [subscription pubsub "payment-events" "/events/payment"]).

End PaymentProcessing.

(** ** Python equality on JSON values *)

(** [n == x] for an int and a float: the exact values are compared. *)
Definition int_float_eq (n : Z) (x : float) : bool :=
  match Prim2SF x with
  | S754_zero _ => n =? 0
  | S754_finite s m e =>
      let a := if s then - Z.pos m else Z.pos m in
      if 0 <=? e then n =? a * 2 ^ e else n * 2 ^ (- e) =? a
  | _ => false
  end.

(** [a == b]: numbers by value across int and float, lists element by
    element, dicts key by key, and nothing equals a value of another
    type. *)
Fixpoint py_eq (a b : value) {struct a} : bool :=
  match a, b with
  | VNone, VNone => true
  | VStr s, VStr t => String.eqb s t
  | VInt n, VInt m => n =? m
  | VFloat x, VFloat y => PrimFloat.eqb x y
  | VInt n, VFloat y => int_float_eq n y
  | VFloat x, VInt m => int_float_eq m x
  | VList l, VList l' =>
      (fix go (l l' : list value) : bool :=
         match l, l' with
         | [], [] => true
         | x :: l, y :: l' => py_eq x y && go l l'
         | _, _ => false
         end) l l'
  | VDict d, VDict d' =>
      Nat.eqb (size d) (size d') &&
      map_fold (fun k v acc =>
                  acc && match d' !! k with
                         | Some v' => py_eq v v'
                         | None => false
                         end) true d
  | _, _ => false
  end.

(** ** product-service: the catalogue routes *)

Module Catalog.
Import ProductService.

(** A product as [jsonify] and the events write it. *)
Definition product_json (p : Product) : dict :=
  mk_dict [("id", VStr (id p));
           ("name", name p);
           ("description", description p);
           ("price", VFloat (price p));
           ("category", category p);
           ("stock", VInt (stock p));
           ("created_at", VStr (created_at p));
           ("updated_at", VStr (updated_at p))].

Definition not_found (product_id : string) : response :=
  Response 404 (VDict (mk_dict [("error", VStr "Product not found");
                                ("product_id", VStr product_id)])).

(** [GET /products/<product_id>]. *)
Definition get_product (product_id : string) (products_db : gmap string Product)
    : response :=
  match products_db !! product_id with
  | None => not_found product_id
  | Some p => Response 200 (VDict (product_json p))
  end.

Definition required_fields : list string :=
  ["name"; "description"; "price"; "category"; "stock"].

(** [POST /products] with JSON body [data]. Step 0 draws the product id
    and the timestamp, step 1 is the publish. *)
Definition create_product (rt : Runtime) (data : dict)
    (products_db : gmap string Product)
    : response * gmap string Product * list Published :=
  let missing_fields := filter (fun f => data !! f = None) required_fields in
  match missing_fields, data !! "name", data !! "description", data !! "price",
        data !! "category", data !! "stock" with
  | [], Some name, Some description, Some price, Some category, Some stock =>
      let product_id := "prod-" +:+ String.substring 0 6 (uuid4_hex rt 0) in
      let timestamp := utcnow rt 0 in
      match to_float rt price, to_int rt stock with
      | Some price, Some stock =>
          let product := {| id := product_id; name := name;
                            description := description; price := price;
                            category := category; stock := stock;
                            created_at := timestamp; updated_at := timestamp |} in
          let created := publish_event rt 1 PRODUCT_TOPIC "product.created"
            (mk_dict [("product_id", VStr product_id);
                      ("product", VDict (product_json product));
                      ("action", VStr "created")]) in
          (Response 201 (VDict (product_json product)),
           <[product_id := product]> products_db, [created])
      | _, _ => (Raised, products_db, [])        (* ValueError or TypeError *)
      end
  | _, _, _, _, _, _ =>
      (Response 400 (VDict (mk_dict [
         ("error", VStr "Missing required fields");
         ("missing_fields", VList (VStr <$> missing_fields))])),
       products_db, [])
  end.

Definition updatable_fields : list string :=
  ["name"; "description"; "price"; "category"; "stock"].

(** One round of the loop of [update_product], for a field that the
    request carries: the old value, the new value after its conversion
    ([None]: the conversion raises), and the product with the field
    set. *)
Definition assign (rt : Runtime) (field : string) (v : value) (p : Product)
    : option (value * value * Product) :=
  if String.eqb field "name" then
    Some (name p, v,
          {| id := id p; name := v; description := description p;
             price := price p; category := category p; stock := stock p;
             created_at := created_at p; updated_at := updated_at p |})
  else if String.eqb field "description" then
    Some (description p, v,
          {| id := id p; name := name p; description := v;
             price := price p; category := category p; stock := stock p;
             created_at := created_at p; updated_at := updated_at p |})
  else if String.eqb field "price" then
    match to_float rt v with
    | Some x =>
        Some (VFloat (price p), VFloat x,
              {| id := id p; name := name p; description := description p;
                 price := x; category := category p; stock := stock p;
                 created_at := created_at p; updated_at := updated_at p |})
    | None => None
    end
  else if String.eqb field "category" then
    Some (category p, v,
          {| id := id p; name := name p; description := description p;
             price := price p; category := v; stock := stock p;
             created_at := created_at p; updated_at := updated_at p |})
  else
    match to_int rt v with
    | Some n => Some (VInt (stock p), VInt n, set_stock n p)
    | None => None
    end.

(** The loop over the updatable fields. The product is changed in place,
    so when a conversion raises the fields written before it stay
    written; the flag tells whether the loop ended. A field is written
    only when the new value is [!=] the old one. *)
Fixpoint update_fields (rt : Runtime) (fields : list string) (data : dict)
    (p : Product) (changes : dict) : bool * Product * dict :=
  match fields with
  | [] => (true, p, changes)
  | field :: rest =>
      match data !! field with
      | None => update_fields rt rest data p changes
      | Some v =>
          match assign rt field v p with
          | None => (false, p, changes)
          | Some (old_value, new_value, p') =>
              if py_eq old_value new_value then
                update_fields rt rest data p changes
              else
                update_fields rt rest data p'
                  (<[field := VDict (mk_dict [("old", old_value);
                                              ("new", new_value)])]> changes)
          end
      end
  end.

(** [PUT /products/<product_id>] with JSON body [data]. Step 0 is the
    timestamp, step 1 the publish, which happens only when something
    changed. *)
Definition update_product (rt : Runtime) (product_id : string) (data : dict)
    (products_db : gmap string Product)
    : response * gmap string Product * list Published :=
  match products_db !! product_id with
  | None => (not_found product_id, products_db, [])
  | Some product =>
      match update_fields rt updatable_fields data product ∅ with
      | (false, product', _) =>
          (Raised, <[product_id := product']> products_db, [])
      | (true, product', changes) =>
          let product'' := set_updated_at (utcnow rt 0) product' in
          let products_db' := <[product_id := product'']> products_db in
          if dict_empty changes then
            (Response 200 (VDict (product_json product'')), products_db', [])
          else
            (Response 200 (VDict (product_json product'')), products_db',
             [publish_event rt 1 PRODUCT_TOPIC "product.updated"
                (mk_dict [("product_id", VStr product_id);
                          ("product", VDict (product_json product''));
                          ("changes", VDict changes);
                          ("action", VStr "updated")])])
      end
  end.

(** [DELETE /products/<product_id>]. *)
Definition delete_product (rt : Runtime) (product_id : string)
    (products_db : gmap string Product)
    : response * gmap string Product * list Published :=
  match products_db !! product_id with
  | None => (not_found product_id, products_db, [])
  | Some deleted_product =>
      (Response 200 (VDict (mk_dict [("message", VStr "Product deleted");
                                     ("product_id", VStr product_id)])),
       delete product_id products_db,
       [publish_event rt 1 PRODUCT_TOPIC "product.deleted"
          (mk_dict [("product_id", VStr product_id);
                    ("product", VDict (product_json deleted_product));
                    ("action", VStr "deleted")])])
  end.

(** [GET /dapr/subscribe] of the product service. *)
Definition subscribe (pubsub : string) : response :=
  Response 200 (VList [subscription pubsub "order-events" "/events/order"]).

End Catalog.

(** ** order-service: reading an order *)

Module OrderQueries.

(** [GET /orders/<order_id>]. *)
Definition get_order (order_id : string) (orders_db : gmap string dict) : response :=
  match orders_db !! order_id with
  | None => Response 404 (VDict (mk_dict [("error", VStr "Order not found");
                                          ("order_id", VStr order_id)]))
  | Some order => Response 200 (VDict order)
  end.

(** [GET /dapr/subscribe] of the order service. *)
Definition subscribe (pubsub : string) : response :=
  Response 200 (VList [subscription pubsub "order-events" "/events/order";
                       subscription pubsub "payment-events" "/events/payment"]).

End OrderQueries.

(** ** Which service is sent which topic *)

Module Wiring.

(** The routes that an answer of [GET /dapr/subscribe] binds to a topic. *)
Definition routes_of (topic : string) (r : response) : list value :=
  match r with
  | Response _ (VList subs) =>
      omap (fun sub =>
              match as_dict sub with
              | Some d =>
                  if eq_str (default VNone (d !! "topic")) topic
                  then d !! "route" else None
              | None => None
              end) subs
  | _ => []
  end.

End Wiring.

(** ** Predicates for the further properties *)

(** No two items of a cart are of the same product. *)
Definition unique_products (carts_db : gmap string CartService.Cart) : Prop :=
  forall uid cart, carts_db !! uid = Some cart ->
    NoDup (CartService.product_id <$> CartService.items cart).

(** What the price sync has no business changing in an item. *)
Definition item_but_price (item : CartService.CartItem)
    : string * string * string * Z * string :=
  (CartService.item_id item, CartService.product_id item,
   CartService.product_name item, CartService.quantity item,
   CartService.added_at item).

(** Every product of the store is stored under its own id. *)
Definition keyed_by_id (products_db : gmap string ProductService.Product) : Prop :=
  forall k p, products_db !! k = Some p -> ProductService.id p = k.

(** A line item as the stock loop of the product service reads it, when
    it can: the product id (a str) and the quantity (an int, 0 when the
    item has none). *)
Definition line_of (item : value) : option (string * Z) :=
  match as_dict item with
  | Some d =>
      match d !! "product_id", default (VInt 0) (d !! "quantity") with
      | Some (VStr product_id), VInt q => Some (product_id, q)
      | _, _ => None
      end
  | None => None
  end.

(** The units of product [key] that the lines ask for. *)
Fixpoint demand (key : string) (lines : list (string * Z)) : Z :=
  match lines with
  | [] => 0
  | (product_id, q) :: rest =>
      (if String.eqb product_id key then q else 0) + demand key rest
  end.

(** The stock of every product less what the lines ask for. *)
Definition less_demand (lines : list (string * Z))
    (products_db : gmap string ProductService.Product)
    : gmap string ProductService.Product :=
  map_imap (fun key p =>
              Some (ProductService.set_stock
                      (ProductService.stock p - demand key lines) p)) products_db.

(** ** More concrete requests *)

Module Requests.


(** One smart watch, with a price hint that is no number. *)
Definition watch_with_bad_price : CartRoutes.AddItem := {|
  CartRoutes.add_product_id := Some "prod-002";
  CartRoutes.add_quantity := None;
  CartRoutes.add_product_name := Some "Smart Watch Pro";
  CartRoutes.add_unit_price := Some (VList []) |}.

(** One smart watch, no hints. *)
Definition one_watch : CartRoutes.AddItem := {|
  CartRoutes.add_product_id := Some "prod-002";
  CartRoutes.add_quantity := None;
  CartRoutes.add_product_name := None;
  CartRoutes.add_unit_price := None |}.

(** The product service's answer for the smart watch. *)
Definition watch_info : CartRoutes.ProductInfo := {|
  CartRoutes.info_name := Some "Smart Watch Pro";
  CartRoutes.info_price := Some (VFloat 299.99) |}.

(** A new product with a negative stock, and a request for an order
    with no items. *)
Definition new_lamp : dict :=
  mk_dict [("name", VStr "Desk Lamp");
           ("description", VStr "Dimmable LED desk lamp");
           ("price", VFloat 39.5);
           ("category", VStr "Home");
           ("stock", VInt (-3))].

Definition order_without_items : dict :=
  mk_dict [("user_id", VStr "user-001"); ("items", VList [])].

(** Requests that set a price. *)
Definition new_price : dict := mk_dict [("price", VFloat 129.5)].
Definition price_150 : dict := mk_dict [("price", VInt 150)].

(** A line item as a checkout writes it. *)
Definition line_item (product_id : string) (quantity : Z) : value :=
  VDict (mk_dict [("item_id", VStr "cart-item-0a1b2c3d");
                  ("product_id", VStr product_id);
                  ("product_name", VStr "Smart Watch Pro");
                  ("quantity", VInt quantity);
                  ("unit_price", VFloat 299.99);
                  ("added_at", VStr "2026-01-11T09:30:00Z")]).

(** [order.placed] with the given items. *)
Definition order_placed (items : list value) : dict :=
  Examples.envelope "1b7e4c30-6a9d-4f52-8e13-5c0d2a7f9b64" "order-service"
    "order.placed"
    (mk_dict [("order_id", VStr "order-3f2a9c1e");
              ("items", VList items);
              ("action", VStr "stock_reduction_needed")]).

(** The payment service as it is configured by default, and with the
    failure simulation on at the default rate. *)
Definition no_failures : PaymentProcessing.Config := {|
  PaymentProcessing.SIMULATE_FAILURES := false;
  PaymentProcessing.FAILURE_RATE := 0.1 |}.

Definition with_failures : PaymentProcessing.Config := {|
  PaymentProcessing.SIMULATE_FAILURES := true;
  PaymentProcessing.FAILURE_RATE := 0.1 |}.

Definition unlucky : PaymentProcessing.Chance := {|
  PaymentProcessing.random_random := 0.03;
  PaymentProcessing.card_last_four := "4242" |}.

(** [payment.requested] as the orchestrator publishes it. *)
Definition payment_requested (order_id : string) (amount : value) : dict :=
  Examples.envelope "5e0c3a9d-7b1f-4d28-a6c4-9f2e8b0d1a37" "order-service"
    "payment.requested"
    (mk_dict [("order_id", VStr order_id);
              ("user_id", VStr "user-001");
              ("amount", amount);
              ("action", VStr "payment_requested")]).

(** A request to [POST /payments/process] for an amount of 0. *)
Definition pay_nothing : dict :=
  mk_dict [("order_id", VStr "order-sample001");
           ("user_id", VStr "user-001");
           ("amount", VInt 0)].

(** [payment.failed] as the payment service publishes it. *)
Definition payment_failed (order_id : string) : dict :=
  Examples.envelope "d81f64a0-3e5b-4c79-92a6-0b7e5c1f4d28" "payment-service"
    "payment.failed"
    (mk_dict [("payment_id", VStr "pay-7c1d0e93");
              ("order_id", VStr order_id);
              ("user_id", VStr "user-001");
              ("amount", VFloat 167.98);
              ("error", VStr "The card was declined");
              ("action", VStr "payment_failed")]).

End Requests.

(** * Properties *)

Import Saga.

(** ** Python numbers *)

(** [round(x, 2)] and [float(n)] on values for which the interpreter's
    answers are known. *)
Example round2_examples :
  Py.round2 0.135 = 0.14%float /\ Py.round2 6.125 = 6.12%float /\
  Py.round2 2.675 = 2.67%float /\ Py.round2 (-0.001) = (-0)%float /\
  Py.round2 1e20 = 1e20%float /\ Py.round2 1234567.894999 = 1234567.89%float /\
  Py.round2 0x1p46 = 0x1p46%float /\
  Py.round2 70368744177663.99 = 70368744177663.99%float.
Proof. vm_compute. repeat split. Qed.

Example float_of_Z_examples :
  Py.float_of_Z 2 = 2%float /\ Py.float_of_Z (-7) = (-7)%float /\
  Py.float_of_Z (2 ^ 53 + 1) = 9007199254740992%float.
Proof. vm_compute. repeat split. Qed.

(** [(0.1 + 0.2) + 0.3], added from the left. *)
Example sum_floats_example :
  Py.sum_floats (fun x => x) [0.1; 0.2; 0.3]%float = 0.6000000000000001%float.
Proof. vm_compute. reflexivity. Qed.

(** ** Dicts *)

Lemma dict_empty_false (d : dict) k v : d !! k = Some v -> dict_empty d = false.
Proof.
  intros H. unfold dict_empty.
  destruct (map_to_list d) as [|kv l] eqn:E; [|reflexivity].
  apply map_to_list_empty_iff in E. subst d. rewrite lookup_empty in H. discriminate.
Qed.

Lemma dict_empty_true : dict_empty ∅ = true.
Proof. unfold dict_empty. rewrite map_to_list_empty. reflexivity. Qed.

(** Lookups in a dict that was updated at constant keys. *)
Ltac dict_lookup :=
  repeat first [ rewrite lookup_insert_eq
               | rewrite lookup_insert_ne by discriminate ];
  try reflexivity.

(** A constant key is not in a list of other constant keys. *)
Ltac key_not_in :=
  let H := fresh in
  intros H;
  repeat (apply elem_of_cons in H; destruct H as [H|H]; [discriminate H|]);
  apply elem_of_nil in H; exact H.

(** An equation [_ = Some (VFloat b)] between two different closed
    floats is absurd. *)
Ltac value_neq :=
  let H := fresh in
  intro H;
  match type of H with
  | _ = Some (VFloat ?b) =>
      apply (f_equal (fun o => match o with
                               | Some (VFloat x) => PrimFloat.eqb x b
                               | _ => true
                               end)) in H
  end;
  vm_compute in H; discriminate H.

(** The envelope that [publish_event] posts. *)
Lemma publish_event_type source rt step topic event_type data :
  pub_type (Dapr.publish_event source rt step topic event_type data)
  = Some (VStr event_type).
Proof. reflexivity. Qed.

Lemma publish_event_data source rt step topic event_type data :
  pub_data (Dapr.publish_event source rt step topic event_type data)
  = Some (VDict data).
Proof. reflexivity. Qed.

Lemma publish_event_topic source rt step topic event_type data :
  pub_topic (Dapr.publish_event source rt step topic event_type data) = topic.
Proof. reflexivity. Qed.

Lemma publish_event_ok source rt step topic event_type data :
  pub_ok (Dapr.publish_event source rt step topic event_type data)
  = post_ok rt topic (pub_event (Dapr.publish_event source rt step topic event_type data)).
Proof. reflexivity. Qed.

(** ** cart-service: checkout *)

Section Checkout.
Import CartService.
Variable rt : Runtime.
Variable uid : string.
Variable carts_db : gmap string Cart.


Lemma checkout_items cart :
  carts_db !! uid = Some cart -> items cart <> [] ->
  checkout rt uid carts_db =
    (Response 201 (VDict (mk_dict [
         ("message", VStr "Checkout successful");
         ("order_id", VStr (checkout_order_id rt));
         ("total", VFloat (Py.round2 (PrimFloat.mul (calculate_cart_total cart) 1.08)));
         ("status", VStr "pending")])),
     <[uid := cleared (utcnow rt 0) cart]> carts_db,
     [order_created rt uid cart; checkout_completed rt uid cart]).
Proof.
  intros Hc Hi. unfold checkout. rewrite Hc.
  destruct (items cart) as [|i l] eqn:E; [congruence|]. reflexivity.
Qed.

End Checkout.


(** ** order-service: the order.created handler *)

Section OrderCreated.
Import OrderService.
Variable rt : Runtime.
Variable orders_db : gmap string dict.

Lemma enrich_Some order_data order_id timestamp total :
  as_number (default (VInt 0) (order_data !! "total")) = Some total ->
  enrich order_data order_id timestamp
  = Some (<["updated_at" := VStr timestamp]>
         (<["total" := VFloat (Py.round2 (PrimFloat.add total 5.99))]>
         (<["shipping" := VFloat 5.99]>
         (<["payment_status" := VStr "pending"]>
         (<["status" := VStr "confirmed"]>
         (<["order_id" := order_id]> order_data)))))).
Proof. intros H. unfold enrich. rewrite H. reflexivity. Qed.

Lemma enrich_lookups order_data order_id timestamp order :
  enrich order_data order_id timestamp = Some order ->
  order !! "order_id" = Some order_id /\
  order !! "status" = Some (VStr "confirmed") /\
  order !! "payment_status" = Some (VStr "pending") /\
  order !! "shipping" = Some (VFloat 5.99) /\
  order !! "updated_at" = Some (VStr timestamp) /\
  (forall k, k ∉ ["order_id"; "status"; "payment_status"; "shipping";
                  "total"; "updated_at"] ->
             order !! k = order_data !! k).
Proof.
  unfold enrich. destruct (as_number _) as [total|]; [|discriminate].
  intros [= <-]. do 5 (split; [dict_lookup|]).
  intros k Hk. rewrite !lookup_insert_ne; [done|..];
    intros <-; apply Hk; set_solver.
Qed.

(** The handler on an [order.created] event whose order carries a str
    order id, items with a length (or none) and a total that can be
    added to. *)
Lemma handle_order_created event event_data order_data oid order :
  event !! "type" = Some (VStr "order.created") ->
  event !! "data" = Some (VDict event_data) ->
  event_data !! "order" = Some (VDict order_data) ->
  order_data !! "order_id" = Some (VStr oid) ->
  sized (default (VList []) (order_data !! "items")) = true ->
  enrich order_data (VStr oid) (utcnow rt 0) = Some order ->
  handle_order_event rt event orders_db
  = (processed (VStr "order.created"), <[oid := order]> orders_db,
     fan_out rt (VStr oid) order).
Proof.
  intros Ht Hd Ho Hid Hlen He. unfold handle_order_event.
  rewrite Ht, Hd. simpl. rewrite Ho. simpl.
  rewrite (dict_empty_false _ _ _ Hid). simpl.
  rewrite Hid. simpl. rewrite He.
  destruct (enrich_lookups _ _ _ _ He) as (_ & _ & _ & _ & _ & Hk).
  rewrite (Hk "items"), Hlen by key_not_in. reflexivity.
Qed.

End OrderCreated.

(** ** From checkout to the confirmed order *)

Section Confirmation.
Import CartService OrderService.
Variables rt_cart rt_order : Runtime.
Variable uid : string.
Variable cart : Cart.
Variable orders_db : gmap string dict.

Let oid := checkout_order_id rt_cart.
Let confirmed := confirmed_order rt_cart rt_order uid cart.
Let snapshot := order_snapshot oid uid (utcnow rt_cart 0) cart.
Let event := pub_event (order_created rt_cart uid cart).

Lemma enrich_snapshot :
  enrich snapshot (VStr oid) (utcnow rt_order 0) = Some confirmed.
Proof. reflexivity. Qed.

Lemma confirm_checkout :
  OrderService.handle_order_event rt_order event orders_db
  = (processed (VStr "order.created"), <[oid := confirmed]> orders_db,
     fan_out rt_order (VStr oid) confirmed).
Proof.
  apply handle_order_created
    with (event_data := mk_dict [("order", VDict snapshot);
                                 ("action", VStr "order_created")])
         (order_data := snapshot); reflexivity.
Qed.

Lemma confirmed_order_lookups :
  confirmed !! "order_id" = Some (VStr oid) /\
  confirmed !! "items" = Some (VList (item_json <$> items cart)) /\
  confirmed !! "subtotal" = Some (VFloat (calculate_cart_total cart)) /\
  confirmed !! "tax"
  = Some (VFloat (Py.round2 (PrimFloat.mul (calculate_cart_total cart) 0.08))) /\
  confirmed !! "shipping" = Some (VFloat 5.99) /\
  confirmed !! "total"
  = Some (VFloat (Py.round2 (PrimFloat.add
      (Py.round2 (PrimFloat.mul (calculate_cart_total cart) 1.08)) 5.99))) /\
  confirmed !! "status" = Some (VStr "confirmed") /\
  confirmed !! "payment_status" = Some (VStr "pending").
Proof. unfold confirmed, confirmed_order. repeat split; dict_lookup. Qed.

End Confirmation.

Section CheckoutAndConfirm.
Import CartService OrderService.

Lemma checkout_and_confirm_items rt_cart rt_order uid carts_db orders_db cart :
  carts_db !! uid = Some cart -> items cart <> [] ->
  Saga.checkout_and_confirm rt_cart rt_order uid carts_db orders_db
  = Some (order_snapshot (checkout_order_id rt_cart) uid (utcnow rt_cart 0) cart,
          confirmed_order rt_cart rt_order uid cart).
Proof.
  intros Hc Hi. unfold Saga.checkout_and_confirm.
  rewrite (checkout_items _ _ _ _ Hc Hi).
  change (Saga.order_payload (pub_event (order_created rt_cart uid cart)))
    with (Some (order_snapshot (checkout_order_id rt_cart) uid (utcnow rt_cart 0) cart)).
  cbv beta iota.
  change (order_snapshot (checkout_order_id rt_cart) uid (utcnow rt_cart 0) cart
          !! "order_id") with (Some (VStr (checkout_order_id rt_cart))).
  cbv beta iota.
  rewrite confirm_checkout, lookup_insert_eq. reflexivity.
Qed.

End CheckoutAndConfirm.

(** ** C4: the 150 x 2 scenario *)

(** C4, as stated, fails: the payload's total already contains the tax
    (324.0, not 300.0), and the confirmed total is 329.99, not 305.99. *)
Lemma scenario_as_stated_fails :
  exists order stored,
    Saga.checkout_and_confirm Examples.rt_up Examples.rt_up "user-150"
      (Examples.one_item_cart "user-150" 150 2) OrderService.orders_db
    = Some (order, stored) /\
    order !! "total" = Some (VFloat 324) /\
    stored !! "total" = Some (VFloat 329.99) /\
    ~ scenario_as_stated order stored.
Proof.
  eexists _, _. split.
  { apply checkout_and_confirm_items with (cart := Examples.one_item "user-150" 150 2);
      [reflexivity | discriminate]. }
  split; [vm_compute; reflexivity|]. split; [vm_compute; reflexivity|].
  intros (_ & _ & H & _). revert H. value_neq.
Qed.

(** C4 (amended). Checkout of a cart whose only item has unit price 150
    and quantity 2 publishes [order.created] with subtotal 300.0, tax 24.0
    and total 324.0 (subtotal plus tax, no shipping); the order that the
    orchestrator stores on delivery has shipping 5.99 and total 329.99. *)
Theorem checkout_150_by_2_totals (rt_cart rt_order : Runtime) (uid : string)
    (carts_db : gmap string CartService.Cart) (orders_db : gmap string dict)
    (cart : CartService.Cart) (item : CartService.CartItem) :
  carts_db !! uid = Some cart ->
  CartService.items cart = [item] ->
  CartService.unit_price item = 150%float ->
  CartService.quantity item = 2 ->
  exists resp carts_db' created completed order stored,
    CartService.checkout rt_cart uid carts_db
    = (resp, carts_db', [created; completed]) /\
    pub_type created = Some (VStr "order.created") /\
    Saga.order_payload (pub_event created) = Some order /\
    order !! "subtotal" = Some (VFloat 300) /\
    order !! "tax" = Some (VFloat 24) /\
    order !! "total" = Some (VFloat 324) /\
    order !! "shipping" = None /\
    Saga.checkout_and_confirm rt_cart rt_order uid carts_db orders_db
    = Some (order, stored) /\
    stored !! "shipping" = Some (VFloat 5.99) /\
    stored !! "total" = Some (VFloat 329.99).
Proof.
  intros Hc Hi Hp Hq.
  assert (Hne : CartService.items cart <> []) by (rewrite Hi; discriminate).
  assert (Hs : CartService.calculate_cart_total cart = 300%float).
  { unfold CartService.calculate_cart_total, Py.sum_floats. rewrite Hi.
    cbn [fold_left]. rewrite Hp, Hq. vm_compute. reflexivity. }
  eexists _, _, (order_created rt_cart uid cart), (checkout_completed rt_cart uid cart),
    (CartService.order_snapshot (checkout_order_id rt_cart) uid (utcnow rt_cart 0) cart),
    (confirmed_order rt_cart rt_order uid cart).
  split; [by apply checkout_items|].
  split; [reflexivity|]. split; [reflexivity|].
  split; [change (Some (VFloat (CartService.calculate_cart_total cart)) = Some (VFloat 300));
          by rewrite Hs|].
  split; [change (Some (VFloat (Py.round2 (PrimFloat.mul
            (CartService.calculate_cart_total cart) 0.08))) = Some (VFloat 24));
          rewrite Hs; vm_compute; reflexivity|].
  split; [change (Some (VFloat (Py.round2 (PrimFloat.mul
            (CartService.calculate_cart_total cart) 1.08))) = Some (VFloat 324));
          rewrite Hs; vm_compute; reflexivity|].
  split; [reflexivity|].
  split; [by apply checkout_and_confirm_items|].
  destruct (confirmed_order_lookups rt_cart rt_order uid cart)
    as (_ & _ & _ & _ & Hship & Htot & _).
  split; [exact Hship|]. rewrite Htot, Hs. vm_compute. reflexivity.
Qed.

(** The scenario on a concrete cart, with the sidecar up at checkout and
    down at confirmation. *)
Lemma checkout_150_by_2_totals_witness :
  exists resp carts_db' created completed order stored,
    CartService.checkout Examples.rt_up "user-150"
      (Examples.one_item_cart "user-150" 150 2)
    = (resp, carts_db', [created; completed]) /\
    pub_type created = Some (VStr "order.created") /\
    Saga.order_payload (pub_event created) = Some order /\
    order !! "subtotal" = Some (VFloat 300) /\
    order !! "tax" = Some (VFloat 24) /\
    order !! "total" = Some (VFloat 324) /\
    order !! "shipping" = None /\
    Saga.checkout_and_confirm Examples.rt_up Examples.rt_down "user-150"
      (Examples.one_item_cart "user-150" 150 2) OrderService.orders_db
    = Some (order, stored) /\
    stored !! "shipping" = Some (VFloat 5.99) /\
    stored !! "total" = Some (VFloat 329.99).
Proof.
  eapply (checkout_150_by_2_totals _ _ _ _ _ (Examples.one_item "user-150" 150 2) _);
    reflexivity.
Defined.

(** ** C5: the confirmed total *)


(** The direct path is another matter: an order that [POST /orders]
    stores has [total = round(subtotal + tax + shipping, 2)] on its own
    fields, by construction. *)
Lemma create_order_total_from_fields rt data orders_db code body orders_db' out :
  OrderService.create_order rt data orders_db
  = (Response code body, orders_db', out) ->
  code = 201 ->
  exists order subtotal tax,
    body = VDict order /\
    orders_db'
    = <["order-" +:+ String.substring 0 8 (uuid4_hex rt 0) := order]> orders_db /\
    order !! "subtotal" = Some (value_of subtotal) /\
    order !! "tax" = Some (VFloat tax) /\
    order !! "shipping" = Some (VFloat 5.99) /\
    order !! "total"
    = Some (VFloat (total_from_fields (float_of subtotal) tax 5.99)).
Proof.
  unfold OrderService.create_order. intros H Hcode.
  repeat (case_match; try discriminate);
    injection H as <- <- <- <-; try discriminate.
  eexists _, _, _. repeat split.
Qed.



(** ** C2: redelivery of order.created *)

Section Redelivery.
Import OrderService.

(** Two deliveries of one [order.created] envelope whose order carries a
    str order id (and items and a total of the right types): the second
    overwrites what the first stored, under the same key, and differs
    from it in [updated_at] only. *)
Lemma order_created_twice rt1 rt2 event event_data order_data oid total
    (orders_db : gmap string dict) :
  event !! "type" = Some (VStr "order.created") ->
  event !! "data" = Some (VDict event_data) ->
  event_data !! "order" = Some (VDict order_data) ->
  order_data !! "order_id" = Some (VStr oid) ->
  sized (default (VList []) (order_data !! "items")) = true ->
  as_number (default (VInt 0) (order_data !! "total")) = Some total ->
  exists order1 order2,
    enrich order_data (VStr oid) (utcnow rt1 0) = Some order1 /\
    enrich order_data (VStr oid) (utcnow rt2 0) = Some order2 /\
    handle_order_event rt1 event orders_db
    = (processed (VStr "order.created"), <[oid := order1]> orders_db,
       fan_out rt1 (VStr oid) order1) /\
    handle_order_event rt2 event (<[oid := order1]> orders_db)
    = (processed (VStr "order.created"), <[oid := order2]> orders_db,
       fan_out rt2 (VStr oid) order2) /\
    order2 = <["updated_at" := VStr (utcnow rt2 0)]> order1.
Proof.
  intros Ht Hd Ho Hid Hlen Hn.
  pose proof (enrich_Some order_data (VStr oid) (utcnow rt1 0) total Hn) as E1.
  pose proof (enrich_Some order_data (VStr oid) (utcnow rt2 0) total Hn) as E2.
  eexists _, _. split; [exact E1|]. split; [exact E2|].
  split; [by eapply handle_order_created|].
  split.
  - erewrite handle_order_created by eassumption.
    by rewrite insert_insert_eq.
  - by rewrite insert_insert_eq.
Qed.

End Redelivery.

(** The one key comes from the payload: an order without [order_id] gets
    a fresh id at each delivery, and two deliveries store two orders. *)
Remark order_created_without_id_twice :
  let once :=
    (OrderService.handle_order_event Examples.rt_up
       Examples.order_created_without_id OrderService.orders_db).1.2 in
  let twice :=
    (OrderService.handle_order_event Examples.rt_down
       Examples.order_created_without_id once).1.2 in
  size OrderService.orders_db = 1%nat /\ size twice = 3%nat /\
  (twice !! "order-3f2a9c1e") ≫= (.!! "status") = Some (VStr "confirmed") /\
  (twice !! "order-9e8d7c6b") ≫= (.!! "status") = Some (VStr "confirmed").
Proof. vm_compute. repeat split. Qed.



(** ** C10: order.created for an order id that is already stored *)



(** ** C1: payment.completed at the orchestrator *)

(** C1, as stated, fails: [payment.completed] for an order id that is not
    in the store is answered 404 with status "error", which is no
    acknowledgement. The store is unchanged and nothing is published. *)
Lemma payment_completed_unknown_order_not_acknowledged :
  OrderService.orders_db !! "order-7e3a91c2" = None /\
  OrderService.handle_payment_event Examples.rt_up
    (Examples.payment_completed "order-7e3a91c2" "pay-4d2f8b6a")
    OrderService.orders_db
  = (Response 404 (VDict (mk_dict [("status", VStr "error");
                                   ("message", VStr "Order not found")])),
     OrderService.orders_db, []) /\
  ~ acknowledged
      (OrderService.handle_payment_event Examples.rt_up
         (Examples.payment_completed "order-7e3a91c2" "pay-4d2f8b6a")
         OrderService.orders_db).1.1.
Proof.
  split; [reflexivity|]. split; [reflexivity|].
  intros (code & body & H & Hcode).
  change (Response 404 (VDict (mk_dict [("status", VStr "error");
            ("message", VStr "Order not found")])) = Response code body) in H.
  assert (code = 404) by congruence. lia.
Qed.

(** C1 (amended). [payment.completed] carrying a non-empty str order id.
    If the store holds an order under that id, the handler sets its
    payment status and status to [paid], records the event's payment id
    (None when the event has none) and the time, leaves every other key of
    the order and every other order as they were, publishes [order.paid]
    on order-events and answers 200. If the store holds no such order, the
    handler answers 404 "Order not found": the store is unchanged, no
    order is created and nothing is published. *)
Theorem payment_completed_paid_or_404 (rt : Runtime) (event event_data : dict)
    (oid : string) (orders_db : gmap string dict) :
  event !! "type" = Some (VStr "payment.completed") ->
  event !! "data" = Some (VDict event_data) ->
  event_data !! "order_id" = Some (VStr oid) ->
  oid <> "" ->
  match orders_db !! oid with
  | Some order =>
      let payment_id := default VNone (event_data !! "payment_id") in
      let order' := OrderService.paid_order payment_id (utcnow rt 0) order in
      exists paid,
        OrderService.handle_payment_event rt event orders_db
        = (OrderService.processed (VStr "payment.completed"),
           <[oid := order']> orders_db, [paid]) /\
        order' !! "status" = Some (VStr "paid") /\
        order' !! "payment_status" = Some (VStr "paid") /\
        order' !! "payment_id" = Some payment_id /\
        (forall k, k ∉ ["status"; "payment_status"; "payment_id"; "updated_at"] ->
                   order' !! k = order !! k) /\
        pub_topic paid = "order-events" /\
        pub_type paid = Some (VStr "order.paid") /\
        pub_data paid
        = Some (VDict (mk_dict [("order_id", VStr oid);
                                ("payment_id", payment_id);
                                ("status", VStr "paid");
                                ("action", VStr "order_paid")]))
  | None =>
      OrderService.handle_payment_event rt event orders_db
      = (Response 404 (VDict (mk_dict [("status", VStr "error");
                                       ("message", VStr "Order not found")])),
         orders_db, [])
  end.
Proof.
  intros Ht Hd Hid Hne. unfold OrderService.handle_payment_event.
  rewrite Ht, Hd. simpl. rewrite Hid. simpl.
  assert (Htr : truthy (VStr oid) = true) by (destruct oid; [congruence|reflexivity]).
  simpl in Htr. rewrite Htr. simpl.
  destruct (orders_db !! oid) as [order|] eqn:E; [|reflexivity].
  eexists. split; [reflexivity|].
  unfold OrderService.paid_order. do 3 (split; [dict_lookup|]).
  split; [|repeat split].
  intros k Hk. rewrite !lookup_insert_ne; [done|..];
    intros <-; apply Hk; set_solver.
Qed.

(** [payment.completed] for the sample order. *)
Lemma payment_completed_paid_or_404_witness :
  exists paid,
    OrderService.handle_payment_event Examples.rt_up
      (Examples.payment_completed "order-sample001" "pay-4d2f8b6a")
      OrderService.orders_db
    = (OrderService.processed (VStr "payment.completed"),
       <["order-sample001" :=
           OrderService.paid_order (VStr "pay-4d2f8b6a") (utcnow Examples.rt_up 0)
             OrderService.sample_order]> OrderService.orders_db,
       [paid]) /\
    pub_type paid = Some (VStr "order.paid").
Proof.
  pose proof (payment_completed_paid_or_404 Examples.rt_up
                (Examples.payment_completed "order-sample001" "pay-4d2f8b6a")
                (mk_dict [("payment_id", VStr "pay-4d2f8b6a");
                          ("order_id", VStr "order-sample001");
                          ("user_id", VStr "user-001");
                          ("amount", VFloat 167.98);
                          ("transaction_id", VStr "txn-5c1e9a7d3b20");
                          ("action", VStr "payment_completed")])
                "order-sample001" OrderService.orders_db
                eq_refl eq_refl eq_refl) as H.
  destruct H as (paid & Hrun & _ & _ & _ & _ & _ & Hty & _); [discriminate|].
  exists paid. split; [exact Hrun | exact Hty].
Defined.

(** ** C7: the manual status update *)

Section UpdateStatus.
Import OrderService.

Lemma ORDER_STATUS_FLOW_length : length ORDER_STATUS_FLOW = 10%nat.
Proof. reflexivity. Qed.

Lemma in_status_flow_spec v :
  in_status_flow v = true <-> exists s, v = VStr s /\ s ∈ ORDER_STATUS_FLOW.
Proof.
  split.
  - destruct v; try discriminate. simpl. intros H%bool_decide_eq_true. eauto.
  - intros (s & -> & H). simpl. by apply bool_decide_eq_true.
Qed.

Lemma has_status_insert orders_db k order :
  has_status orders_db -> is_Some (order !! "status") ->
  has_status (<[k := order]> orders_db).
Proof.
  intros Hdb Ho k' o'. destruct (decide (k = k')) as [->|Hne].
  - rewrite lookup_insert_eq. by intros [= <-].
  - rewrite lookup_insert_ne by done. apply Hdb.
Qed.

Lemma has_status_initial : has_status orders_db.
Proof.
  intros k order. unfold orders_db.
  destruct (decide (k = "order-sample001")) as [->|Hne].
  - rewrite lookup_singleton_eq. intros [= <-]. by eexists.
  - rewrite lookup_singleton_ne by done. discriminate.
Qed.

Lemma has_status_order_event rt event orders_db :
  has_status orders_db -> has_status (handle_order_event rt event orders_db).1.2.
Proof.
  intros Hdb. unfold handle_order_event.
  repeat (case_match; simpl; try done).
  all: apply has_status_insert; [done|].
  all: match goal with H : enrich _ _ _ = Some _ |- _ =>
         destruct (enrich_lookups _ _ _ _ H) as (_ & Hs & _) end.
  all: by eexists.
Qed.

Lemma has_status_payment_event rt event orders_db :
  has_status orders_db -> has_status (handle_payment_event rt event orders_db).1.2.
Proof.
  intros Hdb. unfold handle_payment_event.
  repeat (case_match; simpl; try done);
    (apply has_status_insert; [done|]); eexists;
    unfold paid_order, failed_order; dict_lookup.
Qed.

Lemma has_status_create rt data orders_db :
  has_status orders_db -> has_status (create_order rt data orders_db).1.2.
Proof.
  intros Hdb. unfold create_order.
  repeat (case_match; simpl; try done).
  apply has_status_insert; [done|]. by eexists.
Qed.

Lemma has_status_update rt order_id data orders_db :
  has_status orders_db ->
  has_status (update_order_status rt order_id data orders_db).1.2.
Proof.
  intros Hdb. unfold update_order_status.
  repeat (case_match; simpl; try done).
  apply has_status_insert; [done|]. eexists; dict_lookup.
Qed.

End UpdateStatus.

(** C7. The status update of a stored order. When the requested status
    is not a str of [ORDER_STATUS_FLOW] (ten statuses), the answer is 400
    "Invalid status" and neither the store nor the outbox changes.
    Otherwise, whatever the order's present status, the handler writes
    the new status and the time, leaves the rest of the order and the
    other orders as they were, publishes [order.status_changed] with
    the old and the new status, and answers 200 with the order. *)
Theorem update_status_invalid_or_overwrites (rt : Runtime) (order_id : string)
    (data : dict) (orders_db : gmap string dict) (order : dict)
    (old_status : value) :
  orders_db !! order_id = Some order ->
  order !! "status" = Some old_status ->
  let new_status := default VNone (data !! "status") in
  let order' :=
    <["updated_at" := VStr (utcnow rt 0)]> (<["status" := new_status]> order) in
  length OrderService.ORDER_STATUS_FLOW = 10%nat /\
  ((exists s, new_status = VStr s /\ s ∈ OrderService.ORDER_STATUS_FLOW) ->
   exists changed,
     OrderService.update_order_status rt order_id data orders_db
     = (Response 200 (VDict order'), <[order_id := order']> orders_db, [changed]) /\
     order' !! "status" = Some new_status /\
     (forall k, k ∉ ["status"; "updated_at"] -> order' !! k = order !! k) /\
     pub_topic changed = "order-events" /\
     pub_type changed = Some (VStr "order.status_changed") /\
     pub_data changed
     = Some (VDict (mk_dict [("order_id", VStr order_id);
                             ("old_status", old_status);
                             ("new_status", new_status);
                             ("action", VStr "status_changed")]))) /\
  (~ (exists s, new_status = VStr s /\ s ∈ OrderService.ORDER_STATUS_FLOW) ->
   OrderService.update_order_status rt order_id data orders_db
   = (Response 400 (VDict (mk_dict [
        ("error", VStr "Invalid status");
        ("valid_statuses", VList (VStr <$> OrderService.ORDER_STATUS_FLOW))])),
      orders_db, [])).
Proof.
  intros Hdb Hst new_status order'. split; [reflexivity|].
  unfold OrderService.update_order_status. rewrite Hdb. fold new_status.
  split.
  - intros Hin%in_status_flow_spec. rewrite Hin. cbn [negb]. rewrite Hst.
    eexists. split; [reflexivity|]. unfold order'.
    split; [dict_lookup|]. split; [|repeat split].
    intros k Hk. rewrite !lookup_insert_ne; [done|..];
      intros <-; apply Hk; set_solver.
  - intros Hnot. destruct (OrderService.in_status_flow new_status) eqn:E.
    + apply in_status_flow_spec in E. contradiction.
    + reflexivity.
Qed.

(** The sample order goes from completed back to pending. *)
Lemma update_status_invalid_or_overwrites_witness :
  OrderService.sample_order !! "status" = Some (VStr "completed") /\
  (exists changed,
     OrderService.update_order_status Examples.rt_up "order-sample001"
       (mk_dict [("status", VStr "pending")]) OrderService.orders_db
     = (Response 200 (VDict
          (<["updated_at" := VStr (utcnow Examples.rt_up 0)]>
             (<["status" := VStr "pending"]> OrderService.sample_order))),
        <["order-sample001" :=
            <["updated_at" := VStr (utcnow Examples.rt_up 0)]>
              (<["status" := VStr "pending"]> OrderService.sample_order)]>
          OrderService.orders_db,
        [changed]) /\
     pub_type changed = Some (VStr "order.status_changed")).
Proof.
  split; [reflexivity|].
  pose proof (update_status_invalid_or_overwrites Examples.rt_up "order-sample001"
                (mk_dict [("status", VStr "pending")]) OrderService.orders_db
                OrderService.sample_order (VStr "completed") eq_refl eq_refl) as H.
  destruct H as (_ & Hok & _).
  destruct Hok as (changed & Hrun & _ & _ & _ & Hty & _).
  - exists "pending". split; [reflexivity|]. unfold OrderService.ORDER_STATUS_FLOW.
    set_solver.
  - exists changed. split; [exact Hrun | exact Hty].
Defined.

(** ** C8: refunds *)

Lemma eq_str_spec v s : eq_str v s = true <-> v = VStr s.
Proof.
  destruct v; simpl; try (split; [discriminate | intros [=]]).
  rewrite String.eqb_eq. split; [by intros -> | by intros [= ->]].
Qed.

(** C8. [refund_payment]. An unknown payment id is answered 404
    "Payment not found"; a payment whose status is not [completed] is
    answered 400 "Can only refund completed payments"; in both cases the
    store and the outbox are unchanged. A completed payment gets the
    status [refunded], a refund id and the time, keeps its other fields,
    and [payment.refunded] is published on payment-events with the
    payment's order id and amount; the answer is 200 with the payment. *)
Theorem refund_not_found_invalid_or_refunded (rt : Runtime) (payment_id : string)
    (payments_db : gmap string dict) :
  (payments_db !! payment_id = None ->
   PaymentService.refund_payment rt payment_id payments_db
   = (Response 404 (error_body "Payment not found"), payments_db, [])) /\
  (forall payment status,
     payments_db !! payment_id = Some payment ->
     payment !! "status" = Some status ->
     status <> VStr "completed" ->
     PaymentService.refund_payment rt payment_id payments_db
     = (Response 400 (error_body "Can only refund completed payments"),
        payments_db, [])) /\
  (forall payment order_id amount,
     payments_db !! payment_id = Some payment ->
     payment !! "status" = Some (VStr "completed") ->
     payment !! "order_id" = Some order_id ->
     payment !! "amount" = Some amount ->
     let refund_id := "ref-" +:+ String.substring 0 8 (uuid4_hex rt 0) in
     let payment' := PaymentService.refunded refund_id (utcnow rt 0) payment in
     exists event,
       PaymentService.refund_payment rt payment_id payments_db
       = (Response 200 (VDict payment'), <[payment_id := payment']> payments_db,
          [event]) /\
       payment' !! "status" = Some (VStr "refunded") /\
       (forall k, k ∉ ["status"; "refund_id"; "refunded_at"] ->
                  payment' !! k = payment !! k) /\
       pub_topic event = "payment-events" /\
       pub_type event = Some (VStr "payment.refunded") /\
       pub_data event
       = Some (VDict (mk_dict [("payment_id", VStr payment_id);
                               ("refund_id", VStr refund_id);
                               ("order_id", order_id);
                               ("amount", amount);
                               ("action", VStr "payment_refunded")]))).
Proof.
  split; [|split].
  - intros H. unfold PaymentService.refund_payment. by rewrite H.
  - intros payment status H Hst Hne. unfold PaymentService.refund_payment.
    rewrite H, Hst.
    destruct (eq_str status "completed") eqn:E; [|reflexivity].
    apply eq_str_spec in E. contradiction.
  - intros payment order_id amount H Hst Hoid Ham refund_id payment'.
    unfold PaymentService.refund_payment.
    rewrite H, Hst. cbn [eq_str String.eqb negb]. simpl.
    fold refund_id. fold payment'.
    assert (Ho : payment' !! "order_id" = Some order_id).
    { unfold payment', PaymentService.refunded. by dict_lookup. }
    assert (Ha : payment' !! "amount" = Some amount).
    { unfold payment', PaymentService.refunded. by dict_lookup. }
    rewrite Ho, Ha. eexists. split; [reflexivity|].
    split; [unfold payment', PaymentService.refunded; dict_lookup|].
    split; [|repeat split].
    intros k Hk. unfold payment', PaymentService.refunded.
    rewrite !lookup_insert_ne; [done|..]; intros <-; apply Hk; set_solver.
Qed.

(** The sample payment is refunded; an unknown payment id is not found. *)
Lemma refund_not_found_invalid_or_refunded_witness :
  (exists event,
     PaymentService.refund_payment Examples.rt_up "pay-sample001"
       PaymentService.payments_db
     = (Response 200 (VDict (PaymentService.refunded "ref-3f2a9c1e"
                               (utcnow Examples.rt_up 0)
                               PaymentService.sample_payment)),
        <["pay-sample001" :=
            PaymentService.refunded "ref-3f2a9c1e" (utcnow Examples.rt_up 0)
              PaymentService.sample_payment]> PaymentService.payments_db,
        [event]) /\
     pub_type event = Some (VStr "payment.refunded")) /\
  PaymentService.refund_payment Examples.rt_up "pay-00000000"
    PaymentService.payments_db
  = (Response 404 (error_body "Payment not found"), PaymentService.payments_db, []).
Proof.
  destruct (refund_not_found_invalid_or_refunded Examples.rt_up "pay-sample001"
              PaymentService.payments_db) as (_ & _ & Hok).
  destruct (Hok PaymentService.sample_payment (VStr "order-sample001")
              (VFloat 167.98) eq_refl eq_refl eq_refl eq_refl)
    as (event & Hrun & _ & _ & _ & Hty & _).
  split; [exists event; split; [exact Hrun | exact Hty]|].
  apply (refund_not_found_invalid_or_refunded Examples.rt_up "pay-00000000"
           PaymentService.payments_db).
  reflexivity.
Defined.

(** ** C3: the stock floor *)

Section Stock.
Import ProductService.

Lemma nonneg_stock_initial : nonneg_stock products_db.
Proof.
  intros k p. unfold products_db.
  repeat (rewrite lookup_insert; case_decide; [intros [= <-]; simpl; lia|]).
  rewrite lookup_empty. discriminate.
Qed.

(** The PATCH path refuses a change that would take the stock below
    zero, and leaves the store as it is. *)
Lemma update_stock_insufficient rt product_id data products_db product quantity :
  products_db !! product_id = Some product ->
  to_int rt (default (VInt 0) (data !! "quantity")) = Some quantity ->
  stock product + quantity < 0 ->
  update_stock rt product_id data products_db
  = (Response 400 (VDict (mk_dict [
       ("error", VStr "Insufficient stock");
       ("current_stock", VInt (stock product));
       ("requested_change", VInt quantity)])), products_db, []).
Proof.
  intros Hp Hq Hneg. unfold update_stock. rewrite Hp, Hq.
  destruct (Z.ltb_spec (stock product + quantity) 0); [reflexivity | lia].
Qed.

(** The PATCH path keeps every stock at or above zero. *)
Lemma update_stock_nonneg rt product_id data products_db :
  nonneg_stock products_db ->
  nonneg_stock (update_stock rt product_id data products_db).1.2.
Proof.
  intros Hdb. unfold update_stock.
  destruct (products_db !! product_id) as [product|] eqn:Hp; [|done].
  destruct (to_int rt _) as [quantity|]; [|done].
  destruct (Z.ltb_spec (stock product + quantity) 0); [done|].
  simpl. intros k p. destruct (decide (product_id = k)) as [->|Hne].
  - rewrite lookup_insert_eq. intros [= <-]. simpl. lia.
  - rewrite lookup_insert_ne by done. apply Hdb.
Qed.

(** The event path subtracts whatever is ordered: one line item of [q]
    units of a stored product leaves it with its stock less [q], and the
    delivery is answered 200. *)
Lemma order_placed_subtracts event event_data item key q products_db product :
  event !! "type" = Some (VStr "order.placed") ->
  event !! "data" = Some (VDict event_data) ->
  event_data !! "items" = Some (VList [VDict item]) ->
  item !! "product_id" = Some (VStr key) ->
  item !! "quantity" = Some (VInt q) ->
  products_db !! key = Some product ->
  handle_order_event event products_db
  = (Response 200 (VDict (mk_dict [("status", VStr "processed")])),
     <[key := set_stock (stock product - q) product]> products_db).
Proof.
  intros Ht Hd Hi Hk Hq Hp. unfold handle_order_event.
  rewrite Ht, Hd. simpl. rewrite Hi. simpl. rewrite Hk, Hq. simpl.
  rewrite Hp. reflexivity.
Qed.

Lemma order_placed_below_zero event event_data item key q products_db product :
  event !! "type" = Some (VStr "order.placed") ->
  event !! "data" = Some (VDict event_data) ->
  event_data !! "items" = Some (VList [VDict item]) ->
  item !! "product_id" = Some (VStr key) ->
  item !! "quantity" = Some (VInt q) ->
  products_db !! key = Some product ->
  stock product < q ->
  ~ nonneg_stock (handle_order_event event products_db).2.
Proof.
  intros Ht Hd Hi Hk Hq Hp Hlt Hnn.
  rewrite (order_placed_subtracts _ _ _ _ _ _ _ Ht Hd Hi Hk Hq Hp) in Hnn.
  cbn [snd] in Hnn. specialize (Hnn key (set_stock (stock product - q) product)).
  rewrite lookup_insert_eq in Hnn. specialize (Hnn eq_refl). simpl in Hnn. lia.
Qed.

End Stock.

(** C3, evaluated where the code departs from it. The store starts with
    every stock at or above zero and 50 units of prod-002; the delivery of
    [order.placed] for 51 units is answered 200 and leaves that product
    with a stock of -1. The PATCH path refuses the same change. *)
Theorem order_placed_takes_stock_below_zero :
  nonneg_stock ProductService.products_db /\
  ProductService.stock <$> ProductService.products_db !! "prod-002" = Some 50 /\
  (exists products_db',
     ProductService.handle_order_event Examples.order_placed_51
       ProductService.products_db
     = (Response 200 (VDict (mk_dict [("status", VStr "processed")])), products_db') /\
     ProductService.stock <$> products_db' !! "prod-002" = Some (-1) /\
     ~ nonneg_stock products_db') /\
  (ProductService.update_stock Examples.rt_up "prod-002"
     (mk_dict [("quantity", VInt (-51))]) ProductService.products_db).1.2
  = ProductService.products_db.
Proof.
  split; [apply nonneg_stock_initial|]. split; [reflexivity|]. split.
  - exists (<["prod-002" := ProductService.set_stock (-1) ProductService.smart_watch]>
              ProductService.products_db).
    split; [vm_compute; reflexivity|]. split; [reflexivity|].
    intros H.
    specialize (H "prod-002"
      (ProductService.set_stock (-1) ProductService.smart_watch) eq_refl).
    simpl in H. lia.
  - reflexivity.
Qed.

(** ** C9: price sync into the carts *)

Section PriceSync.
Import CartService.

Lemma reprice_fields pid p item :
  item_id (reprice (VStr pid) p item) = item_id item /\
  product_id (reprice (VStr pid) p item) = product_id item /\
  product_name (reprice (VStr pid) p item) = product_name item /\
  quantity (reprice (VStr pid) p item) = quantity item /\
  added_at (reprice (VStr pid) p item) = added_at item /\
  unit_price (reprice (VStr pid) p item)
  = if decide (product_id item = pid) then p else unit_price item.
Proof.
  unfold reprice, eq_str.
  destruct (String.eqb_spec pid (product_id item)) as [E|E]; simpl;
    case_decide; try congruence; done.
Qed.

Lemma reprice_other pid p item :
  product_id item <> pid -> reprice (VStr pid) p item = item.
Proof.
  intros H. unfold reprice, eq_str.
  destruct (String.eqb_spec pid (product_id item)); [congruence | reflexivity].
Qed.

(** The handler on [product.updated] with a str product id and a float
    price, neither of them falsy: every cart is repriced. *)
Lemma product_updated_reprices rt event event_data product pid p
    (carts_db : gmap string Cart) :
  event !! "type" = Some (VStr "product.updated") ->
  event !! "data" = Some (VDict event_data) ->
  event_data !! "product" = Some (VDict product) ->
  product !! "id" = Some (VStr pid) -> pid <> "" ->
  product !! "price" = Some (VFloat p) -> Py.truthy_float p = true ->
  handle_product_event rt event carts_db
  = (Response 200 (VDict (mk_dict [("status", VStr "processed")])),
     reprice_cart (VStr pid) p <$> carts_db).
Proof.
  intros Ht Hd Hp Hid Hne Hpr Htr. unfold handle_product_event.
  rewrite Ht, Hd. simpl. rewrite Hp. simpl. rewrite Hid, Hpr. simpl.
  rewrite Htr. destruct pid; [congruence|]. reflexivity.
Qed.

(** What repricing does to the store: the same users, the same carts,
    the same items in the same order; an item of the product gets the new
    unit price, and nothing else changes. *)
Lemma reprice_cart_lookup pid p (carts_db : gmap string Cart) uid :
  (reprice_cart (VStr pid) p <$> carts_db) !! uid
  = reprice_cart (VStr pid) p <$> carts_db !! uid.
Proof. apply lookup_fmap. Qed.

Lemma reprice_cart_items pid p cart i :
  items (reprice_cart (VStr pid) p cart) !! i
  = reprice (VStr pid) p <$> items cart !! i.
Proof. simpl. apply list_lookup_fmap. Qed.

(** The handler on [product.updated] with the price 0.0 (or 0, or no
    price at all): the guard fails and no cart is touched. *)
Lemma product_updated_falsy_price_ignored rt event event_data product
    (carts_db : gmap string Cart) :
  event !! "type" = Some (VStr "product.updated") ->
  event !! "data" = Some (VDict event_data) ->
  event_data !! "product" = Some (VDict product) ->
  truthy (default VNone (product !! "price")) = false ->
  handle_product_event rt event carts_db
  = (Response 200 (VDict (mk_dict [("status", VStr "processed")])), carts_db).
Proof.
  intros Ht Hd Hp Hpr. unfold handle_product_event.
  rewrite Ht, Hd. simpl. rewrite Hp. simpl. rewrite Hpr.
  by rewrite andb_false_r.
Qed.

End PriceSync.

(** C9, evaluated where the code departs from it. After the price of
    prod-001 was set to 0, [product.updated] carries the price 0.0; the
    cart of user-001 holds prod-001 at 149.99. The handler answers 200 and
    leaves the store as it is: the item keeps 149.99, because the guard
    [if product_id and new_price] takes the price 0.0 for a missing one. *)
Theorem product_updated_free_price_not_synced :
  (exists event_data product,
     Examples.product_updated_free !! "type" = Some (VStr "product.updated") /\
     Examples.product_updated_free !! "data" = Some (VDict event_data) /\
     event_data !! "product" = Some (VDict product) /\
     product !! "id" = Some (VStr "prod-001") /\
     product !! "price" = Some (VFloat 0)) /\
  CartService.handle_product_event Examples.rt_up Examples.product_updated_free
    CartService.carts_db
  = (Response 200 (VDict (mk_dict [("status", VStr "processed")])),
     CartService.carts_db) /\
  (CartService.carts_db !! "user-001") ≫= (fun cart =>
     (fun item => (CartService.product_id item, CartService.unit_price item))
       <$> CartService.items cart !! 0%nat)
  = Some ("prod-001", 149.99%float).
Proof.
  split; [eexists _, _; repeat split|]. split; reflexivity.
Qed.


(** * Further properties of the services *)

(** ** cart-service: the cart routes *)

Section CartRoutesFacts.
Import CartService CartRoutes.
Local Open Scope list_scope.


Lemma update_first_fmap {A B} (p : A -> bool) f (g : A -> B) (l : list A) :
  (forall x, g (f x) = g x) -> g <$> update_first p f l = g <$> l.
Proof.
  intros Hg. induction l as [|x l IH]; simpl; [done|].
  destruct (p x); rewrite !fmap_cons; [by rewrite Hg | by rewrite IH].
Qed.

Lemma find_update_first {A} (p : A -> bool) f (l : list A) x :
  List.find p l = Some x ->
  exists l1 l2, l = l1 ++ x :: l2 /\ update_first p f l = l1 ++ f x :: l2 /\
                remove_first p l = l1 ++ l2 /\ Forall (fun y => p y = false) l1.
Proof.
  induction l as [|y l IH]; simpl; [discriminate|].
  destruct (p y) eqn:E.
  - intros [= ->]. by exists [], l.
  - intros H. destruct (IH H) as (l1 & l2 & -> & Hu & Hr & Hf).
    exists (y :: l1), l2. simpl. rewrite Hu, Hr. repeat split. by constructor.
Qed.


Lemma total_quantity_fold (l : list CartItem) (a : Z) :
  fold_left (fun acc item => acc + quantity item) l a
  = a + fold_left (fun acc item => acc + quantity item) l 0.
Proof.
  revert a. induction l as [|x l IH]; intros a; simpl; [lia|].
  rewrite (IH (a + quantity x)), (IH (0 + quantity x)). lia.
Qed.

Lemma total_quantity_app (l1 l2 : list CartItem) c t :
  total_quantity (with_items (l1 ++ l2) t c)
  = total_quantity (with_items l1 t c) + total_quantity (with_items l2 t c).
Proof.
  unfold total_quantity. simpl. rewrite fold_left_app.
  by rewrite total_quantity_fold.
Qed.

Lemma existsb_same_product pid (l : list CartItem) :
  existsb (same_product pid) l = true <-> pid ∈ product_id <$> l.
Proof.
  induction l as [|x l IH]; simpl.
  - split; [discriminate | by intros ?%elem_of_nil].
  - rewrite orb_true_iff, IH, elem_of_cons. unfold same_product.
    rewrite String.eqb_eq. split; (intros [H|H]; [left|right]; auto).
Qed.

Lemma sum_quantity_split (l1 l2 : list CartItem) x t c :
  total_quantity (with_items (l1 ++ x :: l2) t c)
  = total_quantity (with_items l1 t c) + quantity x
    + total_quantity (with_items l2 t c).
Proof.
  rewrite total_quantity_app.
  change (x :: l2) with ([x] ++ l2). rewrite total_quantity_app.
  unfold total_quantity at 2. simpl. lia.
Qed.

Lemma total_quantity_with_items c t :
  total_quantity (with_items (items c) t c) = total_quantity c.
Proof. reflexivity. Qed.

(** The cart that a request works on, and the store it is then in. *)
Lemma get_or_create_cart_spec t uid (carts_db : gmap string Cart) :
  let '(cart, carts_db1) := get_or_create_cart t uid carts_db in
  carts_db1 !! uid = Some cart /\
  (forall k, k <> uid -> carts_db1 !! k = carts_db !! k) /\
  match carts_db !! uid with
  | Some c => cart = c /\ carts_db1 = carts_db
  | None => items cart = [] /\ carts_db1 = <[uid := cart]> carts_db
  end.
Proof.
  unfold get_or_create_cart. destruct (carts_db !! uid) as [c|] eqn:E.
  - by rewrite E.
  - rewrite lookup_insert_eq. split; [done|]. split; [|done].
    intros k Hk. by rewrite lookup_insert_ne.
Qed.

End CartRoutesFacts.

Section CartRoutesTheorems.
Import CartService CartRoutes.
Local Open Scope list_scope.

Lemma unique_products_insert (carts_db : gmap string Cart) uid cart :
  unique_products carts_db -> NoDup (product_id <$> items cart) ->
  unique_products (<[uid := cart]> carts_db).
Proof.
  intros Hdb Hc u c. destruct (decide (uid = u)) as [->|Hne].
  - rewrite lookup_insert_eq. by intros [= <-].
  - rewrite lookup_insert_ne by done. apply Hdb.
Qed.

End CartRoutesTheorems.

(** X1. [add_to_cart] keeps one row per product: when no cart of the
    store holds two items of the same product, none does after the
    request, whatever the request, the answer of the product service and
    the outcome. *)
Theorem add_to_cart_unique_products (rt : Runtime)
    (lookup : option CartRoutes.ProductInfo) (uid : string)
    (data : CartRoutes.AddItem) (carts_db : gmap string CartService.Cart) :
  unique_products carts_db ->
  unique_products (CartRoutes.add_to_cart rt lookup uid data carts_db).1.2.
Proof.
  intros Hdb. unfold CartRoutes.add_to_cart.
  destruct (CartRoutes.add_product_id data) as [pid|]; [|done].
  destruct (to_int rt _) as [q|]; [|done].
  destruct (q <? 1); [done|].
  pose proof (get_or_create_cart_spec (utcnow rt 0) uid carts_db) as Hg.
  destruct (CartRoutes.get_or_create_cart (utcnow rt 0) uid carts_db)
    as [cart carts_db1].
  destruct Hg as (Hc & Hk & Hm).
  assert (Hdb1 : unique_products carts_db1).
  { destruct (carts_db !! uid) as [c|] eqn:E.
    - by destruct Hm as [_ ->].
    - destruct Hm as [Hi ->]. apply unique_products_insert; [done|].
      rewrite Hi. constructor. }
  assert (Hnd : NoDup (CartService.product_id <$> CartService.items cart))
    by (by apply (Hdb1 uid)).
  destruct (existsb _ _) eqn:Hex.
  - simpl. apply unique_products_insert; [done|]. simpl.
    by rewrite update_first_fmap.
  - assert (Hnew : pid ∉ CartService.product_id <$> CartService.items cart).
    { intros Hin%existsb_same_product. congruence. }
    destruct lookup as [info|]; simpl;
      (destruct (to_float rt _) as [price|]; [|done]); simpl;
      (apply unique_products_insert; [done|]); simpl;
      rewrite fmap_app; simpl; apply NoDup_app;
      (split; [done|]); (split; [|apply NoDup_singleton]);
      intros x Hx ->%list_elem_of_singleton; contradiction.
Qed.

Lemma unique_products_initial : unique_products CartService.carts_db.
Proof.
  intros uid cart. unfold CartService.carts_db.
  destruct (decide (uid = "user-001")) as [->|Hne].
  - rewrite lookup_singleton_eq. intros [= <-]. simpl. apply NoDup_singleton.
  - rewrite lookup_singleton_ne by done. discriminate.
Qed.

(** The smart watch added to the sample cart, which holds headphones. *)
Lemma add_to_cart_unique_products_witness :
  unique_products
    (CartRoutes.add_to_cart Examples.rt_up (Some Requests.watch_info) "user-001"
       Requests.one_watch CartService.carts_db).1.2.
Proof.
  apply add_to_cart_unique_products. apply unique_products_initial.
Defined.



(** X3. What a refused or failed [add_to_cart] leaves behind. A request
    without product id, or with a quantity below 1, is answered 400 and
    changes nothing. A price that cannot be converted raises only after
    the user's cart was fetched or created: for a user without cart, the
    failed request leaves an empty cart in the store, and publishes
    nothing. *)
Theorem add_to_cart_failure_leaves_cart (rt : Runtime) (uid : string)
    (data : CartRoutes.AddItem) (carts_db : gmap string CartService.Cart) :
  (CartRoutes.add_product_id data = None ->
   forall lookup,
     CartRoutes.add_to_cart rt lookup uid data carts_db
     = (Response 400 (error_body "product_id is required"), carts_db, [])) /\
  (forall pid q lookup,
     CartRoutes.add_product_id data = Some pid ->
     to_int rt (default (VInt 1) (CartRoutes.add_quantity data)) = Some q ->
     q < 1 ->
     CartRoutes.add_to_cart rt lookup uid data carts_db
     = (Response 400 (error_body "Quantity must be at least 1"), carts_db, [])) /\
  (forall pid q,
     CartRoutes.add_product_id data = Some pid ->
     to_int rt (default (VInt 1) (CartRoutes.add_quantity data)) = Some q ->
     1 <= q ->
     carts_db !! uid = None ->
     to_float rt (default (VInt 0) (CartRoutes.add_unit_price data)) = None ->
     CartRoutes.add_to_cart rt None uid data carts_db
     = (Raised,
        <[uid := {| CartService.user_id := uid; CartService.items := [];
                    CartService.created_at := utcnow rt 0;
                    CartService.updated_at := utcnow rt 0 |}]> carts_db,
        [])).
Proof.
  unfold CartRoutes.add_to_cart. split; [|split].
  - by intros ->.
  - intros pid q lookup -> -> Hq. by destruct (Z.ltb_spec q 1); [|lia].
  - intros pid q -> -> Hq Hc Hp. destruct (Z.ltb_spec q 1); [lia|].
    unfold CartRoutes.get_or_create_cart. rewrite Hc. simpl. by rewrite Hp.
Qed.

(** A smart watch with an unusable price hint, for a user without cart,
    while the product service does not answer. *)
Lemma add_to_cart_failure_leaves_cart_witness :
  CartService.carts_db !! "user-002" = None /\
  exists carts_db',
    CartRoutes.add_to_cart Examples.rt_up None "user-002"
      Requests.watch_with_bad_price CartService.carts_db
    = (Raised, carts_db', []) /\
    CartService.items <$> carts_db' !! "user-002" = Some [].
Proof.
  split; [reflexivity|].
  destruct (add_to_cart_failure_leaves_cart Examples.rt_up "user-002"
              Requests.watch_with_bad_price CartService.carts_db) as (_ & _ & H).
  eexists. split.
  - apply (H "prod-002" 1); [reflexivity | reflexivity | lia | reflexivity | reflexivity].
  - by rewrite lookup_insert_eq.
Defined.

(** X4. [update_cart_item] stores whatever int it is given: for every
    quantity, zero and negative ones included, the first item with the
    id gets that quantity, the items of the cart stay the same otherwise,
    and [cart.item_updated] tells the old and the new quantity. *)
Theorem update_cart_item_any_quantity (rt : Runtime) (uid iid : string)
    (data : dict) (q : Z) (carts_db : gmap string CartService.Cart)
    (cart : CartService.Cart) (item : CartService.CartItem) :
  carts_db !! uid = Some cart ->
  List.find (CartRoutes.has_item_id iid) (CartService.items cart) = Some item ->
  to_int rt (default (VInt 1) (data !! "quantity")) = Some q ->
  exists body cart' updated,
    CartRoutes.update_cart_item rt uid iid data carts_db
    = (Response 200 body, <[uid := cart']> carts_db, [updated]) /\
    CartService.item_id <$> CartService.items cart'
    = CartService.item_id <$> CartService.items cart /\
    CartService.unit_price <$> CartService.items cart'
    = CartService.unit_price <$> CartService.items cart /\
    CartService.quantity <$>
      List.find (CartRoutes.has_item_id iid) (CartService.items cart') = Some q /\
    CartRoutes.total_quantity cart'
    = CartRoutes.total_quantity cart - CartService.quantity item + q /\
    pub_type updated = Some (VStr "cart.item_updated") /\
    pub_data updated
    = Some (VDict (mk_dict [("user_id", VStr uid);
                            ("item_id", VStr iid);
                            ("product_id", VStr (CartService.product_id item));
                            ("old_quantity", VInt (CartService.quantity item));
                            ("new_quantity", VInt q);
                            ("action", VStr "item_updated")])).
Proof.
  intros Hc Hf Hq. unfold CartRoutes.update_cart_item. rewrite Hc, Hq, Hf.
  eexists _, _, _. split; [reflexivity|]. simpl.
  destruct (find_update_first _ (CartRoutes.set_quantity q) _ _ Hf)
    as (l1 & l2 & Hl & Hu & _ & Hno).
  split; [by apply update_first_fmap|]. split; [by apply update_first_fmap|].
  split.
  - rewrite Hu. clear Hu Hl. induction Hno as [|y l1 Hy _ IH]; simpl.
    + apply List.find_some in Hf as [_ Hid]. unfold CartRoutes.has_item_id in *.
      simpl. by rewrite Hid.
    + unfold CartRoutes.has_item_id in Hy |- *. by rewrite Hy.
  - split; [|done].
    rewrite <- (total_quantity_with_items cart (utcnow rt 0)).
    change (CartRoutes.total_quantity
              (CartRoutes.with_items
                 (update_first (CartRoutes.has_item_id iid)
                    (CartRoutes.set_quantity q) (CartService.items cart))
                 (utcnow rt 0) cart)
            = CartRoutes.total_quantity
                (CartRoutes.with_items (CartService.items cart) (utcnow rt 0) cart)
              - CartService.quantity item + q).
    rewrite Hu, Hl, !sum_quantity_split. simpl. lia.
Qed.

(** The two headphones of the sample cart set to minus three. *)
Lemma update_cart_item_any_quantity_witness :
  exists body cart' updated,
    CartRoutes.update_cart_item Examples.rt_up "user-001" "cart-item-001"
      (mk_dict [("quantity", VInt (-3))]) CartService.carts_db
    = (Response 200 body, <["user-001" := cart']> CartService.carts_db, [updated]) /\
    CartRoutes.total_quantity cart' = -3.
Proof.
  destruct (update_cart_item_any_quantity Examples.rt_up "user-001" "cart-item-001"
              (mk_dict [("quantity", VInt (-3))]) (-3) CartService.carts_db
              CartService.sample_cart
              {| CartService.item_id := "cart-item-001";
                 CartService.product_id := "prod-001";
                 CartService.product_name := "Wireless Bluetooth Headphones";
                 CartService.quantity := 2;
                 CartService.unit_price := 149.99;
                 CartService.added_at := "2026-01-11T09:00:00Z" |}
              eq_refl eq_refl eq_refl)
    as (body & cart' & updated & Hrun & _ & _ & _ & Hq & _).
  exists body, cart', updated. split; [exact Hrun|]. rewrite Hq. reflexivity.
Defined.

(** X5. [remove_from_cart] takes out one item, the first with the id:
    the cart is left with the other items in their order, and once item
    ids are distinct the id is gone from the cart. *)
Theorem remove_from_cart_removes_one (rt : Runtime) (uid iid : string)
    (carts_db : gmap string CartService.Cart) (cart : CartService.Cart)
    (item : CartService.CartItem) :
  carts_db !! uid = Some cart ->
  List.find (CartRoutes.has_item_id iid) (CartService.items cart) = Some item ->
  exists body cart' removed,
    CartRoutes.remove_from_cart rt uid iid carts_db
    = (Response 200 body, <[uid := cart']> carts_db, [removed]) /\
    (exists before after,
       CartService.items cart = (before ++ item :: after)%list /\
       CartService.items cart' = (before ++ after)%list) /\
    CartService.items cart ≡ₚ item :: CartService.items cart' /\
    S (length (CartService.items cart')) = length (CartService.items cart) /\
    (NoDup (CartService.item_id <$> CartService.items cart) ->
     iid ∉ CartService.item_id <$> CartService.items cart') /\
    pub_type removed = Some (VStr "cart.item_removed").
Proof.
  intros Hc Hf. unfold CartRoutes.remove_from_cart. rewrite Hc, Hf.
  eexists _, _, _. split; [reflexivity|]. simpl.
  destruct (find_update_first _ id _ _ Hf) as (l1 & l2 & Hl & _ & Hr & _).
  rewrite Hr, Hl. split; [by exists l1, l2|].
  split; [by rewrite Permutation_middle|].
  split; [rewrite !length_app; simpl; lia|].
  split; [|done].
  apply List.find_some in Hf as [_ Hid]. unfold CartRoutes.has_item_id in Hid.
  apply String.eqb_eq in Hid.
  rewrite !fmap_app, fmap_cons, Hid. intros Hnd Hin.
  apply NoDup_app in Hnd as (_ & Hdisj & Hnd2).
  apply NoDup_cons in Hnd2 as [Hnot _].
  apply elem_of_app in Hin as [Hin|Hin]; [|done].
  apply (Hdisj _ Hin). left.
Qed.

(** The headphones taken out of the sample cart. *)
Lemma remove_from_cart_removes_one_witness :
  exists body cart' removed,
    CartRoutes.remove_from_cart Examples.rt_up "user-001" "cart-item-001"
      CartService.carts_db
    = (Response 200 body, <["user-001" := cart']> CartService.carts_db, [removed]) /\
    CartService.items cart' = [].
Proof.
  destruct (remove_from_cart_removes_one Examples.rt_up "user-001" "cart-item-001"
              CartService.carts_db CartService.sample_cart
              {| CartService.item_id := "cart-item-001";
                 CartService.product_id := "prod-001";
                 CartService.product_name := "Wireless Bluetooth Headphones";
                 CartService.quantity := 2;
                 CartService.unit_price := 149.99;
                 CartService.added_at := "2026-01-11T09:00:00Z" |}
              eq_refl eq_refl)
    as (body & cart' & removed & Hrun & _ & _ & Hlen & _).
  exists body, cart', removed. split; [exact Hrun|].
  simpl in Hlen. destruct (CartService.items cart'); [reflexivity | discriminate].
Defined.




(** ** cart-service: the price sync *)

Section PriceSyncFacts.
Import CartService.

Lemma reprice_idem pid p item : reprice pid p (reprice pid p item) = reprice pid p item.
Proof.
  unfold reprice. destruct (eq_str pid (product_id item)) eqn:E; simpl; by rewrite ?E.
Qed.

Lemma reprice_cart_idem pid p cart :
  reprice_cart pid p (reprice_cart pid p cart) = reprice_cart pid p cart.
Proof.
  unfold reprice_cart. simpl. f_equal.
  rewrite <- list_fmap_compose. apply list_fmap_ext. intros i x _. apply reprice_idem.
Qed.

Lemma reprice_but_price pid p item :
  item_but_price (reprice pid p item) = item_but_price item.
Proof. unfold reprice. by destruct (eq_str pid (product_id item)). Qed.

End PriceSyncFacts.

(** X8. The price sync is idempotent: a second delivery of a product
    event gives the answer and the store of the first, for every event. *)
Theorem handle_product_event_idempotent (rt : Runtime) (event : dict)
    (carts_db : gmap string CartService.Cart) :
  CartService.handle_product_event rt event
    (CartService.handle_product_event rt event carts_db).2
  = CartService.handle_product_event rt event carts_db.
Proof.
  unfold CartService.handle_product_event.
  destruct (eq_str _ "product.updated"); [|done].
  destruct (as_dict _) as [event_data|]; [|done].
  destruct (as_dict _) as [product|]; [|done].
  destruct (truthy _ && truthy _); [|done].
  destruct (to_float rt _) as [p|].
  - simpl. f_equal. rewrite <- map_fmap_compose. apply map_fmap_ext.
    intros k c _. apply reprice_cart_idem.
  - destruct (existsb (CartService.mentions (default VNone (product !! "id")))
                (map_to_list carts_db).*2) eqn:E; simpl; by rewrite E.
Qed.

(** X9. The price sync changes unit prices only: for every event, every
    cart is still there with its user, its timestamps and its items in
    their order, and every item has its id, product, name, quantity and
    date; no cart is added. *)
Theorem handle_product_event_only_prices (rt : Runtime) (event : dict)
    (carts_db : gmap string CartService.Cart) (uid : string) :
  (fun cart => (CartService.user_id cart, CartService.created_at cart,
                CartService.updated_at cart,
                item_but_price <$> CartService.items cart))
    <$> (CartService.handle_product_event rt event carts_db).2 !! uid
  = (fun cart => (CartService.user_id cart, CartService.created_at cart,
                  CartService.updated_at cart,
                  item_but_price <$> CartService.items cart))
      <$> carts_db !! uid.
Proof.
  unfold CartService.handle_product_event.
  destruct (eq_str _ "product.updated"); [|done].
  destruct (as_dict _) as [event_data|]; [|done].
  destruct (as_dict _) as [product|]; [|done].
  destruct (truthy _ && truthy _); [|done].
  destruct (to_float rt _) as [p|]; [|by destruct (existsb _ _)].
  simpl. rewrite lookup_fmap. destruct (carts_db !! uid) as [cart|]; [|done].
  simpl. do 2 f_equal. rewrite <- list_fmap_compose.
  apply list_fmap_ext. intros i x _. apply reprice_but_price.
Qed.

(** ** payment-service *)

Lemma triple_eta {A B C} (p : A * B * C) : p = (p.1.1, p.1.2, p.2).
Proof. by destruct p as [[??]?]. Qed.

Section PaymentFacts.
Import PaymentService PaymentProcessing.

Lemma outcome_event_type rt payment order_id user_id err :
  pub_type (outcome_event rt payment order_id user_id err)
  = Some (VStr (if eq_str (default VNone (payment !! "status")) "completed"
                then "payment.completed" else "payment.failed")) /\
  pub_topic (outcome_event rt payment order_id user_id err) = "payment-events".
Proof. unfold outcome_event. by destruct (eq_str _ _). Qed.

End PaymentFacts.

(** X10. [payment.requested] with an order id, a user id and an amount
    that are all truthy, the amount converting to a float: one payment is
    stored under a fresh payment id, with that order id, user id and
    amount; one event is published on payment-events, [payment.failed]
    when the payment was declined and [payment.completed] otherwise,
    carrying the payment id and the amount. With the failure simulation
    off the payment is never declined, whatever is drawn. *)
Theorem payment_requested_one_payment (cfg : PaymentProcessing.Config)
    (ch : PaymentProcessing.Chance) (rt : Runtime) (event event_data : dict)
    (order_id user_id amount : value) (x : float) (payments_db : gmap string dict) :
  event !! "type" = Some (VStr "payment.requested") ->
  event !! "data" = Some (VDict event_data) ->
  event_data !! "order_id" = Some order_id -> truthy order_id = true ->
  event_data !! "user_id" = Some user_id -> truthy user_id = true ->
  event_data !! "amount" = Some amount -> truthy amount = true ->
  to_float rt amount = Some x ->
  let declined := PaymentProcessing.declined cfg ch in
  exists body payment out data,
    PaymentProcessing.handle_payment_event cfg ch rt event payments_db
    = (Response 200 body,
       <[PaymentProcessing.new_payment_id rt := payment]> payments_db, [out]) /\
    payment !! "order_id" = Some order_id /\
    payment !! "user_id" = Some user_id /\
    payment !! "amount" = Some (VFloat x) /\
    payment !! "status" = Some (VStr (if declined then "failed" else "completed")) /\
    pub_topic out = "payment-events" /\
    pub_type out
    = Some (VStr (if declined then "payment.failed" else "payment.completed")) /\
    pub_data out = Some (VDict data) /\
    data !! "payment_id" = Some (VStr (PaymentProcessing.new_payment_id rt)) /\
    data !! "order_id" = Some order_id /\
    data !! "amount" = Some (VFloat x) /\
    (PaymentProcessing.SIMULATE_FAILURES cfg = false -> declined = false).
Proof.
  intros Ht Hd Ho Hot Hu Hut Ha Hat Hx declined.
  unfold PaymentProcessing.handle_payment_event.
  rewrite Ht, Hd. simpl. rewrite Ho, Hu, Ha. simpl. rewrite Hot, Hut, Hat. simpl.
  rewrite Hx. simpl.
  unfold PaymentProcessing.outcome_event, PaymentProcessing.make_payment.
  subst declined. destruct (PaymentProcessing.declined cfg ch) eqn:E.
  - eexists _, _, _, _. split; [reflexivity|]. repeat split.
    unfold PaymentProcessing.declined in E. intros Hs. by rewrite Hs in E.
  - eexists _, _, _, _. split; [reflexivity|]. repeat split.
Qed.

(** A request for 167.98, once with the simulation off and once
    declined. *)
Lemma payment_requested_one_payment_witness :
  (exists body payment out,
     PaymentProcessing.handle_payment_event Requests.no_failures Requests.unlucky
       Examples.rt_up (Requests.payment_requested "order-sample001" (VFloat 167.98))
       PaymentService.payments_db
     = (Response 200 body, <["pay-3f2a9c1e" := payment]> PaymentService.payments_db,
        [out]) /\
     pub_type out = Some (VStr "payment.completed")) /\
  (exists body payment out,
     PaymentProcessing.handle_payment_event Requests.with_failures Requests.unlucky
       Examples.rt_up (Requests.payment_requested "order-sample001" (VFloat 167.98))
       PaymentService.payments_db
     = (Response 200 body, <["pay-3f2a9c1e" := payment]> PaymentService.payments_db,
        [out]) /\
     pub_type out = Some (VStr "payment.failed")).
Proof.
  split.
  - destruct (payment_requested_one_payment Requests.no_failures Requests.unlucky
                Examples.rt_up
                (Requests.payment_requested "order-sample001" (VFloat 167.98))
                (mk_dict [("order_id", VStr "order-sample001");
                          ("user_id", VStr "user-001");
                          ("amount", VFloat 167.98);
                          ("action", VStr "payment_requested")])
                (VStr "order-sample001") (VStr "user-001") (VFloat 167.98) 167.98
                PaymentService.payments_db)
      as (body & payment & out & data & Hrun & _ & _ & _ & _ & _ & Hty & _);
      try reflexivity.
    exists body, payment, out. split; [exact Hrun | exact Hty].
  - destruct (payment_requested_one_payment Requests.with_failures Requests.unlucky
                Examples.rt_up
                (Requests.payment_requested "order-sample001" (VFloat 167.98))
                (mk_dict [("order_id", VStr "order-sample001");
                          ("user_id", VStr "user-001");
                          ("amount", VFloat 167.98);
                          ("action", VStr "payment_requested")])
                (VStr "order-sample001") (VStr "user-001") (VFloat 167.98) 167.98
                PaymentService.payments_db)
      as (body & payment & out & data & Hrun & _ & _ & _ & _ & _ & Hty & _);
      try reflexivity.
    exists body, payment, out. split; [exact Hrun | exact Hty].
Defined.

(** X11. [payment.requested] whose amount is 0 (or 0.0, or absent) is
    refused as "Missing payment data" with a 400: nothing is stored and
    nothing is published, so no [payment.failed] tells the orchestrator,
    whose order stays as it is. *)
Theorem payment_requested_zero_amount_refused (cfg : PaymentProcessing.Config)
    (ch : PaymentProcessing.Chance) (rt : Runtime) (event event_data : dict)
    (payments_db : gmap string dict) :
  event !! "type" = Some (VStr "payment.requested") ->
  event !! "data" = Some (VDict event_data) ->
  truthy (default (VInt 0) (event_data !! "amount")) = false ->
  PaymentProcessing.handle_payment_event cfg ch rt event payments_db
  = (Response 400 (VDict (mk_dict [("status", VStr "error");
                                   ("message", VStr "Missing payment data")])),
     payments_db, []).
Proof.
  intros Ht Hd Ha. unfold PaymentProcessing.handle_payment_event.
  rewrite Ht, Hd. simpl. rewrite Ha, !andb_false_r. reflexivity.
Qed.

Lemma payment_requested_zero_amount_refused_witness :
  PaymentProcessing.handle_payment_event Requests.no_failures Requests.unlucky
    Examples.rt_up (Requests.payment_requested "order-sample001" (VFloat 0))
    PaymentService.payments_db
  = (Response 400 (VDict (mk_dict [("status", VStr "error");
                                   ("message", VStr "Missing payment data")])),
     PaymentService.payments_db, []).
Proof.
  apply (payment_requested_zero_amount_refused _ _ _ _
           (mk_dict [("order_id", VStr "order-sample001");
                     ("user_id", VStr "user-001");
                     ("amount", VFloat 0);
                     ("action", VStr "payment_requested")])); reflexivity.
Defined.

(** X12. The payment service is subscribed to the topic it publishes on.
    Whatever it publishes (the outcome of a payment, from the event
    handler or from [POST /payments/process], or a refund) comes back to
    its own event handler, which acknowledges it, stores nothing and
    publishes nothing: the service does not feed itself. *)
Theorem payment_service_ignores_its_own_events (cfg cfg' : PaymentProcessing.Config)
    (ch ch' : PaymentProcessing.Chance) (rt rt' : Runtime) (input : dict)
    (payment_id : string) (payments_db payments_db' db : gmap string dict)
    (r : response) (outbox : list Published) (out : Published) :
  PaymentProcessing.handle_payment_event cfg ch rt input payments_db
    = (r, payments_db', outbox) \/
  PaymentProcessing.process_payment_endpoint cfg ch rt input payments_db
    = (r, payments_db', outbox) \/
  PaymentService.refund_payment rt payment_id payments_db
    = (r, payments_db', outbox) ->
  out ∈ outbox ->
  Wiring.routes_of (pub_topic out) (PaymentProcessing.subscribe "pubsub")
    = [VStr "/events/payment"] /\
  exists event_type,
    PaymentProcessing.handle_payment_event cfg' ch' rt' (pub_event out) db
    = (Response 200 (VDict (mk_dict [("status", VStr "acknowledged");
                                     ("event_type", VStr event_type)])), db, []).
Proof.
  assert (Houtcome : forall payment order_id user_id err,
    Wiring.routes_of
      (pub_topic (PaymentProcessing.outcome_event rt payment order_id user_id err))
      (PaymentProcessing.subscribe "pubsub") = [VStr "/events/payment"] /\
    exists event_type,
      PaymentProcessing.handle_payment_event cfg' ch' rt'
        (pub_event (PaymentProcessing.outcome_event rt payment order_id user_id err)) db
      = (Response 200 (VDict (mk_dict [("status", VStr "acknowledged");
                                       ("event_type", VStr event_type)])), db, [])).
  { intros payment order_id user_id err. unfold PaymentProcessing.outcome_event.
    destruct (eq_str _ _); (split; [reflexivity|]); eexists; reflexivity. }
  intros [H | [H | H]] Hin.
  - unfold PaymentProcessing.handle_payment_event in H.
    repeat match type of H with
           | (if ?b then _ else _) = _ => destruct b
           | match ?o with Some _ => _ | None => _ end = _ => destruct o
           end;
      injection H as <- <- <-;
      try (apply elem_of_nil in Hin; contradiction).
    apply list_elem_of_singleton in Hin. subst out. apply Houtcome.
  - unfold PaymentProcessing.process_payment_endpoint in H.
    destruct (filter _ _); [|simplify_eq; by apply elem_of_nil in Hin].
    destruct (input !! "order_id"); [|simplify_eq; by apply elem_of_nil in Hin].
    destruct (input !! "user_id"); [|simplify_eq; by apply elem_of_nil in Hin].
    destruct (input !! "amount"); [|simplify_eq; by apply elem_of_nil in Hin].
    destruct (to_float rt _); [|simplify_eq; by apply elem_of_nil in Hin].
    simpl in H. injection H as <- <- <-.
    apply list_elem_of_singleton in Hin. subst out. apply Houtcome.
  - unfold PaymentService.refund_payment in H.
    destruct (payments_db !! payment_id); [|simplify_eq; by apply elem_of_nil in Hin].
    destruct (_ !! "status"); [|simplify_eq; by apply elem_of_nil in Hin].
    destruct (negb _); [simplify_eq; by apply elem_of_nil in Hin|].
    destruct (_ !! "order_id"); [|simplify_eq; by apply elem_of_nil in Hin].
    destruct (_ !! "amount"); [|simplify_eq; by apply elem_of_nil in Hin].
    injection H as <- <- <-.
    apply list_elem_of_singleton in Hin. subst out.
    split; [reflexivity|]. eexists; reflexivity.
Qed.

(** The refund of the sample payment, delivered back. *)
Lemma payment_service_ignores_its_own_events_witness :
  let outbox := (PaymentService.refund_payment Examples.rt_up "pay-sample001"
                   PaymentService.payments_db).2 in
  length outbox = 1%nat /\
  Forall (fun out => exists event_type,
    PaymentProcessing.handle_payment_event Requests.with_failures Requests.unlucky
      Examples.rt_down (pub_event out) PaymentService.payments_db
    = (Response 200 (VDict (mk_dict [("status", VStr "acknowledged");
                                     ("event_type", VStr event_type)])),
       PaymentService.payments_db, [])) outbox.
Proof.
  split; [vm_compute; reflexivity|].
  apply Forall_forall. intros out Hin.
  apply (payment_service_ignores_its_own_events
           Requests.no_failures Requests.with_failures
           Requests.unlucky Requests.unlucky Examples.rt_up Examples.rt_down
           ∅ "pay-sample001" PaymentService.payments_db _
           PaymentService.payments_db _ _ out
           (or_intror (or_intror (triple_eta _))) Hin).
Defined.

(** X13. A payment is refunded once. After the refund of a completed
    payment that has an order id and an amount, [GET /payments/<id>]
    shows it as refunded with the refund id; a second refund is answered
    400 "Can only refund completed payments", keeps the first refund id
    and publishes nothing. *)
Theorem refund_payment_only_once (rt rt' : Runtime) (payment_id : string)
    (payments_db : gmap string dict) (payment : dict) (order_id amount : value) :
  payments_db !! payment_id = Some payment ->
  payment !! "status" = Some (VStr "completed") ->
  payment !! "order_id" = Some order_id ->
  payment !! "amount" = Some amount ->
  exists refunded payments_db' out,
    PaymentService.refund_payment rt payment_id payments_db
    = (Response 200 (VDict refunded), payments_db', [out]) /\
    PaymentProcessing.get_payment payment_id payments_db'
    = Response 200 (VDict refunded) /\
    refunded !! "status" = Some (VStr "refunded") /\
    refunded !! "refund_id"
    = Some (VStr ("ref-" +:+ String.substring 0 8 (uuid4_hex rt 0))) /\
    PaymentService.refund_payment rt' payment_id payments_db'
    = (Response 400 (error_body "Can only refund completed payments"),
       payments_db', []).
Proof.
  intros Hp Hs Ho Ha.
  exists (PaymentService.refunded ("ref-" +:+ String.substring 0 8 (uuid4_hex rt 0))
            (utcnow rt 0) payment),
    (<[payment_id :=
         PaymentService.refunded ("ref-" +:+ String.substring 0 8 (uuid4_hex rt 0))
           (utcnow rt 0) payment]> payments_db).
  eexists. split; [|split; [|split; [|split]]].
  - unfold PaymentService.refund_payment. rewrite Hp, Hs. simpl.
    unfold PaymentService.refunded.
    rewrite !lookup_insert_ne, Ho, Ha by discriminate. reflexivity.
  - unfold PaymentProcessing.get_payment. by rewrite lookup_insert_eq.
  - unfold PaymentService.refunded. dict_lookup.
  - unfold PaymentService.refunded. dict_lookup.
  - unfold PaymentService.refund_payment. rewrite lookup_insert_eq.
    unfold PaymentService.refunded at 1. rewrite lookup_insert_ne by discriminate.
    rewrite lookup_insert_ne by discriminate. rewrite lookup_insert_eq. reflexivity.
Qed.

Lemma refund_payment_only_once_witness :
  exists refunded payments_db' out,
    PaymentService.refund_payment Examples.rt_up "pay-sample001"
      PaymentService.payments_db
    = (Response 200 (VDict refunded), payments_db', [out]) /\
    PaymentProcessing.get_payment "pay-sample001" payments_db'
    = Response 200 (VDict refunded) /\
    refunded !! "status" = Some (VStr "refunded") /\
    refunded !! "refund_id" = Some (VStr "ref-3f2a9c1e") /\
    PaymentService.refund_payment Examples.rt_down "pay-sample001" payments_db'
    = (Response 400 (error_body "Can only refund completed payments"),
       payments_db', []).
Proof.
  apply (refund_payment_only_once Examples.rt_up Examples.rt_down "pay-sample001"
           PaymentService.payments_db PaymentService.sample_payment
           (VStr "order-sample001") (VFloat 167.98)); reflexivity.
Defined.

(** The orchestrator's payment handler changes orders on
    [payment.completed] and [payment.failed] only. *)
Lemma payment_event_other rt event orders_db :
  eq_str (default (VStr "unknown") (event !! "type")) "payment.completed" = false ->
  eq_str (default (VStr "unknown") (event !! "type")) "payment.failed" = false ->
  exists r,
    OrderService.handle_payment_event rt event orders_db = (r, orders_db, []).
Proof.
  intros Hc Hf. unfold OrderService.handle_payment_event. rewrite Hc, Hf.
  destruct (as_dict _) as [event_data|]; [|eexists; reflexivity].
  destruct (negb _); [eexists; reflexivity|].
  destruct (default VNone _) as [|key| | | |]; try (eexists; reflexivity).
  destruct (orders_db !! key); eexists; reflexivity.
Qed.

(** X14. A refund does not reach the order. The [payment.refunded] event
    of a refund is routed to the orchestrator's payment handler, which
    changes no order and publishes nothing, whatever the orders are. *)
Theorem refund_leaves_orders (rt rt' : Runtime) (payment_id : string)
    (payments_db payments_db' : gmap string dict) (r : response)
    (out : Published) (orders_db : gmap string dict) :
  PaymentService.refund_payment rt payment_id payments_db
  = (r, payments_db', [out]) ->
  Wiring.routes_of (pub_topic out) (OrderQueries.subscribe "pubsub")
  = [VStr "/events/payment"] /\
  exists r',
    OrderService.handle_payment_event rt' (pub_event out) orders_db
    = (r', orders_db, []).
Proof.
  unfold PaymentService.refund_payment.
  destruct (payments_db !! payment_id); [|discriminate].
  destruct (_ !! "status"); [|discriminate].
  destruct (negb _); [discriminate|].
  destruct (_ !! "order_id") as [order_id|]; [|discriminate].
  destruct (_ !! "amount") as [amount|]; [|discriminate].
  intros [= <- <- <-]. split; [reflexivity|].
  by apply payment_event_other.
Qed.

Lemma refund_leaves_orders_witness :
  exists out r',
    (PaymentService.refund_payment Examples.rt_up "pay-sample001"
       PaymentService.payments_db).2 = [out] /\
    OrderService.handle_payment_event Examples.rt_down (pub_event out)
      OrderService.orders_db
    = (r', OrderService.orders_db, []).
Proof.
  destruct (refund_leaves_orders Examples.rt_up Examples.rt_down "pay-sample001"
              PaymentService.payments_db _ _ _ OrderService.orders_db eq_refl)
    as [_ [r' H]].
  eexists _, r'. split; [reflexivity | exact H].
Defined.

(** ** The saga from checkout to the paid order *)

Section PaymentOutcome.
Import OrderService.
Variable rt : Runtime.
Variable orders_db : gmap string dict.

Lemma payment_completed_known event event_data key order :
  event !! "type" = Some (VStr "payment.completed") ->
  event !! "data" = Some (VDict event_data) ->
  event_data !! "order_id" = Some (VStr key) -> key <> "" ->
  orders_db !! key = Some order ->
  handle_payment_event rt event orders_db
  = (processed (VStr "payment.completed"),
     <[key := paid_order (default VNone (event_data !! "payment_id"))
                (utcnow rt 0) order]> orders_db,
     [publish_event rt 1 "order-events" "order.paid"
        (mk_dict [("order_id", VStr key);
                  ("payment_id", default VNone (event_data !! "payment_id"));
                  ("status", VStr "paid");
                  ("action", VStr "order_paid")])]).
Proof.
  intros Ht Hd Ho Hk Hs. unfold handle_payment_event.
  rewrite Ht, Hd. simpl. rewrite Ho. simpl.
  destruct key; [done|]. simpl. rewrite Hs. reflexivity.
Qed.

Lemma payment_failed_known event event_data key order :
  event !! "type" = Some (VStr "payment.failed") ->
  event !! "data" = Some (VDict event_data) ->
  event_data !! "order_id" = Some (VStr key) -> key <> "" ->
  orders_db !! key = Some order ->
  handle_payment_event rt event orders_db
  = (processed (VStr "payment.failed"),
     <[key := failed_order (default (VStr "Unknown error") (event_data !! "error"))
                (utcnow rt 0) order]> orders_db, []).
Proof.
  intros Ht Hd Ho Hk Hs. unfold handle_payment_event.
  rewrite Ht, Hd. simpl. rewrite Ho. simpl.
  destruct key; [done|]. simpl. rewrite Hs. reflexivity.
Qed.

End PaymentOutcome.



(** ** order-service: late and repeated payment events *)

(** X16. A [payment.failed] that arrives after the [payment.completed]
    of the same order undoes the payment in the order: the status goes
    from paid to payment_failed, while the payment id of the completed
    payment stays in the order. The failure publishes nothing, so the one
    event of the two deliveries is the [order.paid] of the first. *)
Theorem payment_failed_after_completed (rt1 rt2 : Runtime)
    (completed failed completed_data failed_data : dict) (key : string)
    (orders_db : gmap string dict) (order : dict) :
  completed !! "type" = Some (VStr "payment.completed") ->
  completed !! "data" = Some (VDict completed_data) ->
  completed_data !! "order_id" = Some (VStr key) ->
  failed !! "type" = Some (VStr "payment.failed") ->
  failed !! "data" = Some (VDict failed_data) ->
  failed_data !! "order_id" = Some (VStr key) ->
  key <> "" ->
  orders_db !! key = Some order ->
  exists r1 orders_db1 paid r2 orders_db2 order',
    OrderService.handle_payment_event rt1 completed orders_db
    = (r1, orders_db1, [paid]) /\
    OrderService.handle_payment_event rt2 failed orders_db1
    = (r2, orders_db2, []) /\
    orders_db2 !! key = Some order' /\
    order' !! "status" = Some (VStr "payment_failed") /\
    order' !! "payment_status" = Some (VStr "failed") /\
    order' !! "payment_error"
    = Some (default (VStr "Unknown error") (failed_data !! "error")) /\
    order' !! "payment_id" = Some (default VNone (completed_data !! "payment_id")) /\
    pub_type paid = Some (VStr "order.paid").
Proof.
  intros Ht Hd Ho Ht' Hd' Ho' Hk Hs.
  eexists _, _, _, _, _, _.
  split; [by apply (payment_completed_known rt1 orders_db completed completed_data
                      key order)|].
  split; [apply (payment_failed_known rt2 _ failed failed_data key); try done;
          apply lookup_insert_eq|].
  split; [apply lookup_insert_eq|].
  unfold OrderService.failed_order, OrderService.paid_order.
  repeat split; dict_lookup.
Qed.

Lemma payment_failed_after_completed_witness :
  exists r1 orders_db1 paid r2 orders_db2 order',
    OrderService.handle_payment_event Examples.rt_up
      (Examples.payment_completed "order-sample001" "pay-4d2f8b6a")
      OrderService.orders_db
    = (r1, orders_db1, [paid]) /\
    OrderService.handle_payment_event Examples.rt_down
      (Requests.payment_failed "order-sample001") orders_db1
    = (r2, orders_db2, []) /\
    orders_db2 !! "order-sample001" = Some order' /\
    order' !! "status" = Some (VStr "payment_failed") /\
    order' !! "payment_status" = Some (VStr "failed") /\
    order' !! "payment_error" = Some (VStr "The card was declined") /\
    order' !! "payment_id" = Some (VStr "pay-4d2f8b6a") /\
    pub_type paid = Some (VStr "order.paid").
Proof.
  apply (payment_failed_after_completed Examples.rt_up Examples.rt_down
           (Examples.payment_completed "order-sample001" "pay-4d2f8b6a")
           (Requests.payment_failed "order-sample001")
           (mk_dict [("payment_id", VStr "pay-4d2f8b6a");
                     ("order_id", VStr "order-sample001");
                     ("user_id", VStr "user-001");
                     ("amount", VFloat 167.98);
                     ("transaction_id", VStr "txn-5c1e9a7d3b20");
                     ("action", VStr "payment_completed")])
           (mk_dict [("payment_id", VStr "pay-7c1d0e93");
                     ("order_id", VStr "order-sample001");
                     ("user_id", VStr "user-001");
                     ("amount", VFloat 167.98);
                     ("error", VStr "The card was declined");
                     ("action", VStr "payment_failed")])
           "order-sample001" OrderService.orders_db OrderService.sample_order);
    try reflexivity; discriminate.
Defined.

(** X17. [payment.completed] delivered twice. The second delivery
    publishes [order.paid] again, with the same data, and leaves the
    store as one delivery at the time of the second would have left it:
    the deliveries differ in [updated_at] only. *)
Theorem payment_completed_redelivered (rt1 rt2 : Runtime) (event event_data : dict)
    (key : string) (orders_db : gmap string dict) (order : dict) :
  event !! "type" = Some (VStr "payment.completed") ->
  event !! "data" = Some (VDict event_data) ->
  event_data !! "order_id" = Some (VStr key) ->
  key <> "" ->
  orders_db !! key = Some order ->
  exists r orders_db1 paid1 orders_db2 paid2,
    OrderService.handle_payment_event rt1 event orders_db
    = (r, orders_db1, [paid1]) /\
    OrderService.handle_payment_event rt2 event orders_db1
    = (r, orders_db2, [paid2]) /\
    (OrderService.handle_payment_event rt2 event orders_db).1.2 = orders_db2 /\
    pub_type paid2 = Some (VStr "order.paid") /\
    pub_data paid2 = pub_data paid1.
Proof.
  intros Ht Hd Ho Hk Hs.
  eexists _, _, _, _, _.
  split; [by apply (payment_completed_known rt1 orders_db event event_data key order)|].
  split; [apply (payment_completed_known rt2 _ event event_data key); try done;
          apply lookup_insert_eq|].
  split; [|split; reflexivity].
  rewrite (payment_completed_known rt2 orders_db event event_data key order) by done.
  simpl. rewrite insert_insert_eq. f_equal.
  unfold OrderService.paid_order.
  apply map_eq. intros k.
  rewrite !lookup_insert. repeat case_decide; done.
Qed.

Lemma payment_completed_redelivered_witness :
  exists r orders_db1 paid1 orders_db2 paid2,
    OrderService.handle_payment_event Examples.rt_up
      (Examples.payment_completed "order-sample001" "pay-4d2f8b6a")
      OrderService.orders_db
    = (r, orders_db1, [paid1]) /\
    OrderService.handle_payment_event Examples.rt_down
      (Examples.payment_completed "order-sample001" "pay-4d2f8b6a") orders_db1
    = (r, orders_db2, [paid2]) /\
    (OrderService.handle_payment_event Examples.rt_down
       (Examples.payment_completed "order-sample001" "pay-4d2f8b6a")
       OrderService.orders_db).1.2 = orders_db2 /\
    pub_type paid2 = Some (VStr "order.paid") /\
    pub_data paid2 = pub_data paid1.
Proof.
  apply (payment_completed_redelivered Examples.rt_up Examples.rt_down
           (Examples.payment_completed "order-sample001" "pay-4d2f8b6a")
           (mk_dict [("payment_id", VStr "pay-4d2f8b6a");
                     ("order_id", VStr "order-sample001");
                     ("user_id", VStr "user-001");
                     ("amount", VFloat 167.98);
                     ("transaction_id", VStr "txn-5c1e9a7d3b20");
                     ("action", VStr "payment_completed")])
           "order-sample001" OrderService.orders_db OrderService.sample_order);
    try reflexivity; discriminate.
Defined.

(** ** order-service: what comes back to the orchestrator *)

Section OwnEvents.
Import OrderService.

Lemma order_event_other rt event orders_db :
  eq_str (default (VStr "unknown") (event !! "type")) "order.created" = false ->
  handle_order_event rt event orders_db
  = (processed (default (VStr "unknown") (event !! "type")), orders_db, []).
Proof. intros H. unfold handle_order_event. by rewrite H. Qed.

(** The event types that the order service publishes. *)
Lemma order_service_event_types rt input order_id orders_db r orders_db' outbox out :
  handle_order_event rt input orders_db = (r, orders_db', outbox) \/
  handle_payment_event rt input orders_db = (r, orders_db', outbox) \/
  create_order rt input orders_db = (r, orders_db', outbox) \/
  update_order_status rt order_id input orders_db = (r, orders_db', outbox) ->
  out ∈ outbox ->
  exists event_type,
    pub_event out !! "type" = Some (VStr event_type) /\
    event_type ∈ ["payment.requested"; "order.placed"; "order.confirmed";
                  "order.paid"; "order.status_changed"].
Proof.
  intros [H | [H | [H | H]]] Hin.
  - unfold handle_order_event in H.
    repeat (case_match; try discriminate); simplify_eq;
      try (by apply elem_of_nil in Hin).
    unfold fan_out in Hin.
    repeat (apply elem_of_cons in Hin; destruct Hin as [-> | Hin]);
      [| | | by apply elem_of_nil in Hin];
      eexists; (split; [reflexivity | set_solver]).
  - unfold handle_payment_event in H.
    repeat (case_match; try discriminate); simplify_eq;
      try (by apply elem_of_nil in Hin).
    apply list_elem_of_singleton in Hin. subst out.
    eexists; (split; [reflexivity | set_solver]).
  - unfold create_order in H.
    repeat (case_match; try discriminate); simplify_eq;
      try (by apply elem_of_nil in Hin).
    apply list_elem_of_singleton in Hin. subst out.
    eexists; (split; [reflexivity | set_solver]).
  - unfold update_order_status in H.
    repeat (case_match; try discriminate); simplify_eq;
      try (by apply elem_of_nil in Hin).
    apply list_elem_of_singleton in Hin. subst out.
    eexists; (split; [reflexivity | set_solver]).
Qed.

End OwnEvents.

(** X18. The orchestrator is subscribed to two of the topics it
    publishes on. Whatever it publishes, from the two event handlers,
    from [POST /orders] or from the status update, neither of its event
    handlers changes an order or publishes anything when the event comes
    back: the orchestrator does not feed itself. *)
Theorem order_service_ignores_its_own_events (rt rt' : Runtime) (input : dict)
    (order_id : string) (orders_db orders_db' db : gmap string dict)
    (r : response) (outbox : list Published) (out : Published) :
  OrderService.handle_order_event rt input orders_db = (r, orders_db', outbox) \/
  OrderService.handle_payment_event rt input orders_db = (r, orders_db', outbox) \/
  OrderService.create_order rt input orders_db = (r, orders_db', outbox) \/
  OrderService.update_order_status rt order_id input orders_db
    = (r, orders_db', outbox) ->
  out ∈ outbox ->
  (exists r1, OrderService.handle_order_event rt' (pub_event out) db = (r1, db, [])) /\
  (exists r2, OrderService.handle_payment_event rt' (pub_event out) db = (r2, db, [])).
Proof.
  intros H Hin.
  destruct (order_service_event_types _ _ _ _ _ _ _ _ H Hin) as (ty & Hty & Hmem).
  assert (Hne : eq_str (VStr ty) "order.created" = false /\
                eq_str (VStr ty) "payment.completed" = false /\
                eq_str (VStr ty) "payment.failed" = false).
  { repeat (apply elem_of_cons in Hmem; destruct Hmem as [-> | Hmem]);
      [by repeat split.. | by apply elem_of_nil in Hmem]. }
  destruct Hne as (Ho & Hc & Hf). split.
  - eexists. apply order_event_other. by rewrite Hty.
  - apply payment_event_other; by rewrite Hty.
Qed.

(** The three events of the confirmation of the replayed order. *)
Lemma order_service_ignores_its_own_events_witness :
  Forall (fun out =>
    (exists r1, OrderService.handle_order_event Examples.rt_down (pub_event out)
                  OrderService.orders_db = (r1, OrderService.orders_db, [])) /\
    (exists r2, OrderService.handle_payment_event Examples.rt_down (pub_event out)
                  OrderService.orders_db = (r2, OrderService.orders_db, [])))
    (OrderService.handle_order_event Examples.rt_up Examples.replayed_order_created
       OrderService.orders_db).2 /\
  length (OrderService.handle_order_event Examples.rt_up
            Examples.replayed_order_created OrderService.orders_db).2 = 3%nat.
Proof.
  split; [|vm_compute; reflexivity].
  apply Forall_forall. intros out Hin.
  apply (order_service_ignores_its_own_events Examples.rt_up Examples.rt_down
           Examples.replayed_order_created "" OrderService.orders_db _
           OrderService.orders_db _ _ out (or_introl (triple_eta _)) Hin).
Defined.

(** X19. No stock is reserved through the broker. The orchestrator
    publishes [order.placed] on the topic product-events, and the product
    service subscribes to order-events alone: of what the orchestrator's
    order handler publishes, [order.placed] has no route to the product
    service, and what has a route there leaves every product as it
    is. *)
Theorem order_placed_not_routed_to_products (rt : Runtime) (event : dict)
    (orders_db orders_db' : gmap string dict) (r : response)
    (outbox : list Published) (out : Published) (pubsub : string)
    (products_db : gmap string ProductService.Product) :
  OrderService.handle_order_event rt event orders_db = (r, orders_db', outbox) ->
  out ∈ outbox ->
  (pub_type out = Some (VStr "order.placed") ->
   Wiring.routes_of (pub_topic out) (Catalog.subscribe pubsub) = []) /\
  (Wiring.routes_of (pub_topic out) (Catalog.subscribe pubsub) <> [] ->
   (ProductService.handle_order_event (pub_event out) products_db).2 = products_db).
Proof.
  intros H Hin. unfold OrderService.handle_order_event in H.
  repeat (case_match; try discriminate); simplify_eq;
    try (by apply elem_of_nil in Hin).
  unfold OrderService.fan_out in Hin.
  repeat (apply elem_of_cons in Hin; destruct Hin as [-> | Hin]);
    [| | | by apply elem_of_nil in Hin]; split; try done.
Qed.

Lemma order_placed_not_routed_to_products_witness :
  exists requested placed confirmed,
    (OrderService.handle_order_event Examples.rt_up Examples.replayed_order_created
       OrderService.orders_db).2 = [requested; placed; confirmed] /\
    pub_type placed = Some (VStr "order.placed") /\
    Wiring.routes_of (pub_topic placed) (Catalog.subscribe "pubsub") = [].
Proof.
  eexists _, _, _. split; [reflexivity|]. split; [reflexivity|].
  eapply (order_placed_not_routed_to_products Examples.rt_up
            Examples.replayed_order_created OrderService.orders_db _ _ _ _
            "pubsub" ProductService.products_db (triple_eta _)).
  - apply list_elem_of_further, list_elem_of_here.
  - reflexivity.
Defined.

(** ** order-service: the direct path *)

(** X20. [POST /orders] checks that [items] is there, not that it holds
    anything: an order with no items is stored as pending with the int
    subtotal 0 and the total 5.99, the shipping fee, a payment of 5.99 is
    requested for it, and [GET /orders/<id>] returns it. *)
Theorem create_order_without_items (rt : Runtime) (data : dict) (user_id : value)
    (orders_db : gmap string dict) :
  data !! "user_id" = Some user_id ->
  data !! "items" = Some (VList []) ->
  exists order orders_db' requested amount,
    OrderService.create_order rt data orders_db
    = (Response 201 (VDict order), orders_db', [requested]) /\
    OrderQueries.get_order ("order-" +:+ String.substring 0 8 (uuid4_hex rt 0))
      orders_db'
    = Response 200 (VDict order) /\
    order !! "status" = Some (VStr "pending") /\
    order !! "subtotal" = Some (VInt 0) /\
    order !! "total" = Some (VFloat 5.99) /\
    pub_topic requested = "payment-events" /\
    pub_type requested = Some (VStr "payment.requested") /\
    pub_data requested = Some (VDict amount) /\
    amount !! "amount" = Some (VFloat 5.99).
Proof.
  intros Hu Hi. unfold OrderService.create_order.
  rewrite Hu, Hi.
  assert (Hm : filter (fun f => data !! f = None) ["user_id"; "items"] = []).
  { rewrite filter_cons_False by (rewrite Hu; discriminate).
    rewrite filter_cons_False by (rewrite Hi; discriminate).
    reflexivity. }
  rewrite Hm. cbn [iterate mbind option_bind OrderService.sum_lines].
  eexists _, _, _, _. split; [reflexivity|].
  unfold OrderQueries.get_order. rewrite lookup_insert_eq.
  split; [reflexivity|]. split; [reflexivity|]. split; [reflexivity|].
  split; [vm_compute; reflexivity|].
  do 3 (split; [reflexivity|]). vm_compute. reflexivity.
Qed.

Lemma create_order_without_items_witness :
  exists order orders_db' requested,
    OrderService.create_order Examples.rt_up Requests.order_without_items
      OrderService.orders_db
    = (Response 201 (VDict order), orders_db', [requested]) /\
    order !! "total" = Some (VFloat 5.99) /\
    pub_type requested = Some (VStr "payment.requested").
Proof.
  destruct (create_order_without_items Examples.rt_up Requests.order_without_items
              (VStr "user-001") OrderService.orders_db eq_refl eq_refl)
    as (order & orders_db' & requested & amount & H & _ & _ & _ & Ht & _ & Hty & _).
  exists order, orders_db', requested. by repeat split.
Defined.

(** ** product-service: the catalogue *)

Section CatalogFacts.
Import ProductService Catalog.

Lemma keyed_by_id_insert products_db k p :
  keyed_by_id products_db -> id p = k -> keyed_by_id (<[k := p]> products_db).
Proof.
  intros Hdb Hp k' p'. destruct (decide (k = k')) as [<-|Hne].
  - rewrite lookup_insert_eq. by intros [= <-].
  - rewrite lookup_insert_ne by done. apply Hdb.
Qed.

Lemma keyed_by_id_initial : keyed_by_id products_db.
Proof.
  intros k p. unfold products_db.
  repeat (rewrite lookup_insert; case_decide; [intros [= <-]; by subst|]).
  rewrite lookup_empty. discriminate.
Qed.

Lemma assign_id rt field v p old_value new_value p' :
  assign rt field v p = Some (old_value, new_value, p') -> id p' = id p.
Proof.
  unfold assign.
  repeat (case_match; try discriminate); by intros [= <- <- <-].
Qed.

Lemma update_fields_id rt fields data p changes :
  id (update_fields rt fields data p changes).1.2 = id p.
Proof.
  revert p changes. induction fields as [|field rest IH]; intros p changes;
    [reflexivity|].
  simpl. destruct (data !! field) as [v|]; [|apply IH].
  destruct (assign rt field v p) as [[[old_value new_value] p']|] eqn:E;
    [|reflexivity].
  destruct (py_eq old_value new_value); [apply IH|].
  rewrite IH. by eapply assign_id.
Qed.

Lemma reduce_stock_keyed items products_db :
  keyed_by_id products_db -> keyed_by_id (reduce_stock items products_db).2.
Proof.
  revert products_db. induction items as [|item rest IH]; intros products_db Hdb;
    [done|].
  simpl. destruct (as_dict item) as [d|]; [|done].
  destruct (default VNone (d !! "product_id")) as [|key| | | |]; try done;
    try by apply IH.
  destruct (products_db !! key) as [product|] eqn:Hp; [|by apply IH].
  destruct (default (VInt 0) (d !! "quantity")); try done.
  apply IH, keyed_by_id_insert; [done|]. simpl. by apply Hdb.
Qed.

(** The changes that the loop of [update_product] collects only grow,
    and a product is written to only together with a change. *)
Lemma update_fields_changes rt fields data p changes :
  (dict_empty changes = false ->
   dict_empty (update_fields rt fields data p changes).2 = false) /\
  (dict_empty (update_fields rt fields data p changes).2 = true ->
   (update_fields rt fields data p changes).1.2 = p).
Proof.
  revert p changes. induction fields as [|field rest IH]; intros p changes;
    [done|].
  simpl. destruct (data !! field) as [v|]; [|apply IH].
  destruct (assign rt field v p) as [[[old_value new_value] p']|] eqn:E; [|done].
  destruct (py_eq old_value new_value); [apply IH|].
  assert (Hne : dict_empty (<[field := VDict (mk_dict [("old", old_value);
                                                       ("new", new_value)])]> changes)
                = false).
  { eapply dict_empty_false. apply lookup_insert_eq. }
  destruct (IH p' (<[field := VDict (mk_dict [("old", old_value);
                                              ("new", new_value)])]> changes))
    as [IH1 _].
  split; [intros _; by apply IH1|].
  intros H. specialize (IH1 Hne). simpl in IH1. congruence.
Qed.

End CatalogFacts.

(** X21. Every handler of the product service that writes to the store
    keeps each product under its own id: creating, updating and deleting
    a product, the stock update and the stock loop of [order.placed],
    also when the handler raises part of the way. *)
Theorem products_stay_keyed_by_id (rt : Runtime) (product_id : string)
    (data event : dict) (products_db : gmap string ProductService.Product) :
  keyed_by_id products_db ->
  keyed_by_id (Catalog.create_product rt data products_db).1.2 /\
  keyed_by_id (Catalog.update_product rt product_id data products_db).1.2 /\
  keyed_by_id (Catalog.delete_product rt product_id products_db).1.2 /\
  keyed_by_id (ProductService.update_stock rt product_id data products_db).1.2 /\
  keyed_by_id (ProductService.handle_order_event event products_db).2.
Proof.
  intros Hdb. repeat split.
  - unfold Catalog.create_product.
    repeat (case_match; try done). simpl. by apply keyed_by_id_insert.
  - unfold Catalog.update_product.
    destruct (products_db !! product_id) as [p|] eqn:Hp; [|done].
    pose proof (update_fields_id rt Catalog.updatable_fields data p ∅) as Hid.
    destruct (Catalog.update_fields _ _ _ _ _) as [[[] p'] changes]; simpl in *.
    + destruct (dict_empty changes); simpl; apply keyed_by_id_insert; try done;
        simpl; rewrite Hid; by apply Hdb.
    + apply keyed_by_id_insert; [done|]. rewrite Hid. by apply Hdb.
  - unfold Catalog.delete_product.
    destruct (products_db !! product_id) as [deleted|]; [|done]. simpl.
    intros k p Hk. apply lookup_delete_Some in Hk as [_ Hk]. by apply Hdb.
  - unfold ProductService.update_stock.
    destruct (products_db !! product_id) as [p|] eqn:Hp; [|done].
    repeat (case_match; try done). simpl.
    apply keyed_by_id_insert; [done|]. simpl. by apply Hdb.
  - unfold ProductService.handle_order_event.
    destruct (eq_str _ _); [|done].
    destruct (as_dict _) as [event_data|]; [|done].
    destruct (iterate _) as [items|]; [|done].
    pose proof (reduce_stock_keyed items _ Hdb) as Hk.
    by destruct (ProductService.reduce_stock items products_db) as [ok db'].
Qed.

Lemma products_stay_keyed_by_id_witness :
  keyed_by_id
    (Catalog.create_product Examples.rt_up Requests.new_lamp
       ProductService.products_db).1.2 /\
  keyed_by_id
    (ProductService.handle_order_event Examples.order_placed_51
       ProductService.products_db).2.
Proof.
  destruct (products_stay_keyed_by_id Examples.rt_up "prod-002" Requests.new_lamp
              Examples.order_placed_51 ProductService.products_db
              keyed_by_id_initial) as (H1 & _ & _ & _ & H5).
  split; [exact H1 | exact H5].
Defined.

(** X22. [POST /products] answers 201 or 400 or raises. With a 201 the
    product is stored under a fresh id and [GET /products/<id>] returns
    the body of the answer, which the [product.created] event carries as
    well; the stock is the request's converted to an int, negative or
    not. With a 400 a required field is missing, the store is as it was
    and nothing is published. *)
Theorem create_product_then_get (rt : Runtime) (data : dict)
    (products_db products_db' : gmap string ProductService.Product)
    (code : Z) (body : value) (outbox : list Published) :
  Catalog.create_product rt data products_db
  = (Response code body, products_db', outbox) ->
  (code = 201 /\
   (exists p stock,
      products_db' !! ("prod-" +:+ String.substring 0 6 (uuid4_hex rt 0)) = Some p /\
      data !! "stock" = Some stock /\
      to_int rt stock = Some (ProductService.stock p)) /\
   Catalog.get_product ("prod-" +:+ String.substring 0 6 (uuid4_hex rt 0)) products_db'
   = Response 200 body /\
   exists created event_data,
     outbox = [created] /\
     pub_topic created = "product-events" /\
     pub_type created = Some (VStr "product.created") /\
     pub_data created = Some (VDict event_data) /\
     event_data !! "product" = Some body) \/
  (code = 400 /\ products_db' = products_db /\ outbox = [] /\
   exists field, field ∈ Catalog.required_fields /\ data !! field = None).
Proof.
  unfold Catalog.create_product. intros H.
  destruct (filter _ _) as [|f l] eqn:Hf.
  - destruct (data !! "name") as [name|] eqn:Hn; [|right].
    2:{ simplify_eq. repeat split. exists "name". split; [set_solver | done]. }
    destruct (data !! "description") as [description|] eqn:Hde; [|right].
    2:{ simplify_eq. repeat split. exists "description". split; [set_solver | done]. }
    destruct (data !! "price") as [price|] eqn:Hpr; [|right].
    2:{ simplify_eq. repeat split. exists "price". split; [set_solver | done]. }
    destruct (data !! "category") as [category|] eqn:Hc; [|right].
    2:{ simplify_eq. repeat split. exists "category". split; [set_solver | done]. }
    destruct (data !! "stock") as [stock|] eqn:Hs; [|right].
    2:{ simplify_eq. repeat split. exists "stock". split; [set_solver | done]. }
    destruct (to_float rt price) as [x|]; [|discriminate].
    destruct (to_int rt stock) as [n|] eqn:Hn'; [|discriminate].
    injection H as <- <- <- <-. left.
    split; [reflexivity|]. split.
    { eexists _, stock. rewrite lookup_insert_eq. by repeat split. }
    split; [unfold Catalog.get_product; by rewrite lookup_insert_eq|].
    eexists _, _. by repeat split.
  - right.
    assert (Hin : f ∈ filter (fun f => data !! f = None) Catalog.required_fields).
    { rewrite Hf. apply list_elem_of_here. }
    apply list_elem_of_filter in Hin as [Hnone Hreq].
    assert (code = 400 /\ products_db' = products_db /\ outbox = []) as (-> & -> & ->).
    { repeat case_match; by simplify_eq. }
    repeat split. by exists f.
Qed.

(** A lamp with a stock of -3 is created. *)
Lemma create_product_then_get_witness :
  exists p,
    (Catalog.create_product Examples.rt_up Requests.new_lamp
       ProductService.products_db).1.2 !! "prod-3f2a9c" = Some p /\
    ProductService.stock p = -3.
Proof.
  destruct (create_product_then_get Examples.rt_up Requests.new_lamp
              ProductService.products_db _ _ _ _ eq_refl)
    as [(_ & (p & stock & Hp & Hs & Hn) & _) | (Hcode & _)]; [|discriminate Hcode].
  exists p. split; [exact Hp|].
  change (Some (VInt (-3)) = Some stock) in Hs. injection Hs as <-.
  simpl in Hn. by injection Hn as <-.
Defined.

(** X23. [DELETE /products/<id>] of a stored product: the product is
    gone from [GET /products/<id>], the other products stay, a second
    delete is answered 404 and publishes nothing. The [product.deleted]
    event carries the product as it was; the cart service, to which the
    topic is routed, acknowledges it and keeps every cart as it is, items
    of the deleted product included. *)
Theorem delete_product_then_gone (rt rt' rt_cart : Runtime) (product_id : string)
    (products_db : gmap string ProductService.Product) (p : ProductService.Product)
    (carts_db : gmap string CartService.Cart) :
  products_db !! product_id = Some p ->
  exists body products_db' deleted event_data,
    Catalog.delete_product rt product_id products_db
    = (Response 200 body, products_db', [deleted]) /\
    Catalog.get_product product_id products_db' = Catalog.not_found product_id /\
    (forall k, k <> product_id -> products_db' !! k = products_db !! k) /\
    Catalog.delete_product rt' product_id products_db'
    = (Catalog.not_found product_id, products_db', []) /\
    pub_type deleted = Some (VStr "product.deleted") /\
    pub_data deleted = Some (VDict event_data) /\
    event_data !! "product" = Some (VDict (Catalog.product_json p)) /\
    Wiring.routes_of (pub_topic deleted) (CartRoutes.subscribe "pubsub")
    = [VStr "/events/product"] /\
    CartService.handle_product_event rt_cart (pub_event deleted) carts_db
    = (Response 200 (VDict (mk_dict [("status", VStr "processed")])), carts_db).
Proof.
  intros Hp. eexists _, (delete product_id products_db), _, _.
  split; [unfold Catalog.delete_product; rewrite Hp; reflexivity|].
  split; [unfold Catalog.get_product; by rewrite lookup_delete_eq|].
  split; [intros k Hk; by rewrite lookup_delete_ne|].
  split; [unfold Catalog.delete_product; by rewrite lookup_delete_eq|].
  by repeat split.
Qed.

Lemma delete_product_then_gone_witness :
  exists body products_db' deleted,
    Catalog.delete_product Examples.rt_up "prod-002" ProductService.products_db
    = (Response 200 body, products_db', [deleted]) /\
    Catalog.get_product "prod-002" products_db' = Catalog.not_found "prod-002" /\
    CartService.handle_product_event Examples.rt_up (pub_event deleted)
      CartService.carts_db
    = (Response 200 (VDict (mk_dict [("status", VStr "processed")])),
       CartService.carts_db).
Proof.
  destruct (delete_product_then_gone Examples.rt_up Examples.rt_up Examples.rt_up
              "prod-002" ProductService.products_db ProductService.smart_watch
              CartService.carts_db eq_refl)
    as (body & db' & deleted & event_data & H1 & H2 & _ & _ & _ & _ & _ & _ & H3).
  exists body, db', deleted. by repeat split.
Defined.

(** X24. A product update that publishes reaches the carts. When
    [PUT /products/<id>] publishes [product.updated], the event is routed
    to the cart service, whose handler sets the unit price of every cart
    item of the product to the price now stored, unless that price is
    zero, in which case no cart changes. *)
Theorem product_update_reaches_carts (rt rt_cart : Runtime) (product_id : string)
    (data : dict) (products_db products_db' : gmap string ProductService.Product)
    (r : response) (out : Published) (carts_db : gmap string CartService.Cart) :
  keyed_by_id products_db -> product_id <> "" ->
  Catalog.update_product rt product_id data products_db = (r, products_db', [out]) ->
  exists p',
    products_db' !! product_id = Some p' /\
    pub_type out = Some (VStr "product.updated") /\
    Wiring.routes_of (pub_topic out) (CartRoutes.subscribe "pubsub")
    = [VStr "/events/product"] /\
    CartService.handle_product_event rt_cart (pub_event out) carts_db
    = (Response 200 (VDict (mk_dict [("status", VStr "processed")])),
       if Py.truthy_float (ProductService.price p')
       then CartService.reprice_cart (VStr product_id) (ProductService.price p')
              <$> carts_db
       else carts_db).
Proof.
  intros Hdb Hne. unfold Catalog.update_product.
  destruct (products_db !! product_id) as [p|] eqn:Hp; [|discriminate].
  pose proof (update_fields_id rt Catalog.updatable_fields data p ∅) as Hid.
  destruct (Catalog.update_fields _ _ _ _ _) as [[[] p1] changes]; [|discriminate].
  simpl in Hid. rewrite (Hdb _ _ Hp) in Hid.
  destruct (dict_empty changes); [discriminate|].
  intros [= <- <- <-]. subst product_id.
  exists (ProductService.set_updated_at (utcnow rt 0) p1).
  split; [apply lookup_insert_eq|]. split; [reflexivity|]. split; [reflexivity|].
  simpl ProductService.price.
  destruct (Py.truthy_float (ProductService.price p1)) eqn:Ht.
  - eapply product_updated_reprices; try reflexivity; done.
  - eapply product_updated_falsy_price_ignored; try reflexivity. exact Ht.
Qed.

(** The headphones at 129.5, in the cart of user-001. *)
Lemma product_update_reaches_carts_witness :
  exists out products_db',
    (Catalog.update_product Examples.rt_up "prod-001" Requests.new_price
       ProductService.products_db).1.2 = products_db' /\
    (Catalog.update_product Examples.rt_up "prod-001" Requests.new_price
       ProductService.products_db).2 = [out] /\
    CartService.handle_product_event Examples.rt_down (pub_event out)
      CartService.carts_db
    = (Response 200 (VDict (mk_dict [("status", VStr "processed")])),
       CartService.reprice_cart (VStr "prod-001") 129.5 <$> CartService.carts_db).
Proof.
  destruct (product_update_reaches_carts Examples.rt_up Examples.rt_down "prod-001"
              Requests.new_price ProductService.products_db _ _ _
              CartService.carts_db keyed_by_id_initial ltac:(discriminate) eq_refl)
    as (p' & Hp & _ & _ & H).
  rewrite lookup_insert_eq in Hp. injection Hp as <-.
  eexists _, _. split; [reflexivity|]. split; [reflexivity|]. exact H.
Defined.

(** X25. [PUT /products/<id>] of a stored product answers 200 with the
    product as it is stored afterwards, or raises. With a 200, the
    answer publishes nothing only when no field was written: the product
    is then as it was but for [updated_at], which is set all the same.
    When it publishes, it publishes one [product.updated] whose changes
    are not empty. *)
Theorem update_product_silent_when_unchanged (rt : Runtime) (product_id : string)
    (data : dict) (products_db products_db' : gmap string ProductService.Product)
    (p : ProductService.Product) (code : Z) (body : value)
    (outbox : list Published) :
  products_db !! product_id = Some p ->
  Catalog.update_product rt product_id data products_db
  = (Response code body, products_db', outbox) ->
  code = 200 /\
  exists p',
    products_db' = <[product_id := p']> products_db /\
    body = VDict (Catalog.product_json p') /\
    ProductService.updated_at p' = utcnow rt 0 /\
    (outbox = [] -> p' = ProductService.set_updated_at (utcnow rt 0) p) /\
    (outbox <> [] ->
     exists out event_data changes,
       outbox = [out] /\
       pub_type out = Some (VStr "product.updated") /\
       pub_data out = Some (VDict event_data) /\
       event_data !! "changes" = Some (VDict changes) /\
       dict_empty changes = false).
Proof.
  intros Hp. unfold Catalog.update_product. rewrite Hp.
  pose proof (update_fields_changes rt Catalog.updatable_fields data p ∅) as [_ Hsame].
  destruct (Catalog.update_fields _ _ _ _ _) as [[[] p1] changes]; [|discriminate].
  simpl in Hsame.
  destruct (dict_empty changes) eqn:He; intros [= <- <- <- <-];
    (split; [reflexivity|]); eexists; (split; [reflexivity|]);
    (split; [reflexivity|]); (split; [reflexivity|]); split; try done.
  - intros _. by rewrite Hsame.
  - intros _. eexists _, _, changes. by repeat split.
Qed.

(** The price of the headphones sent as the int 150 changes it; sent
    again, it changes nothing and nothing is published. *)
Lemma update_product_silent_when_unchanged_witness :
  exists p1 out,
    Catalog.update_product Examples.rt_up "prod-001" Requests.price_150
      ProductService.products_db
    = (Response 200 (VDict (Catalog.product_json p1)),
       <["prod-001" := p1]> ProductService.products_db, [out]) /\
    ProductService.price p1 = 150%float /\
    (Catalog.update_product Examples.rt_down "prod-001" Requests.price_150
       (<["prod-001" := p1]> ProductService.products_db)).2 = [] /\
    (Catalog.update_product Examples.rt_down "prod-001" Requests.price_150
       (<["prod-001" := p1]> ProductService.products_db)).1.2 !! "prod-001"
    = Some (ProductService.set_updated_at (utcnow Examples.rt_down 0) p1).
Proof.
  eexists _, _. split; [reflexivity|]. split; [reflexivity|].
  split; [reflexivity|].
  match goal with
  | |- (Catalog.update_product ?rt ?k ?d ?db).1.2 !! _ = Some (_ _ ?p1) =>
      destruct (update_product_silent_when_unchanged rt k d db _ p1 _ _ _
                  (lookup_insert_eq _ _ _) eq_refl)
        as (_ & p' & Hdb & _ & _ & Hsame & _)
  end.
  rewrite (Hsame eq_refl) in Hdb.
  refine (eq_trans (f_equal (fun m => m !! "prod-001") Hdb) _).
  apply lookup_insert_eq.
Defined.

(** ** product-service: the stock loop *)

Section StockLoop.
Import ProductService.

Lemma less_demand_lookup lines (products_db : gmap string Product) k :
  less_demand lines products_db !! k
  = (fun p => set_stock (stock p - demand k lines) p) <$> products_db !! k.
Proof.
  unfold less_demand. rewrite map_lookup_imap.
  by destruct (products_db !! k).
Qed.

Lemma less_demand_nil (products_db : gmap string Product) :
  less_demand [] products_db = products_db.
Proof.
  apply map_eq. intros k. rewrite less_demand_lookup.
  destruct (products_db !! k) as [p|]; [|done]. simpl.
  rewrite Z.sub_0_r. by destruct p.
Qed.

Lemma less_demand_skip pid q lines (products_db : gmap string Product) :
  products_db !! pid = None ->
  less_demand ((pid, q) :: lines) products_db = less_demand lines products_db.
Proof.
  intros Hnone. apply map_eq. intros k. rewrite !less_demand_lookup.
  destruct (products_db !! k) as [p|] eqn:Hk; [|done]. simpl.
  destruct (String.eqb_spec pid k) as [->|]; [congruence|]. done.
Qed.

Lemma less_demand_cons pid q lines (products_db : gmap string Product) product :
  products_db !! pid = Some product ->
  less_demand ((pid, q) :: lines) products_db
  = less_demand lines (<[pid := set_stock (stock product - q) product]> products_db).
Proof.
  intros Hp. apply map_eq. intros k. rewrite !less_demand_lookup.
  destruct (decide (pid = k)) as [<-|Hne].
  - rewrite lookup_insert_eq, Hp. simpl. rewrite String.eqb_refl.
    unfold set_stock. simpl. do 2 f_equal. lia.
  - rewrite lookup_insert_ne by done.
    destruct (products_db !! k) as [p|]; [|done]. simpl.
    destruct (String.eqb_spec pid k); [done|]. done.
Qed.

Lemma demand_app k (l1 l2 : list (string * Z)) :
  demand k (l1 ++ l2)%list = demand k l1 + demand k l2.
Proof.
  induction l1 as [|[pid q] l1 IH]; [done|]. simpl. rewrite IH. lia.
Qed.

Lemma less_demand_app (l1 l2 : list (string * Z)) (products_db : gmap string Product) :
  less_demand l2 (less_demand l1 products_db) = less_demand (l1 ++ l2)%list products_db.
Proof.
  apply map_eq. intros k. rewrite !less_demand_lookup.
  destruct (products_db !! k) as [p|]; [|done]. simpl.
  rewrite demand_app. unfold set_stock. simpl. do 2 f_equal. lia.
Qed.

Lemma line_of_Some item pid q :
  line_of item = Some (pid, q) ->
  exists d, as_dict item = Some d /\
            default VNone (d !! "product_id") = VStr pid /\
            default (VInt 0) (d !! "quantity") = VInt q.
Proof.
  unfold line_of. destruct (as_dict item) as [d|]; [|discriminate].
  destruct (d !! "product_id") as [[|s| | | |]|] eqn:Hp; try discriminate.
  destruct (default (VInt 0) (d !! "quantity")) eqn:Hq; try discriminate.
  intros [= <- <-]. exists d. by rewrite Hp.
Qed.

(** The loop on items that are all well formed. *)
Lemma reduce_stock_lines items lines (products_db : gmap string Product) :
  mapM line_of items = Some lines ->
  reduce_stock items products_db = (true, less_demand lines products_db).
Proof.
  intros H. apply mapM_Some in H. revert products_db.
  induction H as [|item [pid q] rest lines Hl _ IH]; intros products_db.
  - by rewrite less_demand_nil.
  - apply line_of_Some in Hl as (d & Hd & Hp & Hq).
    simpl. rewrite Hd, Hp, Hq.
    destruct (products_db !! pid) as [product|] eqn:E.
    + by rewrite IH, <- less_demand_cons.
    + by rewrite IH, less_demand_skip.
Qed.

(** The loop stops at the first item that is no dict; what it wrote
    before stays. *)
Lemma reduce_stock_stops items lines bad rest (products_db : gmap string Product) :
  mapM line_of items = Some lines -> as_dict bad = None ->
  reduce_stock (items ++ bad :: rest)%list products_db
  = (false, less_demand lines products_db).
Proof.
  intros H Hbad. apply mapM_Some in H. revert products_db.
  induction H as [|item [pid q] items' lines Hl _ IH]; intros products_db.
  - simpl. by rewrite Hbad, less_demand_nil.
  - apply line_of_Some in Hl as (d & Hd & Hp & Hq).
    simpl. rewrite Hd, Hp, Hq.
    destruct (products_db !! pid) as [product|] eqn:E.
    + by rewrite IH, <- less_demand_cons.
    + by rewrite IH, less_demand_skip.
Qed.

End StockLoop.

(** X26. [order.placed] whose items all carry a str product id and an
    int quantity (or none, which counts as 0) is answered 200, and every
    stored product is left with its stock less the units that the items
    ask for of it, summed over the items; items of products that are not
    stored are passed over. Nothing remembers the delivery: the same
    event delivered again subtracts the same units again. *)
Theorem order_placed_subtracts_demand (event event_data : dict) (items : list value)
    (lines : list (string * Z))
    (products_db : gmap string ProductService.Product) :
  event !! "type" = Some (VStr "order.placed") ->
  event !! "data" = Some (VDict event_data) ->
  event_data !! "items" = Some (VList items) ->
  mapM line_of items = Some lines ->
  let processed := Response 200 (VDict (mk_dict [("status", VStr "processed")])) in
  ProductService.handle_order_event event products_db
  = (processed, less_demand lines products_db) /\
  (forall k,
     ProductService.stock <$> less_demand lines products_db !! k
     = (fun p => ProductService.stock p - demand k lines) <$> products_db !! k) /\
  ProductService.handle_order_event event (less_demand lines products_db)
  = (processed, less_demand (lines ++ lines)%list products_db).
Proof.
  intros Ht Hd Hi Hl processed.
  assert (Hrun : forall db, ProductService.handle_order_event event db
                            = (processed, less_demand lines db)).
  { intros db. unfold ProductService.handle_order_event.
    rewrite Ht, Hd. simpl. rewrite Hi. simpl.
    by rewrite (reduce_stock_lines _ _ _ Hl). }
  split; [apply Hrun|]. split.
  - intros k. rewrite less_demand_lookup. by destruct (products_db !! k).
  - by rewrite Hrun, less_demand_app.
Qed.

(** Two lines of smart watches, 3 and 4, and a line of a product that is
    not stored: 50 - 7 = 43. *)
Lemma order_placed_subtracts_demand_witness :
  exists products_db',
    ProductService.handle_order_event
      (Requests.order_placed [Requests.line_item "prod-002" 3;
                              Requests.line_item "prod-404" 9;
                              Requests.line_item "prod-002" 4])
      ProductService.products_db
    = (Response 200 (VDict (mk_dict [("status", VStr "processed")])), products_db') /\
    ProductService.stock <$> products_db' !! "prod-002" = Some 43 /\
    products_db' !! "prod-404" = None.
Proof.
  destruct (order_placed_subtracts_demand
              (Requests.order_placed [Requests.line_item "prod-002" 3;
                                      Requests.line_item "prod-404" 9;
                                      Requests.line_item "prod-002" 4])
              (mk_dict [("order_id", VStr "order-3f2a9c1e");
                        ("items", VList [Requests.line_item "prod-002" 3;
                                         Requests.line_item "prod-404" 9;
                                         Requests.line_item "prod-002" 4]);
                        ("action", VStr "stock_reduction_needed")])
              [Requests.line_item "prod-002" 3; Requests.line_item "prod-404" 9;
               Requests.line_item "prod-002" 4]
              [("prod-002", 3); ("prod-404", 9); ("prod-002", 4)]
              ProductService.products_db eq_refl eq_refl eq_refl eq_refl)
    as (Hrun & Hstock & _).
  eexists. split; [exact Hrun|]. split.
  - rewrite Hstock. reflexivity.
  - rewrite less_demand_lookup. reflexivity.
Defined.

(** X27. [order.placed] whose items hold something that is no dict
    after items that are well formed: the handler raises, and the stock
    of the items before the bad one is reduced all the same. Delivered
    again, the event raises again and reduces that stock a second
    time. *)
Theorem order_placed_raises_after_reducing (event event_data : dict)
    (items rest : list value) (bad : value) (lines : list (string * Z))
    (products_db : gmap string ProductService.Product) :
  event !! "type" = Some (VStr "order.placed") ->
  event !! "data" = Some (VDict event_data) ->
  event_data !! "items" = Some (VList (items ++ bad :: rest)%list) ->
  mapM line_of items = Some lines ->
  as_dict bad = None ->
  ProductService.handle_order_event event products_db
  = (Raised, less_demand lines products_db) /\
  ProductService.handle_order_event event (less_demand lines products_db)
  = (Raised, less_demand (lines ++ lines)%list products_db).
Proof.
  intros Ht Hd Hi Hl Hbad.
  assert (Hrun : forall db, ProductService.handle_order_event event db
                            = (Raised, less_demand lines db)).
  { intros db. unfold ProductService.handle_order_event.
    rewrite Ht, Hd. simpl. rewrite Hi. simpl.
    by rewrite (reduce_stock_stops _ _ _ _ _ Hl Hbad). }
  split; [apply Hrun|]. by rewrite Hrun, less_demand_app.
Qed.

(** Three smart watches, then a str where an item should be. *)
Lemma order_placed_raises_after_reducing_witness :
  exists products_db',
    ProductService.handle_order_event
      (Requests.order_placed [Requests.line_item "prod-002" 3; VStr "prod-001"])
      ProductService.products_db
    = (Raised, products_db') /\
    ProductService.stock <$> products_db' !! "prod-002" = Some 47.
Proof.
  destruct (order_placed_raises_after_reducing
              (Requests.order_placed [Requests.line_item "prod-002" 3; VStr "prod-001"])
              (mk_dict [("order_id", VStr "order-3f2a9c1e");
                        ("items", VList [Requests.line_item "prod-002" 3;
                                         VStr "prod-001"]);
                        ("action", VStr "stock_reduction_needed")])
              [Requests.line_item "prod-002" 3] [] (VStr "prod-001")
              [("prod-002", 3)]
              ProductService.products_db eq_refl eq_refl eq_refl eq_refl eq_refl)
    as (Hrun & _).
  eexists. split; [exact Hrun|].
  rewrite less_demand_lookup. reflexivity.
Defined.

(** ** payment-service: the manual route *)

(** X28. [POST /payments/process] answers 400 when one of [order_id],
    [user_id] and [amount] is missing, and then stores and publishes
    nothing. Otherwise, unless the amount fails to convert, the payment
    is stored under a fresh id, [GET /payments/<id>] returns the body of
    the answer, and one event is published: the answer is 200 with
    [payment.completed] when the payment was not declined and 402 with
    [payment.failed] when it was. The fields need only be there: an
    amount of 0, which the event route refuses, is charged here. *)
Theorem process_payment_endpoint_answers (cfg : PaymentProcessing.Config)
    (ch : PaymentProcessing.Chance) (rt : Runtime) (data : dict)
    (payments_db payments_db' : gmap string dict) (code : Z) (body : value)
    (outbox : list Published) :
  PaymentProcessing.process_payment_endpoint cfg ch rt data payments_db
  = (Response code body, payments_db', outbox) ->
  (code = 400 /\ payments_db' = payments_db /\ outbox = [] /\
   exists field, field ∈ ["order_id"; "user_id"; "amount"] /\ data !! field = None) \/
  (exists payment out amount x,
     body = VDict payment /\
     payments_db' = <[PaymentProcessing.new_payment_id rt := payment]> payments_db /\
     PaymentProcessing.get_payment (PaymentProcessing.new_payment_id rt) payments_db'
     = Response 200 body /\
     data !! "amount" = Some amount /\ to_float rt amount = Some x /\
     payment !! "amount" = Some (VFloat x) /\
     outbox = [out] /\
     pub_topic out = "payment-events" /\
     if PaymentProcessing.declined cfg ch
     then code = 402 /\ pub_type out = Some (VStr "payment.failed")
     else code = 200 /\ pub_type out = Some (VStr "payment.completed")).
Proof.
  unfold PaymentProcessing.process_payment_endpoint. intros H.
  destruct (filter _ _) as [|f l] eqn:Hf.
  - destruct (data !! "order_id") as [order_id|] eqn:Ho; [|left].
    2:{ simplify_eq. repeat split. exists "order_id". split; [set_solver | done]. }
    destruct (data !! "user_id") as [user_id|] eqn:Hu; [|left].
    2:{ simplify_eq. repeat split. exists "user_id". split; [set_solver | done]. }
    destruct (data !! "amount") as [amount|] eqn:Ha; [|left].
    2:{ simplify_eq. repeat split. exists "amount". split; [set_solver | done]. }
    destruct (to_float rt amount) as [x|] eqn:Hx; [|discriminate].
    right.
    set (payment := PaymentProcessing.make_payment cfg ch rt order_id user_id x
                      (default (VStr "credit_card") (data !! "payment_method"))) in *.
    assert (Hst : payment !! "status"
                  = Some (VStr (if PaymentProcessing.declined cfg ch
                                then "failed" else "completed")) /\
                  payment !! "amount" = Some (VFloat x)).
    { unfold payment, PaymentProcessing.make_payment.
      by destruct (PaymentProcessing.declined cfg ch). }
    destruct Hst as [Hst Hamount].
    unfold PaymentProcessing.process_payment in H. fold payment in H.
    cbv beta iota zeta in H. rewrite Hst in H.
    pose proof (outcome_event_type rt payment
                  (default VNone (payment !! "order_id"))
                  (default VNone (payment !! "user_id")) "Payment failed")
      as [Hty Htopic].
    rewrite Hst in Hty.
    injection H as <- <- <- <-.
    exists payment, (PaymentProcessing.outcome_event rt payment
                       (default VNone (payment !! "order_id"))
                       (default VNone (payment !! "user_id")) "Payment failed"),
      amount, x.
    split; [reflexivity|]. split; [reflexivity|].
    split; [unfold PaymentProcessing.get_payment; by rewrite lookup_insert_eq|].
    split; [reflexivity|]. split; [exact Hx|]. split; [exact Hamount|].
    split; [reflexivity|]. split; [exact Htopic|].
    destruct (PaymentProcessing.declined cfg ch); split; done.
  - left.
    assert (Hin : f ∈ filter (fun f => data !! f = None)
                           ["order_id"; "user_id"; "amount"]).
    { rewrite Hf. apply list_elem_of_here. }
    apply list_elem_of_filter in Hin as [Hnone Hreq].
    assert (code = 400 /\ payments_db' = payments_db /\ outbox = []) as (-> & -> & ->).
    { repeat case_match; by simplify_eq. }
    repeat split. by exists f.
Qed.

(** A payment of 0 for the sample order is completed. *)
Lemma process_payment_endpoint_answers_witness :
  exists payment out,
    PaymentProcessing.process_payment_endpoint Requests.no_failures Requests.unlucky
      Examples.rt_up Requests.pay_nothing PaymentService.payments_db
    = (Response 200 (VDict payment),
       <["pay-3f2a9c1e" := payment]> PaymentService.payments_db, [out]) /\
    payment !! "amount" = Some (VFloat 0) /\
    pub_type out = Some (VStr "payment.completed").
Proof.
  destruct (process_payment_endpoint_answers Requests.no_failures Requests.unlucky
              Examples.rt_up Requests.pay_nothing PaymentService.payments_db
              _ _ _ _ eq_refl)
    as [(Hcode & _) | (payment & out & amount & x & Hb & Hdb & _ & Ha & Hx & Hpa
                       & Hout & _ & _ & Hty)];
    [discriminate Hcode|].
  change (Some (VInt 0) = Some amount) in Ha. injection Ha as <-.
  simpl in Hx. injection Hx as <-.
  exists payment, out. split; [|split; [exact Hpa | exact Hty]].
  injection Hb as Hb. injection Hout as Hout.
  rewrite <- Hb, <- Hout. reflexivity.
Defined.
